(** * project-fire-backend: request handlers for users and employees

    A shallow embedding of the handlers of the two users controllers (the
    Mongoose one and the Prisma one) and of the employees controller, with
    the properties of deletion, registration, login, password reset,
    employee listing and employee update proved about them.

    Conventions.
    - A handler is a function from the persistent store and the request to
      the store it leaves behind and the response it emits; [Next e] is the
      call [next(error)] of a [catch] block.
    - JavaScript numbers are integers, [NaN] or an infinity: every number the
      handlers compute is an integer below 2^53, where floating point
      arithmetic is exact.
    - A value of an untyped request body is undefined, null, a boolean, a
      number, a string or an object with named fields, as JSON gives them;
      arrays are left out.
    - Strings are byte strings; case folding is that of ASCII letters.
    - Collaborators whose code is outside the repository (bcrypt, jsonwebtoken,
      the clock, [Number] on strings) are parameters. *)

From Stdlib Require Import ZArith Lia Ascii String.
From stdpp Require Import base strings list gmap pretty.

Open Scope string_scope.
Open Scope Z_scope.

(** ** JavaScript values *)

Module JS.

Inductive number : Type :=
  | NaN
  | PInf
  | NInf
  | Fin (z : Z).

#[warnings="-register-all"]
Inductive value : Type :=
  | JUndefined
  | JNull
  | JBool (b : bool)
  | JNum (n : number)
  | JStr (s : string)
  | JObject (fields : list (string * value)).

Definition number_eqb (a b : number) : bool :=
  match a, b with
  | PInf, PInf | NInf, NInf => true
  | Fin x, Fin y => x =? y
  | _, _ => false
  end.

(** [a === b] on the values above.  An object is equal to itself only, and
    the handlers compare a value of the body with a constant or a column,
    never with itself. *)
Definition strict_eq (a b : value) : bool :=
  match a, b with
  | JUndefined, JUndefined | JNull, JNull => true
  | JBool x, JBool y => Bool.eqb x y
  | JNum x, JNum y => number_eqb x y
  | JStr x, JStr y => String.eqb x y
  | _, _ => false
  end.

(** Truthiness of a value, of a string and of an optional string. *)
Definition truthy (v : value) : bool :=
  match v with
  | JUndefined | JNull => false
  | JBool b => b
  | JNum NaN => false
  | JNum (Fin z) => negb (z =? 0)
  | JNum _ => true
  | JStr s => negb (String.eqb s "")
  | JObject _ => true
  end.

Definition truthy_str (s : string) : bool := negb (String.eqb s "").

Definition truthy_opt (o : option string) : bool :=
  match o with
  | Some s => truthy_str s
  | None => false
  end.

(** [a - b] and [a * b]. *)
Definition sub (a b : number) : number :=
  match a, b with
  | NaN, _ | _, NaN => NaN
  | PInf, PInf | NInf, NInf => NaN
  | PInf, _ | _, NInf => PInf
  | NInf, _ | _, PInf => NInf
  | Fin x, Fin y => Fin (x - y)
  end.

Definition sign_mul (pos : bool) (z : Z) : number :=
  if z =? 0 then NaN
  else if Bool.eqb pos (0 <? z) then PInf else NInf.

Definition mul (a b : number) : number :=
  match a, b with
  | NaN, _ | _, NaN => NaN
  | Fin x, Fin y => Fin (x * y)
  | PInf, Fin y | Fin y, PInf => sign_mul true y
  | NInf, Fin y | Fin y, NInf => sign_mul false y
  | PInf, PInf | NInf, NInf => PInf
  | PInf, NInf | NInf, PInf => NInf
  end.

(** [a < b] and [a > b]; every comparison with [NaN] is false. *)
Definition lt (a b : number) : bool :=
  match a, b with
  | NaN, _ | _, NaN => false
  | _, NInf | PInf, _ => false
  | NInf, _ | _, PInf => true
  | Fin x, Fin y => x <? y
  end.

Definition gt (a b : number) : bool := lt b a.

(** [Math.ceil(a / b)]. *)
Definition ceil_div (a b : number) : number :=
  match a, b with
  | NaN, _ | _, NaN => NaN
  | Fin x, Fin y =>
      if y =? 0 then
        (if x =? 0 then NaN else if 0 <? x then PInf else NInf)
      else Fin (- ((- x) / y))
  | Fin _, _ => Fin 0
  | PInf, Fin y => if 0 <=? y then PInf else NInf
  | NInf, Fin y => if 0 <=? y then NInf else PInf
  | _, _ => NaN
  end.

(** [s.split(sep)] for a separator of one character. *)
Fixpoint split (sep : ascii) (s : string) : list string :=
  match s with
  | EmptyString => [ "" ]
  | String c s' =>
      if Ascii.eqb c sep then "" :: split sep s'
      else match split sep s' with
           | [] => [ String c "" ]
           | t :: ts => String c t :: ts
           end
  end.

Definition lower_ascii (c : ascii) : ascii :=
  let n := nat_of_ascii c in
  if ((65 <=? n) && (n <=? 90))%nat then ascii_of_nat (n + 32) else c.

Fixpoint toLowerCase (s : string) : string :=
  match s with
  | EmptyString => ""
  | String c s' => String (lower_ascii c) (toLowerCase s')
  end.

(** [hay.includes(needle)]. *)
Fixpoint includes (needle hay : string) : bool :=
  String.prefix needle hay ||
  match hay with
  | EmptyString => false
  | String _ hay' => includes needle hay'
  end.

(** [Number(v)], given [Number] on strings.  An object of a JSON body
    inherits [valueOf], which returns the object, and [toString], which
    prints [[object Object]]: its number is [NaN], unless it has a field
    [toString] of its own, which is no function, and the conversion throws a
    [TypeError]. *)
Definition toNumber (Number : string -> number) (v : value) : number :=
  match v with
  | JUndefined => NaN
  | JNull => Fin 0
  | JBool b => Fin (if b then 1 else 0)
  | JNum n => n
  | JStr s => Number s
  | JObject _ => NaN
  end.

Definition toNumber_throws (v : value) : bool :=
  match v with
  | JObject fields => existsb (fun kv => String.eqb (fst kv) "toString") fields
  | _ => false
  end.

(** [Number] on the decimal integer numerals: an optional sign and digits;
    the empty string is 0.  Used for the concrete requests below. *)
Definition is_digit (c : ascii) : bool :=
  let n := nat_of_ascii c in ((48 <=? n) && (n <=? 57))%nat.

Fixpoint digits_value (acc : Z) (s : string) : option Z :=
  match s with
  | EmptyString => Some acc
  | String c s' =>
      if is_digit c
      then digits_value (10 * acc + (Z.of_nat (nat_of_ascii c) - 48)) s'
      else None
  end.

Definition unsigned_decimal (s : string) : option Z :=
  match s with
  | EmptyString => None
  | _ => digits_value 0 s
  end.

Definition Number_decimal (s : string) : number :=
  match s with
  | EmptyString => Fin 0
  | String "-" r => from_option (fun z => Fin (- z)) NaN (unsigned_decimal r)
  | String "+" r => from_option Fin NaN (unsigned_decimal r)
  | _ => from_option Fin NaN (unsigned_decimal s)
  end.

End JS.

(** ** Errors, responses and the handler monad *)

Inductive Error : Type :=
  | HttpError (status : Z) (message : string)
  | Thrown (origin : string).

(** A computation over a store [S] that returns or throws; what it wrote
    before throwing stays written. *)
Definition M (S A : Type) : Type := S -> S * (Error + A).

Definition ret {S A} (a : A) : M S A := fun s => (s, inr a).

Definition throw {S A} (e : Error) : M S A := fun s => (s, inl e).

Definition bind {S A B} (m : M S A) (k : A -> M S B) : M S B :=
  fun s =>
    match m s with
    | (s', inl e) => (s', inl e)
    | (s', inr a) => k a s'
    end.

Definition get {S} : M S S := fun s => (s, inr s).

Definition modify {S} (f : S -> S) : M S unit := fun s => (f s, inr tt).

Definition createHttpError {S A} (status : Z) (message : string) : M S A :=
  throw (HttpError status message).

(** [Number(v)] where it can throw. *)
Definition Number_of {S} (Number : string -> JS.number) (v : JS.value)
  : M S JS.number :=
  if JS.toNumber_throws v then throw (Thrown "TypeError")
  else ret (JS.toNumber Number v).

(** [if (c) throw e;] *)
Definition throw_if {S} (c : bool) (e : Error) : M S unit :=
  if c then throw e else ret tt.

Notation "'let*' x ':=' m 'in' k" := (bind m (fun x => k))
  (at level 10, x pattern, m at level 100, k at level 200).

Notation "m1 ';;;' m2" := (bind m1 (fun _ => m2))
  (at level 100, right associativity).

(** [try { ... } catch (error) { next(error); }] around a handler body. *)
Inductive Outcome (R : Type) : Type :=
  | Responded (r : R)
  | Next (e : Error).
Arguments Responded {R} r.
Arguments Next {R} e.

Definition handler {S R} (body : M S R) : S -> S * Outcome R :=
  fun s =>
    match body s with
    | (s', inr r) => (s', Responded r)
    | (s', inl e) => (s', Next e)
    end.

(** ** The Prisma store

    The tables the Prisma handlers read and write, together with the three
    enumerations of the schema that the employee columns range over (the
    schema itself is not part of the controllers). *)

Module Prisma.
Import JS.

(** The roles that the controllers name, [Role.Admin] and [Role.Guest]. *)
Inductive Role : Type := Admin | Guest.

Definition Role_eqb (a b : Role) : bool :=
  match a, b with
  | Admin, Admin | Guest, Guest => true
  | _, _ => false
  end.

(** The generated enumeration object maps each name to itself. *)
Definition Role_of_value (v : value) : option Role :=
  match v with
  | JStr "Admin" => Some Admin
  | JStr "Guest" => Some Guest
  | _ => None
  end.

(** A row of the user table; the table is keyed by [id]. *)
Record User : Type := {
  user_email : string;
  user_firstName : string;
  user_lastName : string;
  user_password : string;
  user_role : Role;
  user_image : option string
}.

Record Employee : Type := {
  employee_id : string;
  employee_firstName : string;
  employee_lastName : string;
  employee_image : option string;
  employee_department : string;
  employee_salary : Z;
  employee_currency : string;
  employee_techStack : string;
  employee_isEmployed : bool;
  employee_isEmployedDate : Z
}.

Record Project : Type := {
  project_id : string;
  project_name : string
}.

(** A row of the join between employees and projects. *)
Record EmployeesOnProjects : Type := {
  eop_employeeId : string;
  eop_projectId : string;
  eop_partTime : bool
}.

Record Client : Type := {
  enum_Currency : list string;
  enum_Department : list string;
  enum_TechStack : list string;
  user : gmap string User;
  employee : list Employee;
  project : list Project;
  employeesOnProjects : list EmployeesOnProjects
}.

Definition set_user (f : gmap string User -> gmap string User) (c : Client)
  : Client :=
  {| enum_Currency := enum_Currency c;
     enum_Department := enum_Department c;
     enum_TechStack := enum_TechStack c;
     user := f (user c);
     employee := employee c;
     project := project c;
     employeesOnProjects := employeesOnProjects c |}.

Definition set_employee (f : list Employee -> list Employee) (c : Client)
  : Client :=
  {| enum_Currency := enum_Currency c;
     enum_Department := enum_Department c;
     enum_TechStack := enum_TechStack c;
     user := user c;
     employee := f (employee c);
     project := project c;
     employeesOnProjects := employeesOnProjects c |}.

Definition validation_error {A} : M Client A :=
  throw (Thrown "PrismaClientValidationError").

Definition in_enum (names : list string) (s : string) : bool :=
  existsb (String.eqb s) names.

(** *** String filters and the employee [where] object *)

Record StringFilter : Type := {
  contains : option string;
  mode_insensitive : bool
}.

#[warnings="-register-all"]
Inductive Condition : Type :=
  | C_firstName (f : StringFilter)
  | C_lastName (f : StringFilter)
  | C_AND (cs : list Condition)
  | C_OR (cs : list Condition).

Record EmployeeWhere : Type := {
  where_OR : list Condition;
  where_currency : option string;
  where_department : option string;
  where_techStack : option string;
  where_isEmployed : option bool
}.

(** PostgreSQL's [LIKE].  In a pattern a percent sign stands for any text,
    an underscore for any one character, and a backslash makes the character
    after it stand for itself; a pattern that ends in a lone backslash is
    refused by the database, which the patterns built below never do. *)
Definition like_any (rest : string -> bool) : string -> bool :=
  fix any (s : string) : bool :=
    rest s || match s with
              | EmptyString => false
              | String _ s' => any s'
              end.

Definition like_one (rest : string -> bool) (s : string) : bool :=
  match s with
  | EmptyString => false
  | String _ s' => rest s'
  end.

Definition like_char (c : ascii) (rest : string -> bool) (s : string) : bool :=
  match s with
  | EmptyString => false
  | String d s' => Ascii.eqb d c && rest s'
  end.

Fixpoint like (pattern : string) : string -> bool :=
  match pattern with
  | EmptyString => fun s => String.eqb s ""
  | String c p =>
      if Ascii.eqb c "%" then like_any (like p)
      else if Ascii.eqb c "_" then like_one (like p)
      else if Ascii.eqb c "\" then
        match p with
        | EmptyString => fun _ => false
        | String d p' => like_char d (like p')
        end
      else like_char c (like p)
  end.

(** A character that stands for itself in a pattern, and a text of such
    characters. *)
Definition literal_char (c : ascii) : bool :=
  negb (Ascii.eqb c "%" || Ascii.eqb c "_" || Ascii.eqb c "\").

Fixpoint literal (s : string) : bool :=
  match s with
  | EmptyString => true
  | String c s' => literal_char c && literal s'
  end.

(** [contains: needle] reaches the database as the pattern [%needle%], the
    needle as it is given; in the insensitive mode the comparison is
    [ILIKE], which folds the case of both sides.  An undefined [contains]
    puts no condition on the column. *)
Definition contains_pattern (needle : string) : string :=
  "%" +:+ needle +:+ "%".

Definition eval_filter (f : StringFilter) (column : string) : bool :=
  match contains f with
  | None => true
  | Some needle =>
      if mode_insensitive f
      then like (contains_pattern (toLowerCase needle)) (toLowerCase column)
      else like (contains_pattern needle) column
  end.

Fixpoint eval_condition (c : Condition) (e : Employee) : bool :=
  match c with
  | C_firstName f => eval_filter f (employee_firstName e)
  | C_lastName f => eval_filter f (employee_lastName e)
  | C_AND cs => forallb (fun c' => eval_condition c' e) cs
  | C_OR cs => existsb (fun c' => eval_condition c' e) cs
  end.

Definition eval_equals {A} (eqb : A -> A -> bool) (f : option A) (column : A)
  : bool :=
  match f with
  | None => true
  | Some v => eqb v column
  end.

Definition eval_where (w : EmployeeWhere) (e : Employee) : bool :=
  existsb (fun c => eval_condition c e) (where_OR w)
  && eval_equals String.eqb (where_currency w) (employee_currency e)
  && eval_equals String.eqb (where_department w) (employee_department e)
  && eval_equals String.eqb (where_techStack w) (employee_techStack e)
  && eval_equals Bool.eqb (where_isEmployed w) (employee_isEmployed e).

Definition valid_enum (names : list string) (f : option string) : bool :=
  match f with
  | None => true
  | Some v => in_enum names v
  end.

Definition valid_where (c : Client) (w : EmployeeWhere) : bool :=
  valid_enum (enum_Currency c) (where_currency w)
  && valid_enum (enum_Department c) (where_department w)
  && valid_enum (enum_TechStack c) (where_techStack w).

(** [prisma.employee.count({ where })] *)
Definition employee_count (w : EmployeeWhere) : M Client Z :=
  let* c := get in
  if valid_where c w
  then ret (Z.of_nat (length (List.filter (eval_where w) (employee c))))
  else validation_error.

(** *** Ordering *)

Inductive SortKey : Type :=
  | KStr (s : string)
  | KNum (z : Z).

Definition SortKey_leb (a b : SortKey) : bool :=
  match a, b with
  | KStr x, KStr y => String.leb x y
  | KNum x, KNum y => x <=? y
  | KStr _, KNum _ => true
  | KNum _, KStr _ => false
  end.

Fixpoint enum_index (names : list string) (s : string) : Z :=
  match names with
  | [] => 0
  | n :: names' => if String.eqb n s then 0 else 1 + enum_index names' s
  end.

(** The sort key of a scalar column; enumerations sort in declaration
    order.  [None] for a name that is no scalar column. *)
Definition sort_key (c : Client) (field : string) : option (Employee -> SortKey) :=
  if String.eqb field "id" then Some (fun e => KStr (employee_id e))
  else if String.eqb field "firstName" then Some (fun e => KStr (employee_firstName e))
  else if String.eqb field "lastName" then Some (fun e => KStr (employee_lastName e))
  else if String.eqb field "image" then Some (fun e => KStr (default "" (employee_image e)))
  else if String.eqb field "department"
  then Some (fun e => KNum (enum_index (enum_Department c) (employee_department e)))
  else if String.eqb field "salary" then Some (fun e => KNum (employee_salary e))
  else if String.eqb field "currency"
  then Some (fun e => KNum (enum_index (enum_Currency c) (employee_currency e)))
  else if String.eqb field "techStack"
  then Some (fun e => KNum (enum_index (enum_TechStack c) (employee_techStack e)))
  else if String.eqb field "isEmployed"
  then Some (fun e => KNum (if employee_isEmployed e then 1 else 0))
  else if String.eqb field "isEmployedDate"
  then Some (fun e => KNum (employee_isEmployedDate e))
  else None.

Fixpoint insert_by {A} (leb : A -> A -> bool) (x : A) (l : list A) : list A :=
  match l with
  | [] => [x]
  | y :: l' => if leb x y then x :: l else y :: insert_by leb x l'
  end.

Fixpoint sort_by {A} (leb : A -> A -> bool) (l : list A) : list A :=
  match l with
  | [] => []
  | x :: l' => insert_by leb x (sort_by leb l')
  end.

(** [orderBy: { [field]: direction }]; an undefined [orderBy] keeps the
    order of the table.  Strings are compared byte by byte here, where the
    database follows its collation. *)
Definition order_rows (c : Client) (orderBy : option (string * string))
  (rows : list Employee) : option (list Employee) :=
  match orderBy with
  | None => Some rows
  | Some (field, direction) =>
      match sort_key c field with
      | None => None
      | Some key =>
          if String.eqb direction "asc"
          then Some (sort_by (fun a b => SortKey_leb (key a) (key b)) rows)
          else if String.eqb direction "desc"
          then Some (sort_by (fun a b => SortKey_leb (key b) (key a)) rows)
          else None
      end
  end.

(** *** [findMany] with [skip], [take] and the included projects *)

Record ProjectRef : Type := {
  ref_partTime : bool;
  ref_id : string;
  ref_name : string
}.

Record EmployeeWithProjects : Type := {
  the_employee : Employee;
  projects : list ProjectRef
}.

Definition project_refs (c : Client) (e : Employee) : list ProjectRef :=
  flat_map
    (fun j =>
       if String.eqb (eop_employeeId j) (employee_id e)
       then match List.find (fun p => String.eqb (project_id p) (eop_projectId j))
                    (project c) with
            | Some p => [ {| ref_partTime := eop_partTime j;
                             ref_id := project_id p;
                             ref_name := project_name p |} ]
            | None => []
            end
       else [])
    (employeesOnProjects c).

Definition include_projects (c : Client) (e : Employee) : EmployeeWithProjects :=
  {| the_employee := e; projects := project_refs c e |}.

(** [skip] must be a non-negative integer; a negative [take] takes from the
    end of the list. *)
Definition window (skip take : option number) (rows : list Employee)
  : option (list Employee) :=
  match skip with
  | Some (Fin s) =>
      if s <? 0 then None else
      match take with
      | None => Some (drop (Z.to_nat s) rows)
      | Some (Fin t) =>
          if 0 <=? t
          then Some (firstn (Z.to_nat t) (drop (Z.to_nat s) rows))
          else Some (rev (firstn (Z.to_nat (- t)) (drop (Z.to_nat s) (rev rows))))
      | Some _ => None
      end
  | None =>
      match take with
      | None => Some rows
      | Some (Fin t) =>
          if 0 <=? t
          then Some (firstn (Z.to_nat t) rows)
          else Some (rev (firstn (Z.to_nat (- t)) (rev rows)))
      | Some _ => None
      end
  | Some _ => None
  end.

Record FindManyArgs : Type := {
  arg_where : EmployeeWhere;
  arg_orderBy : option (string * string);
  arg_skip : option number;
  arg_take : option number
}.

(** [prisma.employee.findMany({ where, orderBy, skip, take, include })] *)
Definition employee_findMany (a : FindManyArgs)
  : M Client (list EmployeeWithProjects) :=
  let* c := get in
  if valid_where c (arg_where a) then
    match order_rows c (arg_orderBy a)
            (List.filter (eval_where (arg_where a)) (employee c)) with
    | None => validation_error
    | Some ordered =>
        match window (arg_skip a) (arg_take a) ordered with
        | None => validation_error
        | Some rows => ret (map (include_projects c) rows)
        end
    end
  else validation_error.


(** *** Requests and responses of the Prisma handlers *)

(** What the authentication middleware leaves in [req.user]. *)
Record AuthUser : Type := {
  auth_id : string;
  auth_role : Role
}.

Record EmployeesQuery : Type := {
  q_searchTerm : option string;
  q_currency : option string;
  q_department : option string;
  q_techStack : option string;
  q_isEmployed : option string;
  q_orderByField : option string;
  q_orderDirection : option string;
  q_take : option string;
  q_page : option string
}.

Record PageInfo : Type := {
  total : number;
  currentPage : number;
  lastPage : number;
  perPage : number
}.

Record EmployeesPage : Type := {
  pageInfo : PageInfo;
  employees : list EmployeeWithProjects
}.

(** A user without its password, as [exclude(user, ['password'])] leaves it. *)
Record UserView : Type := {
  view_id : string;
  view_email : string;
  view_firstName : string;
  view_lastName : string;
  view_role : Role;
  view_image : option string
}.

Inductive Response : Type :=
  | Json_employees (status : Z) (body : EmployeesPage)
  | Json_employee (status : Z) (body : Employee)
  | Json_user (status : Z) (body : UserView)
  | SendStatus (status : Z).

(** *** employeesController.ts *)

Section EmployeesController.

Variable Number : string -> number.

(** [x && f(x)] on a string [x]: a falsy [x] is the result. *)
Definition and_then (x : string) (y : option string) : option string :=
  if truthy_str x then y else Some x.

(** The [OR] of the [where] object. *)
Definition search_conditions (searchTerm : string) : list Condition :=
  [ C_AND
      [ C_firstName
          {| contains := and_then searchTerm (split " " searchTerm !! 0%nat);
             mode_insensitive := true |};
        C_lastName
          {| contains := and_then searchTerm (split " " searchTerm !! 1%nat);
             mode_insensitive := true |} ];
    C_firstName
      {| contains := and_then searchTerm (Some searchTerm);
         mode_insensitive := true |};
    C_lastName
      {| contains := and_then searchTerm (Some searchTerm);
         mode_insensitive := true |} ].

Definition is_JSON_space (c : ascii) : bool :=
  let n := nat_of_ascii c in
  ((n =? 32) || (n =? 9) || (n =? 10) || (n =? 13))%nat.

Fixpoint trim_left (s : string) : string :=
  match s with
  | String c s' => if is_JSON_space c then trim_left s' else s
  | EmptyString => ""
  end.

Fixpoint trim_right (s : string) : string :=
  match s with
  | String c s' =>
      match trim_right s' with
      | EmptyString => if is_JSON_space c then "" else String c ""
      | t => String c t
      end
  | EmptyString => ""
  end.

(** [JSON.parse(s)] where a boolean is wanted.  The texts [true] and [false]
    are the booleans.  Every other text is taken to end the request in an
    error: [JSON.parse] throws on most of them, and of the values it yields
    the query validation rejects all but the filter objects on a boolean,
    which are left out here. *)
Definition JSON_parse_boolean {S} (s : string) : M S bool :=
  let t := trim_right (trim_left s) in
  if String.eqb t "true" then ret true
  else if String.eqb t "false" then ret false
  else throw (Thrown "JSON.parse").

(** [x ? x : undefined] *)
Definition if_truthy (x : option string) : option string :=
  if truthy_opt x then x else None.

Definition skip_of (q : EmployeesQuery) : number :=
  if truthy_opt (q_page q) && truthy_opt (q_take q)
  then mul (sub (Number (default "" (q_page q))) (Fin 1))
           (Number (default "" (q_take q)))
  else Fin 0.

Definition orderBy_of (q : EmployeesQuery) : option (string * string) :=
  if truthy_opt (q_orderByField q) && truthy_opt (q_orderDirection q)
  then Some (default "" (q_orderByField q), default "" (q_orderDirection q))
  else None.

Definition where_of (q : EmployeesQuery) : M Client EmployeeWhere :=
  let searchTerm := default "" (q_searchTerm q) in
  let* isEmployed :=
    if truthy_opt (q_isEmployed q)
    then let* b := JSON_parse_boolean (default "" (q_isEmployed q)) in ret (Some b)
    else ret None in
  ret {| where_OR := search_conditions searchTerm;
         where_currency := if_truthy (q_currency q);
         where_department := if_truthy (q_department q);
         where_techStack := if_truthy (q_techStack q);
         where_isEmployed := isEmployed |}.

Definition pageInfo_of (q : EmployeesQuery) (count : Z)
  (found : list EmployeeWithProjects) : PageInfo :=
  let total := if (0 <? Z.of_nat (length found)) then Fin count else Fin 0 in
  let lastPage :=
    if truthy_opt (q_take q)
    then ceil_div total (Number (default "" (q_take q)))
    else if gt total (Fin 0) then Fin 1 else Fin 0 in
  let currentPage :=
    if truthy_opt (q_page q)
    then (if gt (Number (default "" (q_page q))) lastPage
          then Fin 1
          else Number (default "" (q_page q)))
    else if gt total (Fin 0) then Fin 1 else Fin 0 in
  let perPage :=
    if truthy_opt (q_take q) then Number (default "" (q_take q)) else total in
  {| total := total;
     currentPage := currentPage;
     lastPage := lastPage;
     perPage := perPage |}.

Definition getEmployees_body (q : EmployeesQuery) : M Client Response :=
  let skip := skip_of q in
  let orderBy := orderBy_of q in
  let* where_ := where_of q in
  let* count := employee_count where_ in
  let* found :=
    employee_findMany
      {| arg_where := where_;
         arg_orderBy := orderBy;
         arg_skip := if lt skip (Fin count) then Some skip else None;
         arg_take :=
           if truthy_opt (q_take q)
           then Some (Number (default "" (q_take q)))
           else None |} in
  ret (Json_employees 200
         {| pageInfo := pageInfo_of q count found; employees := found |}).

Definition getEmployees (q : EmployeesQuery) : Client -> Client * Outcome Response :=
  handler (getEmployees_body q).

End EmployeesController.

(** *** updateEmployee *)

Record UpdateEmployeeBody : Type := {
  body_firstName : value;
  body_lastName : value;
  body_department : value;
  body_salary : value;
  body_currency : value;
  body_techStack : value;
  body_isEmployed : value
}.

Record UpdateEmployeeReq : Type := {
  ue_user : option AuthUser;
  ue_employeeId : string;
  ue_body : UpdateEmployeeBody
}.

Record EmployeeUpdateData : Type := {
  data_firstName : value;
  data_lastName : value;
  data_department : value;
  data_salary : value;
  data_currency : value;
  data_techStack : value;
  data_isEmployed : value;
  data_isEmployedDate : option Z
}.

(** [loggedInUser?.role !== Role.Admin] *)
Definition not_Admin (u : option AuthUser) : bool :=
  match u with
  | Some a => negb (Role_eqb (auth_role a) Admin)
  | None => true
  end.

(** [prisma.employee.findUnique({ where: { id } })] *)
Definition employee_findUnique (id : string) : M Client (option Employee) :=
  let* c := get in
  ret (List.find (fun e => String.eqb (employee_id e) id) (employee c)).

(** The update operation [{ set: v }] on a field: an object with the one
    field [set]. *)
Definition set_operation (v : value) : option value :=
  match v with
  | JObject [ (name, x) ] => if String.eqb name "set" then Some x else None
  | _ => None
  end.

(** A field of the [data] object against its column: an undefined field
    leaves the column alone, a value of the column's type replaces it, and
    so does the operation [{ set: v }] on such a value; any other value is
    refused. *)
Definition string_field (v : value) (old : string) : option string :=
  match v with
  | JUndefined => Some old
  | JStr s => Some s
  | JObject _ =>
      match set_operation v with
      | Some (JStr s) => Some s
      | _ => None
      end
  | _ => None
  end.

Definition enum_field (names : list string) (v : value) (old : string)
  : option string :=
  match v with
  | JUndefined => Some old
  | JStr s => if in_enum names s then Some s else None
  | JObject _ =>
      match set_operation v with
      | Some (JStr s) => if in_enum names s then Some s else None
      | _ => None
      end
  | _ => None
  end.

(** The handler hands a number or nothing for the salary, so the update
    operations on numbers are left out. *)
Definition number_field (v : value) (old : Z) : option Z :=
  match v with
  | JUndefined => Some old
  | JNum (Fin z) => Some z
  | _ => None
  end.

Definition boolean_field (v : value) (old : bool) : option bool :=
  match v with
  | JUndefined => Some old
  | JBool b => Some b
  | JObject _ =>
      match set_operation v with
      | Some (JBool b) => Some b
      | _ => None
      end
  | _ => None
  end.

Definition apply_update (c : Client) (d : EmployeeUpdateData) (e : Employee)
  : option Employee :=
  firstName ← string_field (data_firstName d) (employee_firstName e);
  lastName ← string_field (data_lastName d) (employee_lastName e);
  department ← enum_field (enum_Department c) (data_department d) (employee_department e);
  salary ← number_field (data_salary d) (employee_salary e);
  currency ← enum_field (enum_Currency c) (data_currency d) (employee_currency e);
  techStack ← enum_field (enum_TechStack c) (data_techStack d) (employee_techStack e);
  isEmployed ← boolean_field (data_isEmployed d) (employee_isEmployed e);
  Some {| employee_id := employee_id e;
          employee_firstName := firstName;
          employee_lastName := lastName;
          employee_image := employee_image e;
          employee_department := department;
          employee_salary := salary;
          employee_currency := currency;
          employee_techStack := techStack;
          employee_isEmployed := isEmployed;
          employee_isEmployedDate :=
            default (employee_isEmployedDate e) (data_isEmployedDate d) |}.

(** The rows of the table once a row is updated.  Where a listing without
    an ordering finds the new version of the row is up to the database:
    PostgreSQL writes it behind the rows of a small table, and so it is kept
    here; the properties below are about the rows, not about their order. *)
Definition replace_employee (e' : Employee) (rows : list Employee)
  : list Employee :=
  (List.filter (fun e => negb (String.eqb (employee_id e) (employee_id e'))) rows
   ++ [ e' ])%list.

(** [prisma.employee.update({ where: { id }, data })] *)
Definition employee_update (id : string) (d : EmployeeUpdateData)
  : M Client Employee :=
  let* c := get in
  match List.find (fun e => String.eqb (employee_id e) id) (employee c) with
  | None => throw (Thrown "PrismaClientKnownRequestError")
  | Some e =>
      match apply_update c d e with
      | None => validation_error
      | Some e' =>
          modify (set_employee (replace_employee e'));;;
          ret e'
      end
  end.

Section UpdateEmployee.

Variable Number : string -> number.

(** The clock read by [new Date()]. *)
Variable now : Z.

Definition isEmployedDate_of (isEmployed : value) (e : Employee) : option Z :=
  if negb (strict_eq isEmployed JUndefined)
     && negb (strict_eq isEmployed (JBool (employee_isEmployed e)))
  then Some now
  else None.

(** [salary ? Number(salary) : undefined] *)
Definition salary_data (salary : value) : M Client value :=
  if truthy salary
  then let* n := Number_of Number salary in ret (JNum n)
  else ret JUndefined.

Definition updateEmployee_body (req : UpdateEmployeeReq) : M Client Response :=
  let loggedInUser := ue_user req in
  throw_if (not_Admin loggedInUser)
    (HttpError 403 "This user is not allowed to update employees.");;;
  let employeeId := ue_employeeId req in
  let* found := employee_findUnique employeeId in
  match found with
  | None => createHttpError 404 "Employee not found."
  | Some e =>
      let b := ue_body req in
      let isEmployedDate := isEmployedDate_of (body_isEmployed b) e in
      let* salary := salary_data (body_salary b) in
      let* updatedEmployee :=
        employee_update employeeId
          {| data_firstName := body_firstName b;
             data_lastName := body_lastName b;
             data_department := body_department b;
             data_salary := salary;
             data_currency := body_currency b;
             data_techStack := body_techStack b;
             data_isEmployed := body_isEmployed b;
             data_isEmployedDate := isEmployedDate |} in
      ret (Json_employee 200 updatedEmployee)
  end.

Definition updateEmployee (req : UpdateEmployeeReq)
  : Client -> Client * Outcome Response :=
  handler (updateEmployee_body req).

End UpdateEmployee.

(** *** The users controller over Prisma *)

Record DeleteUserReq : Type := {
  du_user : option AuthUser;
  du_userId : string
}.

Record UpdateUserBody : Type := {
  ub_email : value;
  ub_firstName : value;
  ub_lastName : value;
  ub_password : value;
  ub_role : value
}.

Record UpdateUserReq : Type := {
  uu_user : option AuthUser;
  uu_userId : string;
  uu_body : UpdateUserBody;
  uu_file : bool
}.

(** [loggedInUser?.id !== id] *)
Definition id_differs (u : option AuthUser) (id : string) : bool :=
  match u with
  | Some a => negb (String.eqb (auth_id a) id)
  | None => true
  end.

(** [prisma.user.findUnique({ where: { id } })] *)
Definition user_findUnique (id : string) : M Client (option User) :=
  let* c := get in ret (user c !! id).

(** [prisma.user.findUnique({ where: { email } })] *)
Definition user_findUnique_email (email : string)
  : M Client (option (string * User)) :=
  let* c := get in
  ret (List.find (fun kv => String.eqb (user_email kv.2) email)
         (map_to_list (user c))).

(** [prisma.user.delete({ where: { id } })] *)
Definition user_delete (id : string) : M Client unit :=
  let* c := get in
  match user c !! id with
  | None => throw (Thrown "PrismaClientKnownRequestError")
  | Some _ => modify (set_user (delete id))
  end.

Definition exclude_password (id : string) (u : User) : UserView :=
  {| view_id := id;
     view_email := user_email u;
     view_firstName := user_firstName u;
     view_lastName := user_lastName u;
     view_role := user_role u;
     view_image := user_image u |}.

Definition deleteUser_body (req : DeleteUserReq) : M Client Response :=
  let loggedInUser := du_user req in
  let userId := du_userId req in
  throw_if (not_Admin loggedInUser && id_differs loggedInUser userId)
    (HttpError 403 "This user is not allowed to delete other users.");;;
  let* found := user_findUnique userId in
  match found with
  | None => createHttpError 404 "User not found."
  | Some u =>
      throw_if (Role_eqb (user_role u) Admin && id_differs loggedInUser userId)
        (HttpError 403 "Cannot delete an admin user.");;;
      user_delete userId;;;
      ret (SendStatus 204)
  end.

Definition deleteUser (req : DeleteUserReq)
  : Client -> Client * Outcome Response :=
  handler (deleteUser_body req).

Record UserUpdateData : Type := {
  udata_email : value;
  udata_firstName : value;
  udata_lastName : value;
  udata_password : option string;
  udata_image : option string;
  udata_role : value
}.

Definition role_field (v : value) (old : Role) : option Role :=
  match v with
  | JUndefined => Some old
  | _ => Role_of_value v
  end.

Definition apply_user_update (d : UserUpdateData) (u : User) : option User :=
  email ← string_field (udata_email d) (user_email u);
  firstName ← string_field (udata_firstName d) (user_firstName u);
  lastName ← string_field (udata_lastName d) (user_lastName u);
  role ← role_field (udata_role d) (user_role u);
  Some {| user_email := email;
          user_firstName := firstName;
          user_lastName := lastName;
          user_password := default (user_password u) (udata_password d);
          user_role := role;
          user_image :=
            match udata_image d with
            | Some i => Some i
            | None => user_image u
            end |}.

(** [prisma.user.update({ where: { id }, data })]; the email column is
    unique. *)
Definition user_update (id : string) (d : UserUpdateData) : M Client User :=
  let* c := get in
  match user c !! id with
  | None => throw (Thrown "PrismaClientKnownRequestError")
  | Some u =>
      match apply_user_update d u with
      | None => validation_error
      | Some u' =>
          if existsb
               (fun kv => negb (String.eqb kv.1 id)
                          && String.eqb (user_email kv.2) (user_email u'))
               (map_to_list (user c))
          then throw (Thrown "PrismaClientKnownRequestError")
          else modify (set_user (insert id u'));;; ret u'
      end
  end.

Section UsersController.

(** [pattern.test] of the email pattern, and [bcrypt.hash]. *)
Variable pattern_test : string -> bool.
Variable bcrypt_hash : string -> Z -> string.

Definition bad_string (ok : string -> bool) (v : value) : bool :=
  match v with
  | JUndefined => false
  | JStr s => negb (ok s)
  | _ => true
  end.

Definition nonempty (s : string) : bool := negb (String.length s =? 0)%nat.

Definition image_url : string :=
  "https://st3.depositphotos.com/1017228/18878/i/450/depositphotos_188781580-stock-photo-handsome-cheerful-young-man-standing.jpg".

Definition updateUser_body (req : UpdateUserReq) : M Client Response :=
  let loggedInUser := uu_user req in
  let userId := uu_userId req in
  throw_if (not_Admin loggedInUser && id_differs loggedInUser userId)
    (HttpError 403 "This user is not allowed to update other users.");;;
  let* found := user_findUnique userId in
  match found with
  | None => createHttpError 404 "User not found."
  | Some u =>
      throw_if (Role_eqb (user_role u) Admin && id_differs loggedInUser userId)
        (HttpError 403 "Cannot update an admin user.");;;
      let b := uu_body req in
      throw_if
        (bad_string pattern_test (ub_email b)
         || bad_string nonempty (ub_firstName b)
         || bad_string nonempty (ub_lastName b)
         || bad_string nonempty (ub_password b)
         || (negb (strict_eq (ub_role b) JUndefined)
             && negb (strict_eq (ub_role b) (JStr "Admin"))
             && negb (strict_eq (ub_role b) (JStr "Guest"))))
        (HttpError 400 "Invalid input fields.");;;
      (match ub_email b with
       | JStr email =>
           if truthy_str email then
             let* existingUser := user_findUnique_email email in
             match existingUser with
             | Some (id, _) =>
                 throw_if (negb (String.eqb id userId))
                   (HttpError 409 "User already exists.")
             | None => ret tt
             end
           else ret tt
       | _ => ret tt
       end);;;
      let saltRounds := 10 in
      let hashedPassword :=
        match ub_password b with
        | JStr password =>
            if truthy_str password
            then Some (bcrypt_hash password saltRounds)
            else None
        | _ => None
        end in
      let imageData := if uu_file req then Some image_url else None in
      let* updatedUser :=
        user_update userId
          {| udata_email := ub_email b;
             udata_firstName := ub_firstName b;
             udata_lastName := ub_lastName b;
             udata_password := hashedPassword;
             udata_image := imageData;
             udata_role := ub_role b |} in
      ret (Json_user 200 (exclude_password userId updatedUser))
  end.

Definition updateUser (req : UpdateUserReq)
  : Client -> Client * Outcome Response :=
  handler (updateUser_body req).

End UsersController.

(** *** The other handlers of the two Prisma controllers *)

Inductive Reply : Type :=
  | Json_users (status : Z) (body : list UserView)
  | Json_employee_projects (status : Z) (body : EmployeeWithProjects).

(** [prisma.user.findMany()] *)
Definition user_findMany : M Client (list (string * User)) :=
  let* c := get in ret (map_to_list (user c)).

Definition getUsers_body : M Client Reply :=
  let* rows := user_findMany in
  ret (Json_users 200 (map (fun kv => exclude_password kv.1 kv.2) rows)).

Definition getUsers : Client -> Client * Outcome Reply :=
  handler getUsers_body.

Definition getUserById_body (userId : string) : M Client Response :=
  let* found := user_findUnique userId in
  match found with
  | None => createHttpError 404 "User not found."
  | Some u => ret (Json_user 200 (exclude_password userId u))
  end.

Definition getUserById (userId : string) : Client -> Client * Outcome Response :=
  handler (getUserById_body userId).

(** [prisma.employee.findUnique({ where: { id }, include })] *)
Definition employee_findUnique_projects (id : string)
  : M Client (option EmployeeWithProjects) :=
  let* c := get in
  ret (include_projects c
         <$> List.find (fun e => String.eqb (employee_id e) id) (employee c)).

Definition getEmployeeById_body (employeeId : string) : M Client Reply :=
  let* found := employee_findUnique_projects employeeId in
  match found with
  | None => createHttpError 404 "Employee not found."
  | Some e => ret (Json_employee_projects 200 e)
  end.

Definition getEmployeeById (employeeId : string)
  : Client -> Client * Outcome Reply :=
  handler (getEmployeeById_body employeeId).

Record CreateEmployeeBody : Type := {
  cb_firstName : value;
  cb_lastName : value;
  cb_department : value;
  cb_salary : value;
  cb_currency : value;
  cb_techStack : value
}.

Record CreateEmployeeReq : Type := {
  ce_user : option AuthUser;
  ce_body : CreateEmployeeBody;
  ce_file : bool
}.

Record EmployeeCreateData : Type := {
  cdata_firstName : value;
  cdata_lastName : value;
  cdata_image : option string;
  cdata_department : value;
  cdata_salary : number;
  cdata_currency : value;
  cdata_techStack : value;
  cdata_isEmployedDate : Z
}.

Record DeleteEmployeeReq : Type := {
  de_user : option AuthUser;
  de_employeeId : string
}.

Section EmployeeMutations.

Variable Number : string -> number.

(** The clock read by [new Date()]. *)
Variable now : Z.

(** [prisma.employee.create({ data })] and [prisma.employee.delete({ where })]:
    what they accept and write depends on the schema (generated ids, column
    defaults, referential actions), which the controllers do not show. *)
Variable employee_create : EmployeeCreateData -> M Client Employee.
Variable employee_delete : string -> M Client unit.

Definition createEmployee_body (req : CreateEmployeeReq) : M Client Response :=
  let loggedInUser := ce_user req in
  throw_if (not_Admin loggedInUser)
    (HttpError 403 "This user is not allowed to create employees.");;;
  let b := ce_body req in
  let imageData := if ce_file req then Some image_url else None in
  let* salary := Number_of Number (cb_salary b) in
  let* created :=
    employee_create
      {| cdata_firstName := cb_firstName b;
         cdata_lastName := cb_lastName b;
         cdata_image := imageData;
         cdata_department := cb_department b;
         cdata_salary := salary;
         cdata_currency := cb_currency b;
         cdata_techStack := cb_techStack b;
         cdata_isEmployedDate := now |} in
  ret (Json_employee 201 created).

Definition createEmployee (req : CreateEmployeeReq)
  : Client -> Client * Outcome Response :=
  handler (createEmployee_body req).

Definition deleteEmployee_body (req : DeleteEmployeeReq) : M Client Response :=
  let loggedInUser := de_user req in
  throw_if (not_Admin loggedInUser)
    (HttpError 403 "This user is not allowed to delete employees.");;;
  let employeeId := de_employeeId req in
  let* found := employee_findUnique employeeId in
  match found with
  | None => createHttpError 404 "Employee not found."
  | Some _ =>
      employee_delete employeeId;;;
      ret (SendStatus 204)
  end.

Definition deleteEmployee (req : DeleteEmployeeReq)
  : Client -> Client * Outcome Response :=
  handler (deleteEmployee_body req).

End EmployeeMutations.

End Prisma.

(** ** The Mongoose store and the users controller over it *)

Module Mongoose.
Import JS.

(** An ObjectId is kept as its 24 lower-case hexadecimal digits, which is
    what [toString()] prints. *)
Abbreviation ObjectId := string (only parsing).

Definition is_hex (c : ascii) : bool :=
  let n := nat_of_ascii c in
  (((48 <=? n) && (n <=? 57)) || ((97 <=? n) && (n <=? 102))
   || ((65 <=? n) && (n <=? 70)))%nat.

Fixpoint all_hex (s : string) : bool :=
  match s with
  | EmptyString => true
  | String c s' => is_hex c && all_hex s'
  end.

(** A character that UTF-8 encodes in one byte. *)
Definition is_one_byte (c : ascii) : bool := (nat_of_ascii c <? 128)%nat.

Fixpoint all_one_byte (s : string) : bool :=
  match s with
  | EmptyString => true
  | String c s' => is_one_byte c && all_one_byte s'
  end.

Definition hex_digit (n : nat) : ascii :=
  ascii_of_nat (if (n <? 10)%nat then 48 + n else 87 + n).

(** The bytes of a string in hexadecimal, two lower-case digits each. *)
Fixpoint hex_of_bytes (s : string) : string :=
  match s with
  | EmptyString => ""
  | String c s' =>
      let n := nat_of_ascii c in
      String (hex_digit (n / 16)) (String (hex_digit (n mod 16)) (hex_of_bytes s'))
  end.

(** The cast of a string to an ObjectId, [None] where Mongoose raises a
    [CastError].  The driver takes a string of 12 characters that make 12
    bytes for the bytes of the id, and a string of 24 hexadecimal digits for
    its digits; it refuses every other string. *)
Definition castObjectId (s : string) : option ObjectId :=
  if (String.length s =? 12)%nat && all_one_byte s
  then Some (hex_of_bytes s)
  else if (String.length s =? 24)%nat && all_hex s
  then Some (toLowerCase s)
  else None.

(** Modelled from the spec: the enumeration [UserRole] of [models/user],
    which is not among the sources; the spec gives the roles Admin and
    Guest. *)
Inductive UserRole : Type := Admin | Guest.

Definition UserRole_eqb (a b : UserRole) : bool :=
  match a, b with
  | Admin, Admin | Guest, Guest => true
  | _, _ => false
  end.

Record User : Type := {
  user_email : string;
  user_password : string;
  user_firstName : string;
  user_lastName : string;
  user_role : UserRole;
  user_image : option string;
  user_employee : option ObjectId
}.

Record Employee : Type := {
  employee_firstName : string;
  employee_lastName : string;
  employee_department : option string;
  employee_salary : option Z;
  employee_techStack : list string
}.

Record Token : Type := {
  token_user : ObjectId;
  token_token : string;
  token_expirationTime : Z
}.

(** An entry of the [employees] array of a project. *)
Record Membership : Type := {
  member_employee : ObjectId;
  member_partTime : bool
}.

Record Project : Type := {
  project_name : string;
  project_employees : list Membership
}.

(** A message handed to the mail transport. *)
Record Mail : Type := {
  mail_from : string;
  mail_to : string;
  mail_subject : string;
  mail_html : string
}.

(** The four collections, each keyed by [_id], the upload directory (path
    to content, in base64) and the messages handed to the mail transport. *)
Record Store : Type := {
  users : gmap string User;
  employees : gmap string Employee;
  tokens : gmap string Token;
  projects : gmap string Project;
  files : gmap string string;
  outbox : list Mail
}.

Definition set_users (f : gmap string User -> gmap string User) (s : Store) : Store :=
  {| users := f (users s); employees := employees s; tokens := tokens s;
     projects := projects s; files := files s; outbox := outbox s |}.

Definition set_employees (f : gmap string Employee -> gmap string Employee)
  (s : Store) : Store :=
  {| users := users s; employees := f (employees s); tokens := tokens s;
     projects := projects s; files := files s; outbox := outbox s |}.

Definition set_tokens (f : gmap string Token -> gmap string Token) (s : Store) : Store :=
  {| users := users s; employees := employees s; tokens := f (tokens s);
     projects := projects s; files := files s; outbox := outbox s |}.

Definition set_projects (f : gmap string Project -> gmap string Project)
  (s : Store) : Store :=
  {| users := users s; employees := employees s; tokens := tokens s;
     projects := f (projects s); files := files s; outbox := outbox s |}.

Definition set_files (f : gmap string string -> gmap string string) (s : Store) : Store :=
  {| users := users s; employees := employees s; tokens := tokens s;
     projects := projects s; files := f (files s); outbox := outbox s |}.

Definition set_outbox (f : list Mail -> list Mail) (s : Store) : Store :=
  {| users := users s; employees := employees s; tokens := tokens s;
     projects := projects s; files := files s; outbox := f (outbox s) |}.

(** *** Model operations *)

(** [Model.findOne(filter)]: a document of the collection that passes the
    filter. *)
Definition findOne {A} (p : A -> bool) (coll : gmap string A)
  : option (ObjectId * A) :=
  List.find (fun kv => p kv.2) (map_to_list coll).

(** [Model.find(filter)] *)
Definition find_all {A} (p : A -> bool) (coll : gmap string A)
  : list (ObjectId * A) :=
  List.filter (fun kv => p kv.2) (map_to_list coll).

(** [Model.findById(id)] on a string. *)
Definition findById {A} (coll : Store -> gmap string A) (id : string)
  : M Store (option (ObjectId * A)) :=
  match castObjectId id with
  | None => throw (Thrown "CastError")
  | Some oid =>
      let* s := get in
      ret (match coll s !! oid with
           | Some a => Some (oid, a)
           | None => None
           end)
  end.

(** [Model.findById(ref)] on a reference held by a document; an undefined
    reference finds nothing. *)
Definition findByRef {A} (coll : Store -> gmap string A) (ref : option ObjectId)
  : M Store (option (ObjectId * A)) :=
  let* s := get in
  ret (match ref with
       | Some oid =>
           match coll s !! oid with
           | Some a => Some (oid, a)
           | None => None
           end
       | None => None
       end).

(** [Model.create(doc)] with the [_id] the driver drew and the outcome of
    the schema validation; a taken [_id] is a duplicate key. *)
Definition create {A} (coll : Store -> gmap string A)
  (set : (gmap string A -> gmap string A) -> Store -> Store)
  (validate : A -> option Error) (id : ObjectId) (doc : A)
  : M Store (ObjectId * A) :=
  match validate doc with
  | Some e => throw e
  | None =>
      let* s := get in
      match coll s !! id with
      | Some _ => throw (Thrown "MongoServerError: E11000 duplicate key")
      | None => modify (set (insert id doc));;; ret (id, doc)
      end
  end.

(** [for (const x of xs) { await f(x); }] *)
Fixpoint for_of {S A} (xs : list A) (f : A -> M S unit) : M S unit :=
  match xs with
  | [] => ret tt
  | x :: xs' => f x;;; for_of xs' f
  end.

(** *** Requests and responses *)

Record UserView : Type := {
  view_id : ObjectId;
  view_email : string;
  view_firstName : string;
  view_lastName : string;
  view_role : UserRole;
  view_image : option string;
  view_employee : option (ObjectId * Employee)
}.

Inductive Response : Type :=
  | Json_session (status : Z) (user : UserView) (token : string) (expiresIn : Z)
  | Json_message (status : Z) (message : string).

Record UploadedFile : Type := {
  file_path : string;
  file_mimetype : string
}.

Record RegisterUserReq : Type := {
  reg_email : option string;
  reg_password : option string;
  reg_firstName : option string;
  reg_lastName : option string;
  reg_role : option UserRole;
  reg_department : option string;
  reg_salary : option Z;
  reg_techStack : list string;
  reg_file : option UploadedFile
}.

Record LoginUserReq : Type := {
  login_email : option string;
  login_password : option string;
  login_rememberMe : bool
}.

Record SendResetPasswordEmailReq : Type := {
  send_email : option string
}.

Record ResetPasswordReq : Type := {
  reset_userId : string;
  reset_token : string;
  reset_password : option string
}.

Record DeleteUserReq : Type := {
  delete_userId : string;
  delete_body_userId : option string
}.

(** The identifiers the driver draws for the documents a request creates. *)
Record Fresh : Type := {
  fresh_employee : ObjectId;
  fresh_user : ObjectId;
  fresh_token : ObjectId
}.

(** What the controller takes from outside the repository: bcrypt,
    jsonwebtoken with the secret of the environment (a token carries the
    time at which it is signed, the first argument of [jwt_sign], besides
    the user id and the expiry), the schemas of
    [models/user], [models/employee] and [models/token] (validation on
    creation and the default role), the addresses of the environment, and
    the template [resetpassword.hbs] compiled by handlebars and applied to a
    reset link (an error when the file cannot be read or rendered). *)
Record Collaborators : Type := {
  bcrypt_hash : string -> Z -> string;
  bcrypt_compare : string -> string -> bool;
  jwt_sign : Z -> ObjectId -> Z -> string;
  validate_user : User -> option Error;
  validate_employee : Employee -> option Error;
  validate_token : Token -> option Error;
  default_role : UserRole;
  EMAIL_ADDRESS : string;
  CLIENT_URL : string;
  resetpassword_hbs : string -> Error + string
}.

Section UsersController.

Variable env : Collaborators.

(** The clock as jsonwebtoken reads it when the handler signs a token. *)
Variable iat : Z.

(** *** registerUser *)

(** The variables [user] and [employee] of the handler, which its [catch]
    block reads. *)
Record Locals : Type := {
  local_user : option (ObjectId * User);
  local_employee : option (ObjectId * Employee)
}.

Definition lift {A} (m : M Store A) : M (Store * Locals) A :=
  fun sl =>
    match m (fst sl) with
    | (s', r) => ((s', snd sl), r)
    end.

Definition assign_employee (e : ObjectId * Employee) : M (Store * Locals) unit :=
  modify (fun sl =>
            (fst sl, {| local_user := local_user (snd sl);
                        local_employee := Some e |})).

Definition assign_user (u : ObjectId * User) : M (Store * Locals) unit :=
  modify (fun sl =>
            (fst sl, {| local_user := Some u;
                        local_employee := local_employee (snd sl) |})).

(** [fs.promises.readFile(path)] followed by [toString("base64")]. *)
Definition readFile_base64 (path : string) : M Store string :=
  let* s := get in
  match files s !! path with
  | Some content => ret content
  | None => throw (Thrown "ENOENT")
  end.

(** [fs.promises.unlink(path)] *)
Definition unlink (path : string) : M Store unit :=
  let* s := get in
  match files s !! path with
  | Some _ => modify (set_files (delete path))
  | None => throw (Thrown "ENOENT")
  end.

(** [`${x}`] of a possibly undefined string. *)
Definition template (x : option string) : string := default "undefined" x.

Definition read_image (file : option UploadedFile) : M Store (option string) :=
  match file with
  | None => ret None
  | Some f =>
      let* base64EncodedData := readFile_base64 (file_path f) in
      let fileType := split "/" (file_mimetype f) !! 1%nat in
      let imageData :=
        "data:image/" +:+ template fileType +:+ ";base64," +:+ base64EncodedData in
      unlink (file_path f);;;
      ret (Some imageData)
  end.

Definition has_email (email : string) (u : User) : bool :=
  String.eqb (user_email u) email.

(** The documents handed to [EmployeeModel.create] and [UserModel.create]. *)
Definition new_employee (req : RegisterUserReq) : Employee :=
  {| employee_firstName := default "" (reg_firstName req);
     employee_lastName := default "" (reg_lastName req);
     employee_department := reg_department req;
     employee_salary := reg_salary req;
     employee_techStack := reg_techStack req |}.

Definition new_user (req : RegisterUserReq) (hashedPassword : string)
  (imageData : option string) (employee_id : ObjectId) : User :=
  {| user_email := default "" (reg_email req);
     user_password := hashedPassword;
     user_firstName := default "" (reg_firstName req);
     user_lastName := default "" (reg_lastName req);
     user_role := default (default_role env) (reg_role req);
     user_image := imageData;
     user_employee := Some employee_id |}.

Definition registerUser_try (fresh : Fresh) (req : RegisterUserReq)
  : M (Store * Locals) Response :=
  throw_if (negb (truthy_opt (reg_email req)) || negb (truthy_opt (reg_password req))
            || negb (truthy_opt (reg_firstName req))
            || negb (truthy_opt (reg_lastName req)))
    (HttpError 400 "Missing required fields.");;;
  let email := default "" (reg_email req) in
  let password := default "" (reg_password req) in
  let firstName := default "" (reg_firstName req) in
  let lastName := default "" (reg_lastName req) in
  let* s := lift get in
  let existingUser := findOne (has_email email) (users s) in
  throw_if (bool_decide (is_Some existingUser))
    (HttpError 409 "Email already registered.");;;
  let saltRounds := 10 in
  let hashedPassword := bcrypt_hash env password saltRounds in
  let* imageData := lift (read_image (reg_file req)) in
  let* employee :=
    lift (create employees set_employees (validate_employee env)
            (fresh_employee fresh) (new_employee req)) in
  assign_employee employee;;;
  let* user :=
    lift (create users set_users (validate_user env)
            (fresh_user fresh)
            (new_user req hashedPassword imageData (fst employee))) in
  assign_user user;;;
  let expireLength := 1000 * 60 * 60 * 24 in
  let token := jwt_sign env iat (fst user) expireLength in
  ret (Json_session 201
         {| view_id := fst user;
            view_email := email;
            view_firstName := firstName;
            view_lastName := lastName;
            view_role := user_role (snd user);
            view_image := imageData;
            view_employee := Some employee |}
         token expireLength).

(** [doc.deleteOne()] *)
Definition deleteOne {A} (id : ObjectId) (coll : gmap string A) : gmap string A :=
  delete id coll.

(** The [catch] block: an employee created without its user is deleted,
    then the error goes to [next]. *)
Definition registerUser_catch (l : Locals) (s : Store) : Store :=
  match local_employee l, local_user l with
  | Some employee, None => set_employees (deleteOne (fst employee)) s
  | _, _ => s
  end.

Definition registerUser (fresh : Fresh) (req : RegisterUserReq)
  : Store -> Store * Outcome Response :=
  fun s =>
    match registerUser_try fresh req
            (s, {| local_user := None; local_employee := None |}) with
    | ((s', _), inr r) => (s', Responded r)
    | ((s', l), inl error) => (registerUser_catch l s', Next error)
    end.

(** *** loginUser *)

Definition populate_employee (s : Store) (u : User) : option (ObjectId * Employee) :=
  match user_employee u with
  | Some oid =>
      match employees s !! oid with
      | Some e => Some (oid, e)
      | None => None
      end
  | None => None
  end.

Definition loginUser_body (req : LoginUserReq) : M Store Response :=
  throw_if (negb (truthy_opt (login_email req))
            || negb (truthy_opt (login_password req)))
    (HttpError 400 "Missing required fields.");;;
  let email := default "" (login_email req) in
  let password := default "" (login_password req) in
  let* s := get in
  match findOne (has_email email) (users s) with
  | None => createHttpError 401 "Invalid email or password."
  | Some (id, user) =>
      let isPasswordValid := bcrypt_compare env password (user_password user) in
      throw_if (negb isPasswordValid)
        (HttpError 401 "Invalid email or password.");;;
      let expireLength :=
        if login_rememberMe req
        then 1000 * 60 * 60 * 24 * 7
        else 1000 * 60 * 60 * 24 in
      let token := jwt_sign env iat id expireLength in
      ret (Json_session 200
             {| view_id := id;
                view_email := email;
                view_firstName := user_firstName user;
                view_lastName := user_lastName user;
                view_role := user_role user;
                view_image := user_image user;
                view_employee := populate_employee s user |}
             token expireLength)
  end.

Definition loginUser (req : LoginUserReq) : Store -> Store * Outcome Response :=
  handler (loginUser_body req).

(** *** sendResetPasswordEmail *)

(** The filter [{ user: user._id }]. *)
Definition token_of (userId : ObjectId) (t : Token) : bool :=
  String.eqb (token_user t) userId.

(** [transporter.sendMail(mailOptions)] *)
Definition sendMail (m : Mail) : M Store unit :=
  modify (set_outbox (fun sent => (sent ++ [m])%list)).

Section SendResetPasswordEmail.

(** The clock read by [Date.now()]. *)
Variable now : Z.

Definition sendResetPasswordEmail_body (fresh : Fresh)
  (req : SendResetPasswordEmailReq) : M Store Response :=
  throw_if (negb (truthy_opt (send_email req)))
    (HttpError 400 "Email not provided.");;;
  let email := default "" (send_email req) in
  let* s := get in
  match findOne (has_email email) (users s) with
  | None => createHttpError 404 "User not found."
  | Some (user_id, _) =>
      let* tokenObj :=
        match findOne (token_of user_id) (tokens s) with
        | Some (_, t) => ret t
        | None =>
            let expireLength := 60 * 60 * 1000 in
            let* created :=
              create tokens set_tokens (validate_token env) (fresh_token fresh)
                {| token_user := user_id;
                   token_token := jwt_sign env iat user_id expireLength;
                   token_expirationTime := now + expireLength |} in
            ret (snd created)
        end in
      let resetLink :=
        CLIENT_URL env +:+ "/" +:+ token_user tokenObj +:+ "/reset-password/"
        +:+ token_token tokenObj +:+ "/" in
      match resetpassword_hbs env resetLink with
      | inl e => throw e
      | inr htmlToSend =>
          sendMail {| mail_from := EMAIL_ADDRESS env;
                      mail_to := email;
                      mail_subject := "Password Reset Request";
                      mail_html := htmlToSend |};;;
          ret (Json_message 200 "An email has been sent to reset your password.")
      end
  end.

Definition sendResetPasswordEmail (fresh : Fresh)
  (req : SendResetPasswordEmailReq) : Store -> Store * Outcome Response :=
  handler (sendResetPasswordEmail_body fresh req).

End SendResetPasswordEmail.

(** *** resetPassword *)

Definition with_password (password : string) (u : User) : User :=
  {| user_email := user_email u;
     user_password := password;
     user_firstName := user_firstName u;
     user_lastName := user_lastName u;
     user_role := user_role u;
     user_image := user_image u;
     user_employee := user_employee u |}.

(** The filter [{ user: user._id, token: token }]. *)
Definition token_matches (userId : ObjectId) (token : string) (t : Token) : bool :=
  String.eqb (token_user t) userId && String.eqb (token_token t) token.

Definition resetPassword_body (req : ResetPasswordReq) : M Store Response :=
  let userId := reset_userId req in
  let token := reset_token req in
  let* found := findById users userId in
  match found with
  | None => createHttpError 400 "Link is invalid or has expired."
  | Some (user_id, user) =>
      let* s := get in
      match findOne (token_matches user_id token) (tokens s) with
      | None => createHttpError 400 "Link is invalid or has expired."
      | Some (token_id, _) =>
          throw_if (negb (truthy_opt (reset_password req)))
            (HttpError 400 "Password not provided.");;;
          let password := default "" (reset_password req) in
          let saltRounds := 10 in
          let hashedPassword := bcrypt_hash env password saltRounds in
          modify (set_users (insert user_id (with_password hashedPassword user)));;;
          modify (set_tokens (deleteOne token_id));;;
          ret (Json_message 200 "Your password has been reset successfully.")
      end
  end.

Definition resetPassword (req : ResetPasswordReq)
  : Store -> Store * Outcome Response :=
  handler (resetPassword_body req).

(** *** deleteUser *)

(** The filter [{ "employees.employee": id }]. *)
Definition has_member (id : ObjectId) (p : Project) : bool :=
  existsb (fun m => String.eqb (member_employee m) id) (project_employees p).

(** [project.employees.filter(o => o.employee.toString() !== id.toString())] *)
Definition without_member (id : ObjectId) (p : Project) : Project :=
  {| project_name := project_name p;
     project_employees :=
       List.filter (fun m => negb (String.eqb (member_employee m) id))
         (project_employees p) |}.

(** [req.body.userId === userId] *)
Definition body_names (b : option string) (userId : string) : bool :=
  match b with
  | Some s => String.eqb s userId
  | None => false
  end.

Definition deleteUser_body (req : DeleteUserReq) : M Store Response :=
  let userId := delete_userId req in
  let* found := findById users userId in
  match found with
  | None => createHttpError 404 "User not found."
  | Some (user_id, user) =>
      throw_if (UserRole_eqb (user_role user) Admin)
        (HttpError 403 "Cannot delete an admin user.");;;
      throw_if (body_names (delete_body_userId req) userId)
        (HttpError 403 "You are not authorized to delete yourself.");;;
      let* employee := findByRef employees (user_employee user) in
      match employee with
      | None => createHttpError 404 "Employee not found."
      | Some (employee_id, _) =>
          let* s := get in
          let projects_found := find_all (has_member employee_id) (projects s) in
          for_of projects_found
            (fun project =>
               modify (set_projects
                         (insert (fst project)
                            (without_member employee_id (snd project)))));;;
          modify (set_users (deleteOne user_id));;;
          modify (set_employees (deleteOne employee_id));;;
          ret (Json_message 200 "User deleted successfully.")
      end
  end.

Definition deleteUser (req : DeleteUserReq) : Store -> Store * Outcome Response :=
  handler (deleteUser_body req).

End UsersController.

(** *** getUsers and getUserById *)

Inductive Reply : Type :=
  | Json_users (status : Z) (body : list UserView)
  | Json_user (status : Z) (body : UserView).

(** A user with its employee populated and its password left out. *)
Definition view_of (s : Store) (id : ObjectId) (u : User) : UserView :=
  {| view_id := id;
     view_email := user_email u;
     view_firstName := user_firstName u;
     view_lastName := user_lastName u;
     view_role := user_role u;
     view_image := user_image u;
     view_employee := populate_employee s u |}.

Definition getUsers_body : M Store Reply :=
  let* s := get in
  ret (Json_users 200 (map (fun kv => view_of s kv.1 kv.2) (map_to_list (users s)))).

Definition getUsers : Store -> Store * Outcome Reply := handler getUsers_body.

Definition getUserById_body (userId : string) : M Store Reply :=
  let* found := findById users userId in
  match found with
  | None => createHttpError 404 "User not found."
  | Some (id, user) =>
      let* s := get in
      ret (Json_user 200 (view_of s id user))
  end.

Definition getUserById (userId : string) : Store -> Store * Outcome Reply :=
  handler (getUserById_body userId).

End Mongoose.

(** ** The search of the employee listing, in the words of its description

    The definitions of this module follow the description of the search,
    not the code: the controller's [where] object is compared with them
    below. *)

Module SearchSpec.
Import JS.

(** [t] occurs in [s], letter case apart. *)
Definition substring_ci (t s : string) : Prop :=
  exists pre post, toLowerCase s = pre +:+ toLowerCase t +:+ post.

(** The token before the first space. *)
Fixpoint before_space (s : string) : string :=
  match s with
  | EmptyString => ""
  | String c s' => if Ascii.eqb c " " then "" else String c (before_space s')
  end.

(** What follows the first space, when there is one. *)
Fixpoint after_space (s : string) : option string :=
  match s with
  | EmptyString => None
  | String c s' => if Ascii.eqb c " " then Some s' else after_space s'
  end.

(** The term is a substring of the first name, or of the last name, or it
    contains a space and its first token is a substring of the first name
    while the token after that space is a substring of the last name. *)
Definition spec_search_match (term firstName lastName : string) : Prop :=
  substring_ci term firstName
  \/ substring_ci term lastName
  \/ exists rest,
       after_space term = Some rest
       /\ substring_ci (before_space term) firstName
       /\ substring_ci (before_space rest) lastName.

End SearchSpec.

(** ** Well-formed Mongoose stores *)

Module StoreInvariants.
Import Mongoose.

(** The (user, token) pairs of the reset tokens. *)
Definition token_pairs (s : Store) : list (string * string) :=
  map (fun kv => (token_user kv.2, token_token kv.2)) (map_to_list (tokens s)).

(** No two reset tokens carry the same user and the same token string. *)
Definition tokens_distinct (s : Store) : Prop := NoDup (token_pairs s).

(** The users that hold a reset token. *)
Definition token_users (s : Store) : list string :=
  map (fun kv => token_user kv.2) (map_to_list (tokens s)).

(** A user holds at most one reset token. *)
Definition one_token_per_user (s : Store) : Prop := NoDup (token_users s).

(** The employees that users are linked to. *)
Definition employee_links (s : Store) : list string :=
  omap (fun kv => user_employee kv.2) (map_to_list (users s)).

(** An employee is linked from at most one user. *)
Definition links_distinct (s : Store) : Prop := NoDup (employee_links s).

(** Every link of a user leads to an employee of the store. *)
Definition links_resolve (s : Store) : Prop :=
  forall id u eid,
    users s !! id = Some u -> user_employee u = Some eid ->
    is_Some (employees s !! eid).

(** The loop of [deleteUser] over the projects it found, as a fold over the
    collection. *)
Definition save_all (id : ObjectId) (found : list (ObjectId * Project))
  (coll : gmap string Project) : gmap string Project :=
  fold_left (fun m p => <[fst p := without_member id (snd p)]> m) found coll.

End StoreInvariants.

(** ** Who the caller of a Prisma handler is *)

Module Callers.
Import Prisma.

(** The caller has role Admin. *)
Definition caller_is_Admin (caller : option AuthUser) : Prop :=
  exists a, caller = Some a /\ auth_role a = Admin.

(** The caller is the user [id]. *)
Definition caller_is (id : string) (caller : option AuthUser) : Prop :=
  exists a, caller = Some a /\ auth_id a = id.

End Callers.

(** ** Sample stores and requests *)

Module Samples.
Import JS.

(** *** Prisma *)

Definition employee_row (id firstName lastName : string) (isEmployed : bool)
  : Prisma.Employee :=
  {| Prisma.employee_id := id;
     Prisma.employee_firstName := firstName;
     Prisma.employee_lastName := lastName;
     Prisma.employee_image := None;
     Prisma.employee_department := "Development";
     Prisma.employee_salary := 3000;
     Prisma.employee_currency := "EUR";
     Prisma.employee_techStack := "FullStack";
     Prisma.employee_isEmployed := isEmployed;
     Prisma.employee_isEmployedDate := 1000 |}.

Definition admin_row : Prisma.User :=
  {| Prisma.user_email := "root@fire.example";
     Prisma.user_firstName := "Ada";
     Prisma.user_lastName := "Root";
     Prisma.user_password := "$2b$10$admin";
     Prisma.user_role := Prisma.Admin;
     Prisma.user_image := None |}.

Definition guest_row : Prisma.User :=
  {| Prisma.user_email := "guest@fire.example";
     Prisma.user_firstName := "Gus";
     Prisma.user_lastName := "Guest";
     Prisma.user_password := "$2b$10$guest";
     Prisma.user_role := Prisma.Guest;
     Prisma.user_image := None |}.

Definition client : Prisma.Client :=
  {| Prisma.enum_Currency := [ "USD"; "EUR"; "BAM" ];
     Prisma.enum_Department := [ "Administration"; "Management"; "Development"; "Design" ];
     Prisma.enum_TechStack := [ "AdminNA"; "MgmtNA"; "FullStack"; "Backend"; "Frontend"; "UXUI" ];
     Prisma.user := {[ "admin-1" := admin_row; "guest-1" := guest_row ]};
     Prisma.employee :=
       [ employee_row "e1" "Jane" "Doe" true;
         employee_row "e2" "John" "Smith" true;
         employee_row "e3" "Mary Jane Doerr" "Watson" false;
         employee_row "e4" "Ann" "Lee" true ];
     Prisma.project := [ {| Prisma.project_id := "p1"; Prisma.project_name := "Fire" |} ];
     Prisma.employeesOnProjects :=
       [ {| Prisma.eop_employeeId := "e1"; Prisma.eop_projectId := "p1";
            Prisma.eop_partTime := false |} ] |}.

Definition listing (searchTerm take page : option string) : Prisma.EmployeesQuery :=
  {| Prisma.q_searchTerm := searchTerm;
     Prisma.q_currency := None;
     Prisma.q_department := None;
     Prisma.q_techStack := None;
     Prisma.q_isEmployed := None;
     Prisma.q_orderByField := None;
     Prisma.q_orderDirection := None;
     Prisma.q_take := take;
     Prisma.q_page := page |}.

Definition all_employees : Prisma.EmployeeWhere :=
  {| Prisma.where_OR := Prisma.search_conditions "";
     Prisma.where_currency := None;
     Prisma.where_department := None;
     Prisma.where_techStack := None;
     Prisma.where_isEmployed := None |}.

Definition called (searchTerm : string) : Prisma.EmployeeWhere :=
  {| Prisma.where_OR := Prisma.search_conditions searchTerm;
     Prisma.where_currency := None;
     Prisma.where_department := None;
     Prisma.where_techStack := None;
     Prisma.where_isEmployed := None |}.

(** Employee e3 of the sample once employed at time 2000. *)
Definition e3_employed : Prisma.Employee :=
  {| Prisma.employee_id := "e3";
     Prisma.employee_firstName := "Mary Jane Doerr";
     Prisma.employee_lastName := "Watson";
     Prisma.employee_image := None;
     Prisma.employee_department := "Development";
     Prisma.employee_salary := 3000;
     Prisma.employee_currency := "EUR";
     Prisma.employee_techStack := "FullStack";
     Prisma.employee_isEmployed := true;
     Prisma.employee_isEmployedDate := 2000 |}.

Definition the_admin : Prisma.AuthUser :=
  {| Prisma.auth_id := "admin-1"; Prisma.auth_role := Prisma.Admin |}.

Definition the_guest : Prisma.AuthUser :=
  {| Prisma.auth_id := "guest-1"; Prisma.auth_role := Prisma.Guest |}.

Definition set_isEmployed (id : string) (isEmployed : value)
  : Prisma.UpdateEmployeeReq :=
  {| Prisma.ue_user := Some the_admin;
     Prisma.ue_employeeId := id;
     Prisma.ue_body :=
       {| Prisma.body_firstName := JUndefined;
          Prisma.body_lastName := JUndefined;
          Prisma.body_department := JUndefined;
          Prisma.body_salary := JUndefined;
          Prisma.body_currency := JUndefined;
          Prisma.body_techStack := JUndefined;
          Prisma.body_isEmployed := isEmployed |} |}.

Definition rename (caller : Prisma.AuthUser) (id firstName : string)
  : Prisma.UpdateUserReq :=
  {| Prisma.uu_user := Some caller;
     Prisma.uu_userId := id;
     Prisma.uu_body :=
       {| Prisma.ub_email := JUndefined;
          Prisma.ub_firstName := JStr firstName;
          Prisma.ub_lastName := JUndefined;
          Prisma.ub_password := JUndefined;
          Prisma.ub_role := JUndefined |};
     Prisma.uu_file := false |}.

(** *** Mongoose *)

Definition ada_id : string := "64b000000000000000000001".
Definition bob_id : string := "64b000000000000000000002".
Definition cyd_id : string := "64b000000000000000000003".
Definition bob_employee_id : string := "64e000000000000000000002".
Definition cyd_employee_id : string := "64e000000000000000000003".
Definition token_id : string := "64f000000000000000000001".
Definition project_id : string := "64c000000000000000000001".
Definition other_project_id : string := "64c000000000000000000002".

Definition ada : Mongoose.User :=
  {| Mongoose.user_email := "ada@fire.example";
     Mongoose.user_password := "$2b$10$secret-ada";
     Mongoose.user_firstName := "Ada";
     Mongoose.user_lastName := "Root";
     Mongoose.user_role := Mongoose.Admin;
     Mongoose.user_image := None;
     Mongoose.user_employee := None |}.

Definition bob : Mongoose.User :=
  {| Mongoose.user_email := "bob@fire.example";
     Mongoose.user_password := "$2b$10$secret-bob";
     Mongoose.user_firstName := "Bob";
     Mongoose.user_lastName := "Builder";
     Mongoose.user_role := Mongoose.Guest;
     Mongoose.user_image := None;
     Mongoose.user_employee := Some bob_employee_id |}.

Definition cyd : Mongoose.User :=
  {| Mongoose.user_email := "cyd@fire.example";
     Mongoose.user_password := "$2b$10$secret-cyd";
     Mongoose.user_firstName := "Cyd";
     Mongoose.user_lastName := "Charm";
     Mongoose.user_role := Mongoose.Guest;
     Mongoose.user_image := None;
     Mongoose.user_employee := Some cyd_employee_id |}.

Definition employee_of (u : Mongoose.User) : Mongoose.Employee :=
  {| Mongoose.employee_firstName := Mongoose.user_firstName u;
     Mongoose.employee_lastName := Mongoose.user_lastName u;
     Mongoose.employee_department := Some "Development";
     Mongoose.employee_salary := Some 3000;
     Mongoose.employee_techStack := [ "FullStack" ] |}.

Definition member (id : string) (partTime : bool) : Mongoose.Membership :=
  {| Mongoose.member_employee := id; Mongoose.member_partTime := partTime |}.

Definition store : Mongoose.Store :=
  {| Mongoose.users := {[ ada_id := ada; bob_id := bob; cyd_id := cyd ]};
     Mongoose.employees :=
       {[ bob_employee_id := employee_of bob; cyd_employee_id := employee_of cyd ]};
     Mongoose.tokens :=
       {[ token_id := {| Mongoose.token_user := bob_id;
                         Mongoose.token_token := "reset.bob.1";
                         Mongoose.token_expirationTime := 3600000 |} ]};
     Mongoose.projects :=
       {[ project_id :=
            {| Mongoose.project_name := "Fire";
               Mongoose.project_employees :=
                 [ member bob_employee_id false; member cyd_employee_id true ] |};
          other_project_id :=
            {| Mongoose.project_name := "Water";
               Mongoose.project_employees := [ member bob_employee_id true ] |} ]};
     Mongoose.files := ∅;
     Mongoose.outbox := [] |}.

(** Stand-ins for bcrypt, jsonwebtoken and the schemas; the user schema
    wants an at sign in the email. *)
Definition collaborators : Mongoose.Collaborators :=
  {| Mongoose.bcrypt_hash := fun password _ => "$2b$10$" +:+ password;
     Mongoose.bcrypt_compare :=
       fun password hash => String.eqb ("$2b$10$" +:+ password) hash;
     Mongoose.jwt_sign := fun iat id _ => "jwt." +:+ id +:+ "." +:+ pretty iat;
     Mongoose.validate_user :=
       fun u => if includes "@" (Mongoose.user_email u) then None
                else Some (Thrown "ValidationError");
     Mongoose.validate_employee := fun _ => None;
     Mongoose.validate_token := fun _ => None;
     Mongoose.default_role := Mongoose.Guest;
     Mongoose.EMAIL_ADDRESS := "noreply@fire.example";
     Mongoose.CLIENT_URL := "https://fire.example";
     Mongoose.resetpassword_hbs :=
       fun resetLink => inr ("<a href=" +:+ resetLink +:+ ">Reset</a>") |}.

Definition fresh_ids : Mongoose.Fresh :=
  {| Mongoose.fresh_employee := "64e000000000000000000009";
     Mongoose.fresh_user := "64b000000000000000000009";
     Mongoose.fresh_token := "64f000000000000000000009" |}.

Definition registration (email : string) : Mongoose.RegisterUserReq :=
  {| Mongoose.reg_email := Some email;
     Mongoose.reg_password := Some "hunter2";
     Mongoose.reg_firstName := Some "Dee";
     Mongoose.reg_lastName := Some "Dale";
     Mongoose.reg_role := None;
     Mongoose.reg_department := Some "Design";
     Mongoose.reg_salary := Some 2500;
     Mongoose.reg_techStack := [ "UXUI" ];
     Mongoose.reg_file := None |}.

Definition login (email password : string) : Mongoose.LoginUserReq :=
  {| Mongoose.login_email := Some email;
     Mongoose.login_password := Some password;
     Mongoose.login_rememberMe := false |}.

Definition reset (userId token password : string) : Mongoose.ResetPasswordReq :=
  {| Mongoose.reset_userId := userId;
     Mongoose.reset_token := token;
     Mongoose.reset_password := Some password |}.

Definition deletion (userId : string) (caller : option string)
  : Mongoose.DeleteUserReq :=
  {| Mongoose.delete_userId := userId;
     Mongoose.delete_body_userId := caller |}.

End Samples.

(** ** Bodies of user updates *)

Module Updates.
Import JS Prisma.

(** A user with another role. *)
Definition with_role (role : Role) (u : User) : User :=
  {| user_email := user_email u;
     user_firstName := user_firstName u;
     user_lastName := user_lastName u;
     user_password := user_password u;
     user_role := role;
     user_image := user_image u |}.

(** A body that carries a role and nothing else. *)
Definition only_role (role : string) : UpdateUserBody :=
  {| ub_email := JUndefined;
     ub_firstName := JUndefined;
     ub_lastName := JUndefined;
     ub_password := JUndefined;
     ub_role := JStr role |}.

(** A text field of a body is left out or a string that is not empty. *)
Definition text_or_absent (v : value) : Prop :=
  v = JUndefined \/ exists s, v = JStr s /\ s <> "".

(** The role of a body is left out or one of the two roles. *)
Definition role_or_absent (v : value) : Prop :=
  v = JUndefined \/ v = JStr "Admin" \/ v = JStr "Guest".

End Updates.

(** ** The expenses router

    The route table that follows the employees controller.  The controllers
    and the authentication middleware are names only; paths are matched as
    Express matches the paths of a router made with its default options: the
    case of letters is ignored, one trailing slash is optional, and a
    parameter stands for one segment that is not empty. *)

Module ExpensesRouter.
Import JS.

Inductive Method : Type := GET | HEAD | POST | PUT | PATCH | DELETE | OPTIONS.

Definition Method_eqb (a b : Method) : bool :=
  match a, b with
  | GET, GET | HEAD, HEAD | POST, POST | PUT, PUT | PATCH, PATCH
  | DELETE, DELETE | OPTIONS, OPTIONS => true
  | _, _ => false
  end.

Inductive Handler : Type :=
  | authenticateToken
  | getExpenses
  | getExpenseById
  | getExpensesInfo
  | createExpense
  | updateExpense
  | deleteExpense.

Record Route : Type := {
  route_method : Method;
  route_path : string;
  route_stack : list Handler
}.

(** [router.get(path, ...handlers)] and the like add a route at the end. *)
Definition add (m : Method) (path : string) (stack : list Handler)
  (routes : list Route) : list Route :=
  (routes ++ [ {| route_method := m; route_path := path; route_stack := stack |} ])%list.

Definition router : list Route :=
  add DELETE "/:expenseId" [authenticateToken; deleteExpense]
    (add PATCH "/:expenseId" [authenticateToken; updateExpense]
       (add POST "/" [authenticateToken; createExpense]
          (add GET "/info" [authenticateToken; getExpensesInfo]
             (add GET "/:expenseId" [authenticateToken; getExpenseById]
                (add GET "/" [authenticateToken; getExpenses] []))))).

(** The paths of this router have at most one segment. *)
Inductive Pattern : Type :=
  | Root
  | Literal (name : string)
  | Param (name : string).

Definition compile (path : string) : Pattern :=
  match path with
  | String "/" EmptyString => Root
  | String "/" (String ":" name) => Param name
  | String "/" name => Literal name
  | _ => Literal path
  end.

(** The segment of ["/segment"] or ["/segment/"]. *)
Definition segment_of (path : string) : option string :=
  match split "/" path with
  | [ EmptyString; String c seg ] => Some (String c seg)
  | [ EmptyString; String c seg; EmptyString ] => Some (String c seg)
  | _ => None
  end.

Definition matches (p : Pattern) (path : string) : bool :=
  match p with
  | Root => String.eqb path "" || String.eqb path "/"
  | Literal name =>
      match segment_of path with
      | Some seg => String.eqb (toLowerCase seg) (toLowerCase name)
      | None => false
      end
  | Param _ => bool_decide (is_Some (segment_of path))
  end.

(** A route answers the requests of its method, and a [get] route answers
    [HEAD] requests as well. *)
Definition handles (r : Route) (m : Method) : bool :=
  Method_eqb (route_method r) m
  || (Method_eqb m HEAD && Method_eqb (route_method r) GET).

(** The stack of the first route that matches. *)
Definition dispatch (m : Method) (path : string) : option (list Handler) :=
  route_stack
    <$> List.find (fun r => handles r m && matches (compile (route_path r)) path)
          router.

End ExpensesRouter.

(** ** More sample data *)

Module MoreSamples.
Import JS Samples.

(** Dee, as her registration with the sample ids is answered. *)
Definition dee_view : Mongoose.UserView :=
  {| Mongoose.view_id := Mongoose.fresh_user fresh_ids;
     Mongoose.view_email := "dee@fire.example";
     Mongoose.view_firstName := "Dee";
     Mongoose.view_lastName := "Dale";
     Mongoose.view_role := Mongoose.Guest;
     Mongoose.view_image := None;
     Mongoose.view_employee :=
       Some (Mongoose.fresh_employee fresh_ids,
             Mongoose.new_employee (registration "dee@fire.example")) |}.

(** The times, in seconds, at which Dee registers and logs in and at which
    the other sample requests are made. *)
Definition registered_at : Z := 1700000000.
Definition logged_in_at : Z := 1700000060.
Definition asked_at : Z := 1700000120.

(** The token that Dee gets when she registers. *)
Definition dee_token : string :=
  Mongoose.jwt_sign collaborators registered_at (Mongoose.fresh_user fresh_ids)
    86400000.

(** The store once Dee has registered. *)
Definition store_with_dee : Mongoose.Store :=
  (Mongoose.registerUser collaborators registered_at fresh_ids
     (registration "dee@fire.example") store).1.

Definition ask_reset (email : option string) : Mongoose.SendResetPasswordEmailReq :=
  {| Mongoose.send_email := email |}.

(** The mail that Cyd gets. *)
Definition cyd_html : string :=
  "<a href=https://fire.example/64b000000000000000000003/reset-password/jwt.64b000000000000000000003.1700000120/>Reset</a>".

(** Lena, whose id is the twelve bytes of "abcdefghijkl", with a reset
    token that expired long ago. *)
Definition lena_id : string := "6162636465666768696a6b6c".
Definition lena_token_id : string := "64f000000000000000000002".

Definition lena : Mongoose.User :=
  {| Mongoose.user_email := "lena@fire.example";
     Mongoose.user_password := "$2b$10$secret-lena";
     Mongoose.user_firstName := "Lena";
     Mongoose.user_lastName := "Lund";
     Mongoose.user_role := Mongoose.Guest;
     Mongoose.user_image := None;
     Mongoose.user_employee := None |}.

Definition lena_token : Mongoose.Token :=
  {| Mongoose.token_user := lena_id;
     Mongoose.token_token := "reset.lena.1";
     Mongoose.token_expirationTime := 0 |}.

Definition store_with_lena : Mongoose.Store :=
  Mongoose.set_tokens (insert lena_token_id lena_token)
    (Mongoose.set_users (insert lena_id lena) store).

(** The sample store without its employees. *)
Definition store_without_employees : Mongoose.Store :=
  Mongoose.set_employees (fun _ => ∅) store.

(** The guest of the Prisma sample under another first name. *)
Definition gil_row : Prisma.User :=
  {| Prisma.user_email := "guest@fire.example";
     Prisma.user_firstName := "Gil";
     Prisma.user_lastName := "Guest";
     Prisma.user_password := "$2b$10$guest";
     Prisma.user_role := Prisma.Guest;
     Prisma.user_image := None |}.

(** The guest asks for the email of the admin. *)
Definition take_email (email : string) : Prisma.UpdateUserReq :=
  {| Prisma.uu_user := Some the_guest;
     Prisma.uu_userId := "guest-1";
     Prisma.uu_body :=
       {| Prisma.ub_email := JStr email;
          Prisma.ub_firstName := JUndefined;
          Prisma.ub_lastName := JUndefined;
          Prisma.ub_password := JUndefined;
          Prisma.ub_role := JUndefined |};
     Prisma.uu_file := false |}.

Definition guest_leaves : Prisma.DeleteUserReq :=
  {| Prisma.du_user := Some the_guest; Prisma.du_userId := "guest-1" |}.

(** The Prisma sample once e3 is employed at time 2000. *)
Definition client_e3_employed : Prisma.Client :=
  (Prisma.updateEmployee Number_decimal 2000 (set_isEmployed "e3" (JBool true))
     client).1.

Definition jane : Prisma.Employee := employee_row "e1" "Jane" "Doe" true.


(** A store operation that refuses whatever it is asked. *)
Definition refusing {A B} (_ : A) : M Prisma.Client B :=
  throw (Thrown "PrismaClientKnownRequestError").

End MoreSamples.

(** * Properties *)

(** ** The employee listing *)

Module EmployeesListing.
Import JS Prisma.

Lemma insert_by_length {A} (leb : A -> A -> bool) x l :
  length (insert_by leb x l) = S (length l).
Proof.
  induction l as [|y l IH]; simpl; [done|].
  destruct (leb x y); simpl; [done|]. by rewrite IH.
Qed.

Lemma sort_by_length {A} (leb : A -> A -> bool) l :
  length (sort_by leb l) = length l.
Proof.
  induction l as [|x l IH]; simpl; [done|].
  by rewrite insert_by_length, IH.
Qed.

Lemma order_rows_length c o rows rows' :
  order_rows c o rows = Some rows' -> length rows' = length rows.
Proof.
  unfold order_rows. destruct o as [[field direction]|]; [|by intros [= <-]].
  destruct (sort_key c field); [|done].
  destruct (String.eqb direction "asc"); [intros [= <-]; apply sort_by_length|].
  destruct (String.eqb direction "desc"); [intros [= <-]; apply sort_by_length|done].
Qed.

(** The ceiling of a quotient of integers, as [ceil_div] computes it. *)
Lemma ceil_div_lt n t p :
  0 < t -> n <= (p - 1) * t -> - ((- n) / t) < p.
Proof.
  intros Ht Hn.
  assert (- (p - 1) <= (- n) / t); [|lia].
  apply Z.div_le_lower_bound; lia.
Qed.

Lemma ceil_div_ge n t p :
  0 < t -> (p - 1) * t < n -> p <= - ((- n) / t).
Proof.
  intros Ht Hn.
  assert ((- n) / t < - p + 1); [|lia].
  apply Z.div_lt_upper_bound; lia.
Qed.

Lemma where_of_state q c r c' :
  where_of q c = (c', r) -> c' = c.
Proof.
  unfold where_of, JSON_parse_boolean, bind, ret, throw.
  destruct (truthy_opt (q_isEmployed q)); [|by intros [= <- _]].
  destruct (String.eqb _ "true"); [by intros [= <- _]|].
  destruct (String.eqb _ "false"); by intros [= <- _].
Qed.

Lemma where_of_OR q c w :
  where_of q c = (c, inr w) ->
  where_OR w = search_conditions (default "" (q_searchTerm q)).
Proof.
  unfold where_of, JSON_parse_boolean, bind, ret, throw.
  destruct (truthy_opt (q_isEmployed q)); [|by intros [= <-]].
  destruct (String.eqb _ "true"); [by intros [= <-]|].
  destruct (String.eqb _ "false"); [by intros [= <-]|done].
Qed.

Lemma employee_count_ok w c :
  valid_where c w = true ->
  employee_count w c
  = (c, inr (Z.of_nat (length (List.filter (eval_where w) (employee c))))).
Proof. intros H. unfold employee_count, bind, get. by rewrite H. Qed.

Lemma employee_findMany_ok a c ordered rows :
  valid_where c (arg_where a) = true ->
  order_rows c (arg_orderBy a)
    (List.filter (eval_where (arg_where a)) (employee c)) = Some ordered ->
  window (arg_skip a) (arg_take a) ordered = Some rows ->
  employee_findMany a c = (c, inr (map (include_projects c) rows)).
Proof.
  intros Hv Ho Hw. unfold employee_findMany, bind, get. by rewrite Hv, Ho, Hw.
Qed.

Lemma total_in_range (rows : list Employee) (c : Client) t off :
  1 <= t -> 0 <= off -> off < Z.of_nat (length rows) ->
  (0 <? Z.of_nat (length (map (include_projects c)
                            (firstn (Z.to_nat t) (drop (Z.to_nat off) rows)))))
  = true.
Proof.
  intros Ht Hoff Hlt. apply Z.ltb_lt.
  rewrite length_map, length_firstn, length_drop. lia.
Qed.

Lemma total_out_of_range (rows : list Employee) (c : Client) t :
  1 <= t ->
  (if 0 <? Z.of_nat (length (map (include_projects c) (firstn (Z.to_nat t) rows)))
   then Fin (Z.of_nat (length rows)) else Fin 0)
  = Fin (Z.of_nat (length rows)).
Proof.
  intros Ht. case_match eqn:Hlen; [done|].
  apply Z.ltb_ge in Hlen.
  rewrite length_map, length_firstn in Hlen. f_equal. lia.
Qed.

(** C5, as the code has it: for a page number and a page size that are
    integers of at least 1, and filters and an ordering that the store
    accepts, the listing answers 200; when the offset [(page-1)*take] is at or
    beyond the number of matching employees no offset is applied (the first
    [take] matching employees are returned) and [currentPage] is 1, otherwise
    the [take] employees from the offset on are returned and [currentPage] is
    the requested page. *)
Theorem getEmployees_pagination (Number : string -> number)
    (q : EmployeesQuery) (c : Client) (ps ts : string) (p t : Z)
    (w : EmployeeWhere) (rows : list Employee) :
  q_page q = Some ps -> q_take q = Some ts ->
  truthy_str ps = true -> truthy_str ts = true ->
  Number ps = Fin p -> Number ts = Fin t ->
  1 <= p -> 1 <= t ->
  where_of q c = (c, inr w) ->
  valid_where c w = true ->
  order_rows c (orderBy_of q) (List.filter (eval_where w) (employee c)) = Some rows ->
  let count := Z.of_nat (length rows) in
  let offset := (p - 1) * t in
  getEmployees Number q c =
    (c, Responded
          (Json_employees 200
             {| pageInfo :=
                  {| total := Fin count;
                     currentPage := if count <=? offset then Fin 1 else Fin p;
                     lastPage := Fin (- ((- count) / t));
                     perPage := Fin t |};
                employees :=
                  map (include_projects c)
                    (firstn (Z.to_nat t)
                       (if count <=? offset then rows
                        else drop (Z.to_nat offset) rows)) |})).
Proof.
  intros Hpage Htake Hps Hts Hp Ht Hp1 Ht1 Hwhere Hvalid Horder count offset.
  pose proof (order_rows_length _ _ _ _ Horder) as Hlen.
  assert (0 <= offset) as Hoff by (unfold offset; nia).
  assert (skip_of Number q = Fin offset) as Hskip.
  { unfold skip_of. rewrite Hpage, Htake. simpl. by rewrite Hps, Hts, Hp, Ht. }
  unfold getEmployees, handler, getEmployees_body, bind.
  rewrite Hwhere, (employee_count_ok _ _ Hvalid), Hskip, <- Hlen.
  fold count. rewrite Htake. simpl. rewrite Hts, Ht. simpl.
  destruct (Z.leb_spec count offset) as [Hout|Hin].
  - assert ((offset <? count) = false) as -> by lia.
    erewrite employee_findMany_ok; [|done|done|].
    2:{ simpl. by assert ((0 <=? t) = true) as -> by lia. }
    unfold pageInfo_of. rewrite Hpage, Htake. simpl.
    rewrite Hps, Hts, Hp, Ht.
    pose proof (total_out_of_range rows c t Ht1) as Htot.
    fold count in Htot. rewrite Htot. simpl.
    assert ((t =? 0) = false) as -> by lia. simpl.
    assert ((- (- count / t) <? p) = true) as ->; [|done].
    apply Z.ltb_lt, ceil_div_lt; lia.
  - assert ((offset <? count) = true) as -> by lia.
    erewrite employee_findMany_ok; [|done|done|].
    2:{ simpl. assert ((offset <? 0) = false) as -> by lia.
        by assert ((0 <=? t) = true) as -> by lia. }
    unfold pageInfo_of. rewrite Hpage, Htake. simpl.
    rewrite Hps, Hts, Hp, Ht.
    rewrite (total_in_range rows c t offset Ht1 Hoff Hin). simpl.
    assert ((t =? 0) = false) as -> by lia. simpl.
    assert ((- (- count / t) <? p) = false) as ->; [|done].
    apply Z.ltb_ge, ceil_div_ge; lia.
Qed.

Lemma employee_findMany_state a c c' r :
  employee_findMany a c = (c', r) -> c' = c.
Proof.
  unfold employee_findMany, validation_error, bind, get, ret, throw.
  repeat case_match; by intros [= <- _].
Qed.

Lemma employee_count_inv w c c' n :
  employee_count w c = (c', inr n) ->
  c' = c /\ valid_where c w = true
  /\ n = Z.of_nat (length (List.filter (eval_where w) (employee c))).
Proof.
  unfold employee_count, validation_error, bind, get, ret, throw.
  destruct (valid_where c w); [|done]. by intros [= <- <-].
Qed.

(** What a listing that is answered went through. *)
Lemma getEmployees_inv Number q c c' r :
  getEmployees Number q c = (c', Responded r) ->
  exists w found,
    c' = c
    /\ where_of q c = (c, inr w)
    /\ valid_where c w = true
    /\ employee_findMany
         {| arg_where := w;
            arg_orderBy := orderBy_of q;
            arg_skip :=
              if lt (skip_of Number q)
                   (Fin (Z.of_nat (length (List.filter (eval_where w) (employee c)))))
              then Some (skip_of Number q) else None;
            arg_take :=
              if truthy_opt (q_take q)
              then Some (Number (default "" (q_take q))) else None |} c
       = (c, inr found)
    /\ r = Json_employees 200
             {| pageInfo :=
                  pageInfo_of Number q
                    (Z.of_nat (length (List.filter (eval_where w) (employee c))))
                    found;
                employees := found |}.
Proof.
  unfold getEmployees, handler, getEmployees_body, bind.
  destruct (where_of q c) as [c1 [e|w]] eqn:Hw; [done|].
  apply where_of_state in Hw as Hc1. subst c1.
  destruct (employee_count w c) as [c2 [e|n]] eqn:Hn; [done|].
  apply employee_count_inv in Hn as (-> & Hv & ->).
  destruct (employee_findMany _ c) as [c3 [e|found]] eqn:Hf; [done|].
  apply employee_findMany_state in Hf as Hc3. subst c3.
  intros [= <- <-]. by exists w, found.
Qed.

Lemma employee_findMany_take_zero a c found :
  arg_take a = Some (Fin 0) ->
  employee_findMany a c = (c, inr found) -> found = [].
Proof.
  intros Ht. unfold employee_findMany, validation_error, bind, get, ret, throw.
  destruct (valid_where c (arg_where a)); [|done].
  destruct (order_rows _ _ _) as [ordered|]; [|done].
  unfold window. rewrite Ht.
  destruct (arg_skip a) as [[| | |z]|]; try done.
  - destruct (z <? 0); [done|]. by intros [= <-].
  - by intros [= <-].
Qed.

(** C10: in the metadata of an answered listing, [total] is the number of
    employees matching the filters when the returned list is not empty and 0
    when it is empty, as it is for a page size of 0 whatever the number of
    matching employees; and without a page size [perPage] is that [total]. *)
Theorem getEmployees_total (Number : string -> number)
    (q : EmployeesQuery) (c c' : Client) (status : Z) (body : EmployeesPage) :
  getEmployees Number q c = (c', Responded (Json_employees status body)) ->
  exists w,
    where_of q c = (c, inr w)
    /\ total (pageInfo body)
       = match employees body with
         | [] => Fin 0
         | _ :: _ =>
             Fin (Z.of_nat (length (List.filter (eval_where w) (employee c))))
         end
    /\ (truthy_opt (q_take q) = false ->
        perPage (pageInfo body) = total (pageInfo body))
    /\ (forall ts, q_take q = Some ts -> truthy_str ts = true ->
        Number ts = Fin 0 ->
        employees body = [] /\ total (pageInfo body) = Fin 0).
Proof.
  intros (w & found & -> & Hw & Hv & Hf & [= -> ->])%getEmployees_inv.
  exists w. split; [done|]. simpl. split; [by destruct found|]. split.
  - by intros ->.
  - intros ts Hts Htruthy Hzero.
    apply employee_findMany_take_zero in Hf as ->; [done|].
    simpl. rewrite Hts. simpl. by rewrite Htruthy, Hzero.
Qed.

(** *** The search term *)

Import SearchSpec.

Lemma append_nil_l s : "" +:+ s = s.
Proof. reflexivity. Qed.

Lemma append_cons c a b : String c a +:+ b = String c (a +:+ b).
Proof. reflexivity. Qed.

Lemma prefix_spec a b :
  String.prefix a b = true <-> exists post, b = a +:+ post.
Proof.
  revert a. induction b as [|d b IH]; intros [|c a]; simpl.
  - split; [by exists ""|done].
  - split; [done|]. by intros [post H].
  - split; [|done]. intros _. by exists (String d b).
  - destruct (Ascii.ascii_dec c d) as [->|Hne].
    + rewrite IH. split; intros [post H]; exists post.
      * by rewrite append_cons, <- H.
      * rewrite append_cons in H. congruence.
    + split; [done|]. intros [post H]. rewrite append_cons in H. congruence.
Qed.

Lemma includes_nil n : includes n "" = String.prefix n "" || false.
Proof. done. Qed.

Lemma includes_cons n c h :
  includes n (String c h) = String.prefix n (String c h) || includes n h.
Proof. done. Qed.

Lemma includes_spec n h :
  includes n h = true <-> exists pre post, h = pre +:+ n +:+ post.
Proof.
  induction h as [|c h IH].
  - rewrite includes_nil, orb_false_r, prefix_spec. split.
    + intros [post H]. by exists "", post.
    + intros (pre & post & H). destruct pre; [by exists post|done].
  - rewrite includes_cons, orb_true_iff, prefix_spec, IH. split.
    + intros [[post H]|(pre & post & H)].
      * by exists "", post.
      * exists (String c pre), post. by rewrite append_cons, <- H.
    + intros (pre & post & H). destruct pre as [|d pre].
      * left. by exists post.
      * right. exists pre, post. rewrite append_cons in H. congruence.
Qed.

Lemma substring_ci_spec t s :
  substring_ci t s <-> includes (toLowerCase t) (toLowerCase s) = true.
Proof. unfold substring_ci. by rewrite includes_spec. Qed.

Lemma like_any_unfold rest s :
  like_any rest s
  = rest s || match s with
              | EmptyString => false
              | String _ s' => like_any rest s'
              end.
Proof. by destruct s. Qed.

Lemma like_percent s : like "%" s = true.
Proof.
  change (like "%") with (like_any (fun s => String.eqb s "")).
  induction s as [|c s IH]; [done|].
  rewrite like_any_unfold, IH. apply orb_true_r.
Qed.

Lemma like_literal_char c p :
  literal_char c = true -> like (String c p) = like_char c (like p).
Proof.
  unfold literal_char. simpl.
  destruct (Ascii.eqb c "%"); [done|].
  destruct (Ascii.eqb c "_"); [done|].
  by destruct (Ascii.eqb c "\").
Qed.

(** A pattern of literal characters followed by a percent sign asks for a
    prefix. *)
Lemma like_literal_prefix t s :
  literal t = true -> like (t +:+ "%") s = String.prefix t s.
Proof.
  revert s. induction t as [|c t IH]; intros s Ht.
  - rewrite append_nil_l, like_percent. by destruct s.
  - simpl in Ht. apply andb_true_iff in Ht as [Hc Ht].
    rewrite append_cons, (like_literal_char _ _ Hc).
    destruct s as [|d s]; simpl; [done|].
    rewrite (IH _ Ht).
    destruct (Ascii.ascii_dec c d) as [->|Hne].
    + by rewrite Ascii.eqb_refl.
    + assert (Ascii.eqb d c = false) as ->; [|done].
      apply Ascii.eqb_neq. congruence.
Qed.

(** On a needle of literal characters [contains] is the substring test. *)
Lemma contains_literal t s :
  literal t = true -> like (contains_pattern t) s = includes t s.
Proof.
  intros Ht. unfold contains_pattern.
  change (like ("%" +:+ t +:+ "%")) with (like_any (like (t +:+ "%"))).
  induction s as [|c s IH].
  - rewrite like_any_unfold, includes_nil. by rewrite like_literal_prefix.
  - rewrite like_any_unfold, includes_cons, IH. by rewrite like_literal_prefix.
Qed.

Lemma contains_empty s : like (contains_pattern "") s = true.
Proof.
  rewrite contains_literal by done. apply includes_spec. by exists "", s.
Qed.

Lemma literal_char_lower c : literal_char (lower_ascii c) = literal_char c.
Proof. by destruct c as [[] [] [] [] [] [] [] []]. Qed.

Lemma literal_toLowerCase t : literal (toLowerCase t) = literal t.
Proof.
  induction t as [|c t IH]; simpl; [done|]. by rewrite literal_char_lower, IH.
Qed.

Lemma literal_before_space t : literal t = true -> literal (before_space t) = true.
Proof.
  induction t as [|c t IH]; simpl; [done|].
  intros [Hc Ht]%andb_true_iff.
  destruct (Ascii.eqb c " "); [done|]. simpl. by rewrite Hc, IH.
Qed.

Lemma literal_after_space t rest :
  literal t = true -> after_space t = Some rest -> literal rest = true.
Proof.
  induction t as [|c t IH]; simpl; [done|].
  intros [Hc Ht]%andb_true_iff.
  destruct (Ascii.eqb c " "); [by intros [= <-]|by apply IH].
Qed.

Lemma contains_insensitive_spec t s :
  literal t = true ->
  eval_filter {| contains := Some t; mode_insensitive := true |} s = true
  <-> substring_ci t s.
Proof.
  intros Ht. unfold eval_filter. cbn [contains mode_insensitive].
  rewrite contains_literal by (by rewrite literal_toLowerCase).
  symmetry. apply substring_ci_spec.
Qed.

Lemma split_space s :
  split " " s
  = before_space s :: match after_space s with
                      | Some rest => split " " rest
                      | None => []
                      end.
Proof.
  induction s as [|c s IH]; simpl; [done|].
  destruct (Ascii.eqb c " "); [|rewrite IH]; done.
Qed.

Lemma split_space_0 s : split " " s !! 0%nat = Some (before_space s).
Proof. by rewrite split_space. Qed.

Lemma split_space_1 s :
  split " " s !! 1%nat = before_space <$> after_space s.
Proof.
  rewrite split_space. destruct (after_space s) as [rest|]; simpl; [|done].
  by rewrite split_space.
Qed.

Lemma before_space_whole s : after_space s = None -> before_space s = s.
Proof.
  induction s as [|c s IH]; simpl; [done|].
  destruct (Ascii.eqb c " "); [done|]. intros H. by rewrite IH.
Qed.

Lemma substring_ci_empty s : substring_ci "" s.
Proof. by exists "", (toLowerCase s). Qed.

(** The [OR] of the [where] object against the description of the search,
    for a term of literal characters. *)
Lemma search_conditions_spec term e :
  literal term = true ->
  existsb (fun cnd => eval_condition cnd e) (search_conditions term) = true
  <-> spec_search_match term (employee_firstName e) (employee_lastName e).
Proof.
  intros Hterm.
  pose proof (literal_before_space _ Hterm) as Hfirst.
  unfold search_conditions, spec_search_match, and_then. simpl.
  rewrite split_space_0, split_space_1.
  destruct (truthy_str term) eqn:Htruthy.
  - rewrite orb_false_r, andb_true_r, !orb_true_iff, !andb_true_iff.
    rewrite !(contains_insensitive_spec term) by done.
    rewrite (contains_insensitive_spec (before_space term)) by done.
    destruct (after_space term) as [rest|] eqn:Hrest; simpl.
    + rewrite contains_insensitive_spec
        by (apply literal_before_space, (literal_after_space term); done).
      split.
      * intros [[H1 H2]|[H|H]]; [right; right; by exists rest|by left|by right; left].
      * intros [H|[H|(rest' & [= <-] & H1 & H2)]]; [right; by left|right; by right|by left].
    + rewrite (before_space_whole _ Hrest). unfold eval_filter at 1. simpl. split.
      * intros [[H _]|[H|H]]; [by left|by left|by right; left].
      * intros [H|[H|(rest' & [=] & _)]]; [right; by left|right; by right].
  - assert (term = "") as ->.
    { unfold truthy_str in Htruthy. apply negb_false_iff in Htruthy.
      by apply String.eqb_eq in Htruthy. }
    split; [intros _; left; apply substring_ci_empty|].
    intros _. unfold eval_filter. cbn [contains mode_insensitive].
    change (toLowerCase "") with "". by rewrite !contains_empty.
Qed.

Lemma toLowerCase_app a b :
  toLowerCase (a +:+ b) = toLowerCase a +:+ toLowerCase b.
Proof.
  induction a as [|c a IH]; [done|].
  rewrite append_cons. simpl. by rewrite IH.
Qed.

Lemma substring_ci_of_substring t s pre post :
  s = pre +:+ t +:+ post -> substring_ci t s.
Proof.
  intros ->. exists (toLowerCase pre), (toLowerCase post).
  by rewrite !toLowerCase_app.
Qed.

(** C6, as the code has it: for the [where] object of every listing request
    whose search term has no percent sign, underscore or backslash, an
    employee passes its [OR] exactly when the term is a case-insensitive
    substring of the first name, or of the last name, or the term has a
    space, the token before its first space is such a substring of the first
    name and the token after that space one of the last name.  So the term
    "Jane Doe" finds the employee called Jane Doe and every employee whose
    first name contains "Jane Doe". *)
Theorem search_term_semantics (q : EmployeesQuery) (c : Client)
    (w : EmployeeWhere) :
  where_of q c = (c, inr w) ->
  (literal (default "" (q_searchTerm q)) = true ->
   forall e,
     existsb (fun cnd => eval_condition cnd e) (where_OR w) = true
     <-> spec_search_match (default "" (q_searchTerm q))
           (employee_firstName e) (employee_lastName e))
  /\ (q_searchTerm q = Some "Jane Doe" ->
      forall e,
        (employee_firstName e = "Jane" /\ employee_lastName e = "Doe")
        \/ (exists pre post, employee_firstName e = pre +:+ "Jane Doe" +:+ post) ->
        existsb (fun cnd => eval_condition cnd e) (where_OR w) = true).
Proof.
  intros Hw. rewrite (where_of_OR _ _ _ Hw). split.
  - intros Hterm e. by apply search_conditions_spec.
  - intros -> e H. apply search_conditions_spec; [done|]. simpl.
    destruct H as [[Hf Hl]|(pre & post & Hf)].
    + right; right. exists "Doe". split; [done|]. simpl.
      rewrite Hf, Hl. split; by eapply (substring_ci_of_substring _ _ "" "").
    + left. by eapply substring_ci_of_substring.
Qed.

End EmployeesListing.

(** ** The employee update *)

Module EmployeeUpdate.
Import JS Prisma.

Lemma find_replace_employee id e' rows e :
  employee_id e' = id ->
  List.find (fun x => String.eqb (employee_id x) id) rows = Some e ->
  List.find (fun x => String.eqb (employee_id x) id) (replace_employee e' rows)
  = Some e'.
Proof.
  intros Hid _. unfold replace_employee. rewrite Hid.
  induction rows as [|x rows IH]; simpl.
  - by rewrite Hid, String.eqb_refl.
  - destruct (String.eqb (employee_id x) id) eqn:Hx; simpl; [done|].
    by rewrite Hx.
Qed.

Lemma apply_update_inv c d e e' :
  apply_update c d e = Some e' ->
  employee_id e' = employee_id e
  /\ boolean_field (data_isEmployed d) (employee_isEmployed e)
     = Some (employee_isEmployed e')
  /\ employee_isEmployedDate e'
     = default (employee_isEmployedDate e) (data_isEmployedDate d).
Proof.
  unfold apply_update. intros H.
  repeat (apply bind_Some in H as (? & ? & H)).
  injection H as <-. by simplify_eq/=.
Qed.

Lemma salary_data_inv Number v (c c' : Client) r :
  salary_data Number v c = (c', r) ->
  c' = c
  /\ forall d, r = inr d ->
       d = if truthy v then JNum (toNumber Number v) else JUndefined.
Proof.
  unfold salary_data, Number_of, bind, ret, throw.
  destruct (truthy v); [|by intros [= <- <-]; split; [|intros d [= <-]]].
  destruct (toNumber_throws v); intros [= <- <-]; (split; [done|]);
    by intros d [= <-].
Qed.

(** What an update that is answered went through. *)
Lemma updateEmployee_inv Number now req c c' r :
  updateEmployee Number now req c = (c', Responded r) ->
  exists e e',
    List.find (fun x => String.eqb (employee_id x) (ue_employeeId req))
      (employee c) = Some e
    /\ c' = set_employee (replace_employee e') c
    /\ r = Json_employee 200 e'
    /\ employee_id e' = employee_id e
    /\ boolean_field (body_isEmployed (ue_body req)) (employee_isEmployed e)
       = Some (employee_isEmployed e')
    /\ employee_isEmployedDate e'
       = default (employee_isEmployedDate e)
           (isEmployedDate_of now (body_isEmployed (ue_body req)) e).
Proof.
  unfold updateEmployee, handler, updateEmployee_body, employee_findUnique,
    employee_update, validation_error, createHttpError, throw_if, bind, get,
    ret, throw, modify.
  destruct (not_Admin (ue_user req)); [done|].
  destruct (List.find _ (employee c)) as [e|] eqn:Hfind; [|done].
  destruct (salary_data Number _ c) as [c1 [error|salary]] eqn:Hsalary;
    apply salary_data_inv in Hsalary as [-> _]; [done|].
  rewrite Hfind.
  match goal with
  | |- context [apply_update c ?d e] =>
      destruct (apply_update c d e) as [e'|] eqn:Happly; [|done]
  end.
  intros [= <- <-]. exists e, e'.
  apply apply_update_inv in Happly as (Hid & Hbool & Hdate). done.
Qed.

(** C8, as the code has it: in every update that is answered and whose
    [isEmployed] is a boolean or absent, the employment-start date is set to
    the time of the request when the boolean differs from the stored one,
    and keeps its stored value when [isEmployed] is absent or equal to the
    stored one.  An [isEmployed] that is the update operation [{ set: b }]
    always sets the date to the time of the request, also when [b] is the
    stored value. *)
Theorem updateEmployee_isEmployedDate (Number : string -> number) (now : Z)
    (req : UpdateEmployeeReq) (c c' : Client) (status : Z) (e' : Employee) :
  updateEmployee Number now req c = (c', Responded (Json_employee status e')) ->
  exists e,
    let supplied := body_isEmployed (ue_body req) in
    let differs := exists b, supplied = JBool b /\ b <> employee_isEmployed e in
    List.find (fun x => String.eqb (employee_id x) (ue_employeeId req))
      (employee c) = Some e
    /\ List.find (fun x => String.eqb (employee_id x) (ue_employeeId req))
         (employee c') = Some e'
    /\ (differs ->
        isEmployedDate_of now supplied e = Some now
        /\ employee_isEmployedDate e' = now)
    /\ (supplied = JUndefined \/ (exists b, supplied = JBool b) ->
        ~ differs ->
        (supplied = JUndefined \/ supplied = JBool (employee_isEmployed e))
        /\ isEmployedDate_of now supplied e = None
        /\ employee_isEmployed e' = employee_isEmployed e
        /\ employee_isEmployedDate e' = employee_isEmployedDate e)
    /\ (forall b, supplied = JObject [ ("set", JBool b) ] ->
        isEmployedDate_of now supplied e = Some now
        /\ employee_isEmployed e' = b
        /\ employee_isEmployedDate e' = now).
Proof.
  intros (e & e2 & Hfind & -> & [= -> <-] & Hid & Hbool & Hdate)%updateEmployee_inv.
  exists e. simpl. split; [done|]. split.
  { apply find_replace_employee with (e := e); [|done].
    rewrite Hid. apply List.find_some in Hfind as [_ H].
    by apply String.eqb_eq in H. }
  rewrite Hdate. unfold isEmployedDate_of.
  split; [|split].
  - intros (b & Hb & Hne). rewrite Hb. simpl.
    by destruct (employee_isEmployed e), b.
  - intros Hshape Hsame.
    destruct Hshape as [Hu|[b Hb]].
    + rewrite Hu in *. simpl in *. injection Hbool as <-. by repeat split; [left|..].
    + rewrite Hb in *. simpl in *. injection Hbool as <-.
      destruct (Bool.eqb b (employee_isEmployed e)) eqn:Heq.
      * apply Bool.eqb_prop in Heq as ->. by repeat split; [right|..].
      * exfalso. apply Hsame. exists b. split; [done|]. intros ->.
        by rewrite Bool.eqb_reflx in Heq.
  - intros b Hb. rewrite Hb in *. simpl in *. by injection Hbool as <-.
Qed.

End EmployeeUpdate.

(** ** The users controller over Mongoose *)

Module UsersMongoose.
Import JS Mongoose.

(** *** Queries on a collection *)

Lemma findOne_Some {A} (p : A -> bool) (coll : gmap string A) id a :
  findOne p coll = Some (id, a) -> coll !! id = Some a /\ p a = true.
Proof.
  unfold findOne. intros [Hin Hp]%List.find_some. split; [|done].
  by apply elem_of_map_to_list, list_elem_of_In.
Qed.

Lemma findOne_None {A} (p : A -> bool) (coll : gmap string A) :
  findOne p coll = None <-> forall id a, coll !! id = Some a -> p a = false.
Proof.
  unfold findOne. split.
  - intros H id a Ha.
    apply (List.find_none _ _ H (id, a)).
    by apply list_elem_of_In, elem_of_map_to_list.
  - intros H. destruct (List.find _ _) as [[id a]|] eqn:Hf; [|done].
    apply List.find_some in Hf as [Hin Hp].
    apply list_elem_of_In, elem_of_map_to_list in Hin.
    simpl in Hp. rewrite (H _ _ Hin) in Hp. done.
Qed.

Lemma findOne_is_Some {A} (p : A -> bool) (coll : gmap string A) id a :
  coll !! id = Some a -> p a = true -> is_Some (findOne p coll).
Proof.
  intros Ha Hp. destruct (findOne p coll) eqn:Hf; [done|].
  rewrite findOne_None in Hf. rewrite (Hf _ _ Ha) in Hp. done.
Qed.

Lemma find_all_spec {A} (p : A -> bool) (coll : gmap string A) id a :
  In (id, a) (find_all p coll) <-> coll !! id = Some a /\ p a = true.
Proof.
  unfold find_all. rewrite List.filter_In, <- list_elem_of_In.
  by rewrite elem_of_map_to_list.
Qed.

Lemma findById_Some {A} (coll : Store -> gmap string A) id oid a s :
  castObjectId id = Some oid -> coll s !! oid = Some a ->
  findById coll id s = (s, inr (Some (oid, a))).
Proof. intros Hc Ha. unfold findById, bind, get, ret. by rewrite Hc, Ha. Qed.

Lemma findById_inv {A} (coll : Store -> gmap string A) id s s' r :
  findById coll id s = (s', inr r) ->
  s' = s
  /\ exists oid, castObjectId id = Some oid
     /\ r = match coll s !! oid with
            | Some a => Some (oid, a)
            | None => None
            end.
Proof.
  unfold findById, bind, get, ret, throw.
  destruct (castObjectId id) as [oid|]; [|done].
  intros [= <- <-]. split; [done|]. by exists oid.
Qed.

(** *** Login *)

(** C9: of two login attempts that carry an email and a password, one whose
    email no user has and one whose email a user has but whose password does
    not match, both end in the error 401 with the same message, and neither
    changes the store. *)
Theorem login_failures_same_response (env : Collaborators) (iat : Z) (s : Store)
    (unknown known : LoginUserReq) :
  truthy_opt (login_email unknown) = true ->
  truthy_opt (login_password unknown) = true ->
  truthy_opt (login_email known) = true ->
  truthy_opt (login_password known) = true ->
  (forall id u, users s !! id = Some u ->
     user_email u <> default "" (login_email unknown)) ->
  (exists id u, users s !! id = Some u
     /\ user_email u = default "" (login_email known)) ->
  (forall id u, users s !! id = Some u ->
     user_email u = default "" (login_email known) ->
     bcrypt_compare env (default "" (login_password known)) (user_password u)
     = false) ->
  loginUser env iat unknown s = (s, Next (HttpError 401 "Invalid email or password."))
  /\ loginUser env iat known s = (s, Next (HttpError 401 "Invalid email or password.")).
Proof.
  intros He1 Hp1 He2 Hp2 Hunknown (id & u & Hu & Hemail) Hmismatch.
  unfold loginUser, handler, loginUser_body, createHttpError, throw_if, bind,
    get, ret, throw.
  rewrite He1, Hp1, He2, Hp2. simpl. split.
  - assert (findOne (has_email (default "" (login_email unknown))) (users s)
            = None) as ->; [|done].
    apply findOne_None. intros id' u' Hu'. unfold has_email.
    apply String.eqb_neq. by eapply Hunknown.
  - destruct (findOne (has_email (default "" (login_email known))) (users s))
      as [[id' u']|] eqn:Hfind.
    + apply findOne_Some in Hfind as [Hu' He'].
      apply String.eqb_eq in He'. by rewrite (Hmismatch _ _ Hu' He').
    + rewrite findOne_None in Hfind. specialize (Hfind _ _ Hu).
      unfold has_email in Hfind. apply String.eqb_neq in Hfind. done.
Qed.

(** *** Password reset *)

Import StoreInvariants.

Lemma NoDup_map_inj {A B} (f : A -> B) (l : list A) x y :
  NoDup (map f l) -> x ∈ l -> y ∈ l -> f x = f y -> x = y.
Proof.
  induction l as [|z l IH]; simpl; [by intros _ ?%elem_of_nil|].
  intros [Hz Hl]%NoDup_cons Hx Hy Hf.
  apply elem_of_cons in Hx as [->|Hx]; apply elem_of_cons in Hy as [->|Hy].
  - done.
  - exfalso. apply Hz. rewrite Hf. apply list_elem_of_In, in_map.
    by apply list_elem_of_In.
  - exfalso. apply Hz. rewrite <- Hf. apply list_elem_of_In, in_map.
    by apply list_elem_of_In.
  - by apply IH.
Qed.

Lemma tokens_distinct_spec s i j t1 t2 :
  tokens_distinct s ->
  tokens s !! i = Some t1 -> tokens s !! j = Some t2 ->
  token_user t1 = token_user t2 -> token_token t1 = token_token t2 ->
  i = j.
Proof.
  intros Hnd H1 H2 Hu Ht.
  assert ((i, t1) = (j, t2)) as [= -> _]; [|done].
  eapply NoDup_map_inj; [exact Hnd| | |].
  - by apply elem_of_map_to_list.
  - by apply elem_of_map_to_list.
  - simpl. by rewrite Hu, Ht.
Qed.

Lemma token_matches_spec id token t :
  token_matches id token t = true <-> token_user t = id /\ token_token t = token.
Proof.
  unfold token_matches. by rewrite andb_true_iff, !String.eqb_eq.
Qed.

(** What a password reset that is answered went through. *)
Lemma resetPassword_inv env req s s' r :
  resetPassword env req s = (s', Responded r) ->
  exists id u tid t password,
    castObjectId (reset_userId req) = Some id
    /\ users s !! id = Some u
    /\ tokens s !! tid = Some t
    /\ token_matches id (reset_token req) t = true
    /\ reset_password req = Some password
    /\ s' = set_tokens (deleteOne tid)
              (set_users
                 (insert id (with_password (bcrypt_hash env password 10) u)) s)
    /\ r = Json_message 200 "Your password has been reset successfully.".
Proof.
  unfold resetPassword, handler, resetPassword_body, bind.
  destruct (findById users (reset_userId req) s) as [s1 [e|found]] eqn:Hfind;
    [done|].
  apply findById_inv in Hfind as (-> & id & Hcast & ->).
  destruct (users s !! id) as [u|] eqn:Hu; [|done].
  unfold createHttpError, throw_if, get, ret, throw, modify. simpl.
  destruct (findOne _ (tokens s)) as [[tid t]|] eqn:Htoken; [|done].
  apply findOne_Some in Htoken as [Ht Hmatch].
  destruct (reset_password req) as [password|] eqn:Hpw; [|done]. simpl.
  destruct (truthy_str password); [|done]. simpl.
  intros [= <- <-]. by exists id, u, tid, t, password.
Qed.

(** C7: when the reset tokens of the store are pairwise distinct, a reset
    that succeeds stores the user with the bcrypt hash of the new password as
    its password and every other field as it was, and deletes the token
    record it used, and a further reset that presents the
    same user id and token fails with the error 400 and leaves the store,
    the password with it, as it is. *)
Theorem reset_token_single_use (env : Collaborators)
    (req again : ResetPasswordReq) (s s' : Store) (r : Response) :
  tokens_distinct s ->
  resetPassword env req s = (s', Responded r) ->
  castObjectId (reset_userId again) = castObjectId (reset_userId req) ->
  reset_token again = reset_token req ->
  (exists id u password tid t,
     castObjectId (reset_userId req) = Some id
     /\ users s !! id = Some u
     /\ reset_password req = Some password
     /\ users s' !! id
        = Some (with_password (bcrypt_hash env password 10) u)
     /\ (exists u',
           users s' !! id = Some u'
           /\ user_password u' = bcrypt_hash env password 10
           /\ user_email u' = user_email u
           /\ user_firstName u' = user_firstName u
           /\ user_lastName u' = user_lastName u
           /\ user_role u' = user_role u
           /\ user_image u' = user_image u
           /\ user_employee u' = user_employee u)
     /\ tokens s !! tid = Some t
     /\ token_user t = id
     /\ token_token t = reset_token req
     /\ tokens s' = delete tid (tokens s))
  /\ resetPassword env again s'
     = (s', Next (HttpError 400 "Link is invalid or has expired.")).
Proof.
  intros Hdistinct Hreset Hsame_id Hsame_token.
  apply resetPassword_inv in Hreset
    as (id & u & tid & t & password & Hcast & Hu & Ht & Hmatch & Hpw & -> & ->).
  split.
  { exists id, u, password, tid, t. simpl.
    rewrite lookup_insert_eq.
    apply token_matches_spec in Hmatch as [? ?].
    repeat split; try done.
    by exists (with_password (bcrypt_hash env password 10) u). }
  unfold resetPassword, handler, resetPassword_body, bind.
  erewrite findById_Some;
    [|by rewrite Hsame_id|simpl; by rewrite lookup_insert_eq].
  unfold createHttpError, get, throw, deleteOne. simpl.
  assert (findOne (token_matches id (reset_token again)) (delete tid (tokens s))
          = None) as ->; [|done].
  apply findOne_None. intros tid' t' [Hne Ht']%lookup_delete_Some.
  destruct (token_matches id (reset_token again) t') eqn:Hmatch'; [|done].
  exfalso. apply Hne.
  rewrite Hsame_token in Hmatch'.
  apply token_matches_spec in Hmatch as [Hu1 Ht1].
  apply token_matches_spec in Hmatch' as [Hu2 Ht2].
  eapply tokens_distinct_spec; eauto; congruence.
Qed.

(** *** Deletion *)

Lemma for_of_projects id found s :
  for_of found
    (fun project =>
       modify (set_projects
                 (insert (fst project) (without_member id (snd project))))) s
  = (set_projects (save_all id found) s, inr tt).
Proof.
  revert s. induction found as [|p found IH]; intros s.
  - by destruct s.
  - simpl. unfold bind, modify at 1. rewrite IH. by destruct s.
Qed.

Lemma save_all_lookup id found coll k p :
  save_all id found coll !! k = Some p ->
  (exists q, In (k, q) found /\ p = without_member id q)
  \/ ((forall q, ~ In (k, q) found) /\ coll !! k = Some p).
Proof.
  unfold save_all. revert coll.
  induction found as [|[k' q'] found IH]; intros coll; simpl.
  - intros H. right. by split; [intros q []|].
  - intros [(q & Hq & ->)|[Hnot H]]%IH.
    + left. exists q. by split; [right|].
    + apply lookup_insert_Some in H as [[<- <-]|[Hne H]].
      * left. exists q'. by split; [left|].
      * right. split; [|done].
        intros q [[= -> _]|Hq]; [done|]. by apply (Hnot q).
Qed.

Lemma has_member_spec id p :
  has_member id p = false <->
  forall m, In m (project_employees p) -> member_employee m <> id.
Proof.
  unfold has_member. split.
  - intros H m Hm Heq. apply not_true_iff_false in H. apply H.
    apply existsb_exists. exists m. split; [done|]. by apply String.eqb_eq.
  - intros H. apply not_true_iff_false.
    intros (m & Hm & Heq%String.eqb_eq)%existsb_exists. by apply (H m).
Qed.

Lemma without_member_clean id p : has_member id (without_member id p) = false.
Proof.
  apply has_member_spec. simpl. intros m [_ Hm]%List.filter_In.
  apply negb_true_iff in Hm. by apply String.eqb_neq in Hm.
Qed.

(** After the loop no project of the collection has the employee. *)
Lemma save_all_clean id coll k p :
  save_all id (find_all (has_member id) coll) coll !! k = Some p ->
  has_member id p = false.
Proof.
  intros [(q & _ & ->)|[Hnot Hp]]%save_all_lookup.
  - apply without_member_clean.
  - destruct (has_member id p) eqn:Hm; [|done].
    exfalso. apply (Hnot p). by apply find_all_spec.
Qed.

Lemma UserRole_eqb_Admin r : UserRole_eqb r Admin = true <-> r = Admin.
Proof. by destruct r. Qed.

(** What a deletion does once its target is found: a refusal for an Admin
    target, a refusal when the body names the target, and otherwise the
    removal of the memberships, of the user and of the employee. *)
Lemma deleteUser_found req s id u :
  castObjectId (delete_userId req) = Some id ->
  users s !! id = Some u ->
  deleteUser req s
  = if UserRole_eqb (user_role u) Admin
    then (s, Next (HttpError 403 "Cannot delete an admin user."))
    else if body_names (delete_body_userId req) (delete_userId req)
    then (s, Next (HttpError 403 "You are not authorized to delete yourself."))
    else match user_employee u with
         | Some eid =>
             match employees s !! eid with
             | Some _ =>
                 (set_employees (deleteOne eid)
                    (set_users (deleteOne id)
                       (set_projects
                          (save_all eid (find_all (has_member eid) (projects s)))
                          s)),
                  Responded (Json_message 200 "User deleted successfully."))
             | None => (s, Next (HttpError 404 "Employee not found."))
             end
         | None => (s, Next (HttpError 404 "Employee not found."))
         end.
Proof.
  intros Hcast Hu. unfold deleteUser, handler, deleteUser_body, bind.
  rewrite (findById_Some users _ _ _ _ Hcast Hu).
  unfold createHttpError, throw_if, findByRef, bind, get, ret, throw. simpl.
  destruct (UserRole_eqb (user_role u) Admin); [done|]. simpl.
  destruct (body_names _ _); [done|]. simpl.
  destruct (user_employee u) as [eid|]; [|done].
  destruct (employees s !! eid) as [e|]; [|done]. simpl.
  rewrite for_of_projects. unfold modify. by destruct s.
Qed.

(** What a deletion that is answered went through. *)
Lemma deleteUser_inv req s s' r :
  deleteUser req s = (s', Responded r) ->
  exists id u eid,
    castObjectId (delete_userId req) = Some id
    /\ users s !! id = Some u
    /\ user_role u <> Admin
    /\ body_names (delete_body_userId req) (delete_userId req) = false
    /\ user_employee u = Some eid
    /\ is_Some (employees s !! eid)
    /\ s' = set_employees (deleteOne eid)
              (set_users (deleteOne id)
                 (set_projects
                    (save_all eid (find_all (has_member eid) (projects s))) s))
    /\ r = Json_message 200 "User deleted successfully.".
Proof.
  intros H.
  assert (exists id u, castObjectId (delete_userId req) = Some id
                       /\ users s !! id = Some u) as (id & u & Hcast & Hu).
  { revert H. unfold deleteUser, handler, deleteUser_body, bind.
    destruct (findById users (delete_userId req) s) as [s1 [e|found]] eqn:Hf;
      [done|].
    apply findById_inv in Hf as (-> & id & Hcast & ->).
    destruct (users s !! id) as [u|] eqn:Hu; [|done]. by exists id, u. }
  rewrite (deleteUser_found _ _ _ _ Hcast Hu) in H.
  destruct (UserRole_eqb (user_role u) Admin) eqn:Hrole; [done|].
  destruct (body_names _ _) eqn:Hbody; [done|].
  destruct (user_employee u) as [eid|] eqn:Hlink; [|done].
  destruct (employees s !! eid) as [e|] eqn:He; [|done].
  injection H as <- <-. exists id, u, eid.
  repeat split; try done.
  intros Hadmin%UserRole_eqb_Admin. congruence.
Qed.

Lemma links_distinct_spec s i j u v e :
  links_distinct s ->
  users s !! i = Some u -> users s !! j = Some v ->
  user_employee u = Some e -> user_employee v = Some e ->
  i = j.
Proof.
  unfold links_distinct, employee_links.
  intros Hnd Hi Hj Hu Hv.
  apply elem_of_map_to_list in Hi, Hj.
  revert Hnd Hi Hj. generalize (map_to_list (users s)).
  induction l as [|[k w] l IH]; simpl; [by intros _ ?%elem_of_nil|].
  intros Hnd Hi Hj.
  assert (forall k' w', (k', w') ∈ l -> user_employee w' = Some e ->
                        e ∈ omap (fun kv => user_employee kv.2) l) as Hin.
  { intros k' w' Hk' Hw'. apply list_elem_of_omap. by exists (k', w'). }
  apply elem_of_cons in Hi as [[= -> ->]|Hi];
    apply elem_of_cons in Hj as [[= -> ->]|Hj]; [done| | |].
  - rewrite Hu in Hnd. apply NoDup_cons in Hnd as [Hnot _].
    exfalso. apply Hnot. by eapply Hin.
  - rewrite Hv in Hnd. apply NoDup_cons in Hnd as [Hnot _].
    exfalso. apply Hnot. by eapply Hin.
  - apply IH; [|done|done].
    destruct (user_employee w); [by apply NoDup_cons in Hnd as [_ ?]|done].
Qed.

(** C3: when every employee is linked from at most one user, a deletion
    that succeeds removes the user, the employee linked to it and every
    membership entry of that employee from every project, so that afterwards
    no project and no user refers to the employee. *)
Theorem deleteUser_cascade (req : DeleteUserReq) (s s' : Store) (r : Response) :
  links_distinct s ->
  deleteUser req s = (s', Responded r) ->
  exists id u eid,
    castObjectId (delete_userId req) = Some id
    /\ users s !! id = Some u
    /\ user_employee u = Some eid
    /\ is_Some (employees s !! eid)
    /\ users s' !! id = None
    /\ employees s' !! eid = None
    /\ (forall k p m,
          projects s' !! k = Some p -> In m (project_employees p) ->
          member_employee m <> eid)
    /\ (forall k v, users s' !! k = Some v -> user_employee v <> Some eid).
Proof.
  intros Hlinks (id & u & eid & Hcast & Hu & _ & _ & Hlink & He & -> & _)%deleteUser_inv.
  exists id, u, eid. unfold deleteOne. simpl.
  repeat split; try done.
  - apply lookup_delete_eq.
  - apply lookup_delete_eq.
  - intros k p m Hp. by apply has_member_spec, save_all_clean with (coll := projects s) (k := k).
  - intros k v [Hne Hv]%lookup_delete_Some Hlink'.
    apply Hne. by eapply links_distinct_spec.
Qed.

(** *** Registration *)

Lemma create_inv {A} (coll : Store -> gmap string A) set validate id doc s s' r :
  create coll set validate id doc s = (s', r) ->
  match r with
  | inr created =>
      validate doc = None /\ coll s !! id = None
      /\ s' = set (insert id doc) s /\ created = (id, doc)
  | inl _ => s' = s
  end.
Proof.
  unfold create, bind, get, ret, throw, modify.
  destruct (validate doc); [by intros [= <- <-]|].
  destruct (coll s !! id); [by intros [= <- <-]|].
  by intros [= <- <-].
Qed.

Lemma read_image_frame file s s' r :
  read_image file s = (s', r) ->
  users s' = users s /\ employees s' = employees s
  /\ tokens s' = tokens s /\ projects s' = projects s.
Proof.
  unfold read_image, readFile_base64, unlink, bind, get, ret, throw, modify.
  destruct file as [f|]; [|by intros [= <- _]].
  destruct (files s !! file_path f) eqn:Hfile; [|by intros [= <- _]].
  rewrite Hfile. by intros [= <- _].
Qed.

(** C4: in a registration whose fields are present and whose email is free,
    if the employee record is created and the creation of the user then
    fails, the handler deletes that employee record and hands the error of
    the user creation to [next]: the employee collection is then what it was
    before the request. *)
Theorem registerUser_no_orphan (env : Collaborators) (iat : Z) (fresh : Fresh)
    (req : RegisterUserReq) (s s0 s1 s2 : Store) (imageData : option string)
    (employee : ObjectId * Employee) (error : Error) :
  truthy_opt (reg_email req) = true ->
  truthy_opt (reg_password req) = true ->
  truthy_opt (reg_firstName req) = true ->
  truthy_opt (reg_lastName req) = true ->
  findOne (has_email (default "" (reg_email req))) (users s) = None ->
  read_image (reg_file req) s = (s0, inr imageData) ->
  create employees set_employees (validate_employee env)
    (fresh_employee fresh) (new_employee req) s0 = (s1, inr employee) ->
  create users set_users (validate_user env) (fresh_user fresh)
    (new_user env req (bcrypt_hash env (default "" (reg_password req)) 10)
       imageData (fst employee)) s1 = (s2, inl error) ->
  registerUser env iat fresh req s = (s0, Next error)
  /\ employees s1 !! fst employee = Some (snd employee)
  /\ employees s0 !! fst employee = None
  /\ employees s0 = employees s
  /\ users s0 = users s.
Proof.
  intros He Hp Hf Hl Hfree Himage Hemployee Huser.
  pose proof (read_image_frame _ _ _ _ Himage) as (Husers & Hemployees & _).
  pose proof (create_inv _ _ _ _ _ _ _ _ Hemployee) as (_ & Hnew & Hs1 & ->).
  pose proof (create_inv _ _ _ _ _ _ _ _ Huser) as ->. simpl in *.
  split; [|by rewrite Hs1; simpl; rewrite lookup_insert_eq].
  unfold registerUser, registerUser_try, throw_if, lift, assign_employee,
    assign_user, bind, get, ret, throw, modify.
  rewrite He, Hp, Hf, Hl. simpl. rewrite Hfree. simpl.
  rewrite Himage. simpl. rewrite Hemployee. simpl. rewrite Huser. simpl.
  f_equal. rewrite Hs1. destruct s0 as [us es ts ps fs ms].
  unfold registerUser_catch, set_employees, deleteOne. simpl in *. f_equal.
  by rewrite delete_insert_eq, delete_id.
Qed.

(** *** The invariants of the store are kept by the handlers

    The two hypotheses above, that reset tokens are pairwise distinct and
    that an employee is linked from at most one user, hold in every store
    that the handlers build: the only handler that creates a token creates
    it for a user who holds none, and the only handler that links a user
    links it to the employee it has just created. *)

Lemma NoDup_map_pair {A B C} (f : A -> B) (g : A -> C) (l : list A) :
  NoDup (map f l) -> NoDup (map (fun x => (f x, g x)) l).
Proof.
  induction l as [|x l IH]; simpl; [constructor|].
  intros [Hx Hl]%NoDup_cons. apply NoDup_cons. split; [|by apply IH].
  intros Hin. apply Hx.
  apply list_elem_of_In, in_map_iff in Hin as (y & [= Hf _] & Hy).
  apply list_elem_of_In, in_map_iff. by exists y.
Qed.

Lemma one_token_per_user_distinct s :
  one_token_per_user s -> tokens_distinct s.
Proof. apply NoDup_map_pair. Qed.

Lemma map_Permutation {A B} (f : A -> B) (l l' : list A) :
  l ≡ₚ l' -> map f l ≡ₚ map f l'.
Proof. apply Permutation_map. Qed.

Lemma token_users_insert s id t :
  tokens s !! id = None ->
  token_users (set_tokens (insert id t) s) ≡ₚ token_user t :: token_users s.
Proof.
  intros Hfresh. unfold token_users. simpl.
  by rewrite (map_Permutation _ _ _ (map_to_list_insert _ _ _ Hfresh)).
Qed.

Lemma token_users_delete s id t :
  tokens s !! id = Some t ->
  token_users s ≡ₚ token_user t :: token_users (set_tokens (delete id) s).
Proof.
  intros Ht. unfold token_users. simpl.
  by rewrite <- (map_Permutation _ _ _ (map_to_list_delete _ _ _ Ht)).
Qed.

Lemma findOne_token_of_None s id :
  findOne (token_of id) (tokens s) = None -> id ∉ token_users s.
Proof.
  rewrite findOne_None. intros Hnone Hin.
  apply list_elem_of_In, in_map_iff in Hin as ([k t] & <- & Hk).
  apply list_elem_of_In, elem_of_map_to_list in Hk.
  specialize (Hnone _ _ Hk). unfold token_of in Hnone. simpl in Hnone.
  by rewrite String.eqb_refl in Hnone.
Qed.

Lemma sendResetPasswordEmail_keeps_tokens env iat now fresh req s :
  one_token_per_user s ->
  one_token_per_user (sendResetPasswordEmail env iat now fresh req s).1.
Proof.
  intros Hinv.
  unfold sendResetPasswordEmail, handler, sendResetPasswordEmail_body,
    createHttpError, throw_if, sendMail, bind, get, ret, throw, modify.
  destruct (truthy_opt (send_email req)); [|done]. simpl.
  destruct (findOne (has_email _) (users s)) as [[user_id u]|]; [|done].
  destruct (findOne (token_of user_id) (tokens s)) as [[tid t]|] eqn:Htoken.
  - simpl. by destruct (resetpassword_hbs env _).
  - match goal with
    | |- context [create tokens set_tokens ?v ?i ?d s] =>
        destruct (create tokens set_tokens v i d s) as [s1 [e|created]] eqn:Hc
    end.
    + apply create_inv in Hc as ->. done.
    + apply create_inv in Hc as (_ & Hfresh & -> & ->).
      assert (one_token_per_user
                (set_tokens
                   (insert (fresh_token fresh)
                      {| token_user := user_id;
                         token_token := jwt_sign env iat user_id (60 * 60 * 1000);
                         token_expirationTime := now + 60 * 60 * 1000 |}) s))
        as Hkept.
      { unfold one_token_per_user. rewrite token_users_insert by done.
        apply NoDup_cons. split; [|done]. by apply findOne_token_of_None. }
      simpl. by destruct (resetpassword_hbs env _).
Qed.

Lemma resetPassword_state env req s e :
  (resetPassword env req s).2 = Next e -> (resetPassword env req s).1 = s.
Proof.
  unfold resetPassword, handler, resetPassword_body, bind.
  destruct (findById users (reset_userId req) s) as [s1 [e1|found]] eqn:Hfind.
  { intros _. revert Hfind. unfold findById, bind, get, ret, throw.
    destruct (castObjectId _); [done|]. by intros [= <- _]. }
  apply findById_inv in Hfind as (-> & id & Hcast & ->).
  destruct (users s !! id) as [u|]; [|done].
  unfold createHttpError, throw_if, get, ret, throw, modify. simpl.
  destruct (findOne _ (tokens s)) as [[tid t]|]; [|done].
  destruct (truthy_opt (reset_password req)); done.
Qed.

Lemma resetPassword_keeps_tokens env req s :
  one_token_per_user s -> one_token_per_user (resetPassword env req s).1.
Proof.
  intros Hinv.
  destruct (resetPassword env req s) as [s' [r|e]] eqn:Hreset.
  - apply resetPassword_inv in Hreset
      as (id & u & tid & t & password & _ & _ & Ht & _ & _ & -> & _).
    unfold one_token_per_user in *.
    rewrite (token_users_delete s tid t Ht) in Hinv.
    by apply NoDup_cons in Hinv as [_ ?].
  - pose proof (resetPassword_state env req s e) as Hs.
    rewrite Hreset in Hs. simpl in *. by rewrite Hs.
Qed.

Lemma employee_links_insert s id u eid :
  users s !! id = None -> user_employee u = Some eid ->
  employee_links (set_users (insert id u) s) ≡ₚ eid :: employee_links s.
Proof.
  intros Hfresh Hlink. unfold employee_links. simpl.
  rewrite (map_to_list_insert _ _ _ Hfresh). simpl. by rewrite Hlink.
Qed.

Lemma employee_links_delete s id u eid :
  users s !! id = Some u -> user_employee u = Some eid ->
  employee_links s ≡ₚ eid :: employee_links (set_users (delete id) s).
Proof.
  intros Hu Hlink. unfold employee_links. simpl.
  rewrite <- (map_to_list_delete _ _ _ Hu). simpl. by rewrite Hlink.
Qed.

Lemma employee_links_spec s eid :
  eid ∈ employee_links s <->
  exists id u, users s !! id = Some u /\ user_employee u = Some eid.
Proof.
  unfold employee_links. rewrite list_elem_of_omap. split.
  - intros ([id u] & Hin%elem_of_map_to_list & Hlink). by exists id, u.
  - intros (id & u & Hu & Hlink). exists (id, u).
    split; [by apply elem_of_map_to_list|done].
Qed.

(** The store of a registration: either the users and the employees are
    those it found, or a new user linked to a new employee was added. *)
Lemma registerUser_store env iat fresh req s :
  (users (registerUser env iat fresh req s).1 = users s
   /\ employees (registerUser env iat fresh req s).1 = employees s)
  \/ exists u e,
       users s !! fresh_user fresh = None
       /\ employees s !! fresh_employee fresh = None
       /\ user_employee u = Some (fresh_employee fresh)
       /\ users (registerUser env iat fresh req s).1 = <[fresh_user fresh := u]> (users s)
       /\ employees (registerUser env iat fresh req s).1
          = <[fresh_employee fresh := e]> (employees s).
Proof.
  unfold registerUser, registerUser_try, throw_if, lift, assign_employee,
    assign_user, bind, get, ret, throw, modify.
  destruct (negb _ || _ || _ || _); [by left|]. simpl.
  destruct (bool_decide _); [by left|]. simpl.
  destruct (read_image (reg_file req) s) as [s0 [e|imageData]] eqn:Himage;
    apply read_image_frame in Himage as (Husers & Hemployees & _);
    simpl; [by left|].
  destruct (create employees _ _ _ _ s0) as [s1 [e|employee]] eqn:Hemployee.
  { apply create_inv in Hemployee as ->. by left. }
  apply create_inv in Hemployee as (_ & Hfresh_e & -> & ->). simpl.
  match goal with
  | |- context [create users set_users ?v ?i ?d ?st] =>
      destruct (create users set_users v i d st) as [s2 [e|user]] eqn:Huser
  end.
  - apply create_inv in Huser as ->. left. simpl.
    split; [done|]. unfold deleteOne.
    by rewrite delete_insert_eq, delete_id, Hemployees.
  - apply create_inv in Huser as (_ & Hfresh_u & -> & ->). simpl in *.
    right. eexists _, _. rewrite <- Husers, <- Hemployees. by repeat split.
Qed.

Lemma registerUser_keeps_links env iat fresh req s :
  links_distinct s -> links_resolve s ->
  links_distinct (registerUser env iat fresh req s).1
  /\ links_resolve (registerUser env iat fresh req s).1.
Proof.
  intros Hdistinct Hresolve.
  destruct (registerUser_store env iat fresh req s)
    as [[Husers Hemployees]|(u & e & Hfresh_u & Hfresh_e & Hlink & Husers & Hemployees)].
  - split.
    + unfold links_distinct, employee_links in *. by rewrite Husers.
    + unfold links_resolve in *. rewrite Husers, Hemployees. done.
  - split.
    + unfold links_distinct, employee_links in *. rewrite Husers.
      rewrite (map_to_list_insert _ _ _ Hfresh_u). simpl. rewrite Hlink.
      apply NoDup_cons. split; [|done].
      intros (id & v & Hv & Hlink')%employee_links_spec.
      destruct (Hresolve _ _ _ Hv Hlink') as [? He]. congruence.
    + unfold links_resolve in *. rewrite Husers, Hemployees.
      intros id v eid [[<- <-]|[Hne Hv]]%lookup_insert_Some Hlink'.
      * assert (eid = fresh_employee fresh) as -> by congruence.
        by rewrite lookup_insert_eq.
      * destruct (Hresolve _ _ _ Hv Hlink') as [e' He'].
        apply lookup_insert_is_Some'. by right.
Qed.

Lemma deleteUser_state req s e :
  (deleteUser req s).2 = Next e -> (deleteUser req s).1 = s.
Proof.
  destruct (castObjectId (delete_userId req)) as [id|] eqn:Hcast.
  - destruct (users s !! id) as [u|] eqn:Hu.
    + rewrite (deleteUser_found _ _ _ _ Hcast Hu).
      repeat case_match; done.
    + unfold deleteUser, handler, deleteUser_body, findById, createHttpError,
        bind, get, ret, throw.
      by rewrite Hcast, Hu.
  - unfold deleteUser, handler, deleteUser_body, findById, bind, throw.
    by rewrite Hcast.
Qed.

Lemma deleteUser_keeps_links req s :
  links_distinct s -> links_resolve s ->
  links_distinct (deleteUser req s).1 /\ links_resolve (deleteUser req s).1.
Proof.
  intros Hdistinct Hresolve.
  destruct (deleteUser req s) as [s' [r|e]] eqn:Hdelete.
  - apply deleteUser_inv in Hdelete
      as (id & u & eid & _ & Hu & _ & _ & Hlink & _ & -> & _).
    unfold links_distinct in *.
    pose proof (employee_links_delete s id u eid Hu Hlink) as Hperm.
    rewrite Hperm in Hdistinct. apply NoDup_cons in Hdistinct as [Hgone Hrest].
    split; [done|].
    unfold links_resolve, deleteOne. simpl.
    intros k v e' [Hne Hv]%lookup_delete_Some Hlink'.
    rewrite lookup_delete_ne.
    + by eapply Hresolve.
    + intros <-. apply Hgone, employee_links_spec. exists k, v. simpl.
      split; [|done]. by apply lookup_delete_Some.
  - pose proof (deleteUser_state req s e) as Hs.
    rewrite Hdelete in Hs. simpl in *. by rewrite Hs.
Qed.

End UsersMongoose.

(** ** Deletion of users, in both controllers *)

Module UserDeletion.
Import JS Callers.

Lemma not_Admin_spec caller :
  Prisma.not_Admin caller = false <-> caller_is_Admin caller.
Proof.
  unfold Prisma.not_Admin, caller_is_Admin. destruct caller as [a|].
  - rewrite negb_false_iff. split.
    + intros H. exists a. split; [done|]. by destruct (Prisma.auth_role a).
    + intros (a' & [= <-] & ->). done.
  - split; [done|]. by intros (a & [=] & _).
Qed.

Lemma id_differs_spec caller id :
  Prisma.id_differs caller id = false <-> caller_is id caller.
Proof.
  unfold Prisma.id_differs, caller_is. destruct caller as [a|].
  - rewrite negb_false_iff, String.eqb_eq. split.
    + intros H. by exists a.
    + by intros (a' & [= <-] & ->).
  - split; [done|]. by intros (a & [=] & _).
Qed.

Lemma outsider caller id :
  ~ caller_is_Admin caller -> ~ caller_is id caller ->
  Prisma.not_Admin caller && Prisma.id_differs caller id = true.
Proof.
  rewrite <- not_Admin_spec, <- id_differs_spec.
  by destruct (Prisma.not_Admin caller), (Prisma.id_differs caller id).
Qed.

(** The Prisma deletion once the first guard is passed and the target is
    found. *)
Lemma prisma_deleteUser_found req c u :
  Prisma.not_Admin (Prisma.du_user req)
  && Prisma.id_differs (Prisma.du_user req) (Prisma.du_userId req) = false ->
  Prisma.user c !! Prisma.du_userId req = Some u ->
  Prisma.deleteUser req c
  = if Prisma.Role_eqb (Prisma.user_role u) Prisma.Admin
       && Prisma.id_differs (Prisma.du_user req) (Prisma.du_userId req)
    then (c, Next (HttpError 403 "Cannot delete an admin user."))
    else (Prisma.set_user (delete (Prisma.du_userId req)) c,
          Responded (Prisma.SendStatus 204)).
Proof.
  intros Hguard Hu.
  unfold Prisma.deleteUser, handler, Prisma.deleteUser_body,
    Prisma.user_findUnique, Prisma.user_delete, createHttpError, throw_if,
    bind, get, ret, throw, modify.
  rewrite Hguard, Hu. simpl.
  destruct (Prisma.Role_eqb _ _ && _); [done|]. simpl. by rewrite Hu.
Qed.

Lemma prisma_deleteUser_outsider req c :
  Prisma.not_Admin (Prisma.du_user req)
  && Prisma.id_differs (Prisma.du_user req) (Prisma.du_userId req) = true ->
  Prisma.deleteUser req c
  = (c, Next (HttpError 403 "This user is not allowed to delete other users.")).
Proof.
  intros Hguard.
  unfold Prisma.deleteUser, handler, Prisma.deleteUser_body, throw_if, bind,
    throw.
  by rewrite Hguard.
Qed.

Lemma prisma_updateUser_outsider pattern_test bcrypt_hash req c :
  Prisma.not_Admin (Prisma.uu_user req)
  && Prisma.id_differs (Prisma.uu_user req) (Prisma.uu_userId req) = true ->
  Prisma.updateUser pattern_test bcrypt_hash req c
  = (c, Next (HttpError 403 "This user is not allowed to update other users.")).
Proof.
  intros Hguard.
  unfold Prisma.updateUser, handler, Prisma.updateUser_body, throw_if, bind,
    throw.
  by rewrite Hguard.
Qed.

(** C1, as the code has it: the deletion of a user whose role is Admin is
    refused with 403 and deletes nothing, for every request in the Mongoose
    controller and, in the Prisma controller, for every caller other than
    that Admin; the request of that Admin for the own account is answered
    204 and deletes it. *)
Theorem admin_deletion_refused :
  (forall (req : Mongoose.DeleteUserReq) (s : Mongoose.Store) id u,
     Mongoose.castObjectId (Mongoose.delete_userId req) = Some id ->
     Mongoose.users s !! id = Some u ->
     Mongoose.user_role u = Mongoose.Admin ->
     Mongoose.deleteUser req s
     = (s, Next (HttpError 403 "Cannot delete an admin user.")))
  /\ (forall (req : Prisma.DeleteUserReq) (c : Prisma.Client) u,
        Prisma.user c !! Prisma.du_userId req = Some u ->
        Prisma.user_role u = Prisma.Admin ->
        (~ caller_is (Prisma.du_userId req) (Prisma.du_user req) ->
         Prisma.deleteUser req c
         = (c, Next (HttpError 403
                       (if Prisma.not_Admin (Prisma.du_user req)
                        then "This user is not allowed to delete other users."
                        else "Cannot delete an admin user."))))
        /\ (caller_is (Prisma.du_userId req) (Prisma.du_user req) ->
            Prisma.deleteUser req c
            = (Prisma.set_user (delete (Prisma.du_userId req)) c,
               Responded (Prisma.SendStatus 204)))).
Proof.
  split.
  - intros req s id u Hcast Hu Hrole.
    rewrite (UsersMongoose.deleteUser_found _ _ _ _ Hcast Hu). by rewrite Hrole.
  - intros req c u Hu Hrole. split.
    + intros Hother. rewrite <- id_differs_spec in Hother.
      apply not_false_is_true in Hother.
      destruct (Prisma.not_Admin (Prisma.du_user req)) eqn:Hcaller.
      * apply prisma_deleteUser_outsider. by rewrite Hcaller, Hother.
      * rewrite (prisma_deleteUser_found _ _ u); [|by rewrite Hcaller|done].
        by rewrite Hrole, Hother.
    + intros Hself%id_differs_spec.
      rewrite (prisma_deleteUser_found _ _ u); [|by rewrite Hself, andb_false_r|done].
      by rewrite Hself, andb_false_r.
Qed.

(** C2, as the code has it.  In the Prisma controller a deletion is answered
    only for a caller who is the target or has role Admin, and any other
    caller gets 403 and nothing is deleted, as for an update.  In the
    Mongoose controller the role of the caller is not looked at: the
    deletion of a user who is no Admin is refused with 403 when the body of
    the request names the target, and otherwise goes through, whoever
    asks. *)
Theorem delete_authorization :
  (forall (req : Prisma.DeleteUserReq) (c : Prisma.Client),
     (~ caller_is_Admin (Prisma.du_user req) ->
      ~ caller_is (Prisma.du_userId req) (Prisma.du_user req) ->
      Prisma.deleteUser req c
      = (c, Next (HttpError 403
                    "This user is not allowed to delete other users.")))
     /\ (forall c' r,
           Prisma.deleteUser req c = (c', Responded r) ->
           caller_is_Admin (Prisma.du_user req)
           \/ caller_is (Prisma.du_userId req) (Prisma.du_user req)))
  /\ (forall pattern_test bcrypt_hash (req : Prisma.UpdateUserReq)
        (c : Prisma.Client),
        ~ caller_is_Admin (Prisma.uu_user req) ->
        ~ caller_is (Prisma.uu_userId req) (Prisma.uu_user req) ->
        Prisma.updateUser pattern_test bcrypt_hash req c
        = (c, Next (HttpError 403
                      "This user is not allowed to update other users.")))
  /\ (forall (req : Mongoose.DeleteUserReq) (s : Mongoose.Store) id u eid,
        Mongoose.castObjectId (Mongoose.delete_userId req) = Some id ->
        Mongoose.users s !! id = Some u ->
        Mongoose.user_role u <> Mongoose.Admin ->
        Mongoose.user_employee u = Some eid ->
        is_Some (Mongoose.employees s !! eid) ->
        if Mongoose.body_names (Mongoose.delete_body_userId req)
             (Mongoose.delete_userId req)
        then Mongoose.deleteUser req s
             = (s, Next (HttpError 403
                           "You are not authorized to delete yourself."))
        else exists s',
            Mongoose.deleteUser req s
            = (s', Responded
                     (Mongoose.Json_message 200 "User deleted successfully."))
            /\ Mongoose.users s' !! id = None).
Proof.
  split; [|split].
  - intros req c. split.
    + intros Hadmin Hself. apply prisma_deleteUser_outsider. by apply outsider.
    + intros c' r Hanswer.
      destruct (Prisma.not_Admin (Prisma.du_user req)) eqn:Hadmin;
        [|left; by apply not_Admin_spec].
      destruct (Prisma.id_differs (Prisma.du_user req) (Prisma.du_userId req))
        eqn:Hself; [|right; by apply id_differs_spec].
      rewrite prisma_deleteUser_outsider in Hanswer; [done|].
      by rewrite Hadmin, Hself.
  - intros pattern_test bcrypt_hash req c Hadmin Hself.
    apply prisma_updateUser_outsider. by apply outsider.
  - intros req s id u eid Hcast Hu Hrole Hlink [e He].
    rewrite (UsersMongoose.deleteUser_found _ _ _ _ Hcast Hu).
    destruct (Mongoose.UserRole_eqb (Mongoose.user_role u) Mongoose.Admin)
      eqn:Hadmin; [by apply UsersMongoose.UserRole_eqb_Admin in Hadmin|].
    destruct (Mongoose.body_names _ _); [done|].
    rewrite Hlink, He. eexists. split; [done|].
    unfold Mongoose.deleteOne. simpl. apply lookup_delete_eq.
Qed.

End UserDeletion.

(** ** The properties on the sample stores *)

Module Scenarios.
Import JS Samples.

Ltac by_computation := vm_compute; reflexivity.

(** Page 2 of size 2 of the four sample employees is in range; page 3 is
    beyond the last page and gets the first two employees as page 1. *)
Lemma pagination_of_samples :
  Prisma.getEmployees Number_decimal (listing None (Some "2") (Some "2")) client
  = (client,
     Responded
       (Prisma.Json_employees 200
          {| Prisma.pageInfo :=
               {| Prisma.total := Fin 4; Prisma.currentPage := Fin 2;
                  Prisma.lastPage := Fin 2; Prisma.perPage := Fin 2 |};
             Prisma.employees :=
               map (Prisma.include_projects client)
                 [ employee_row "e3" "Mary Jane Doerr" "Watson" false;
                   employee_row "e4" "Ann" "Lee" true ] |}))
  /\ Prisma.getEmployees Number_decimal (listing None (Some "2") (Some "3")) client
     = (client,
        Responded
          (Prisma.Json_employees 200
             {| Prisma.pageInfo :=
                  {| Prisma.total := Fin 4; Prisma.currentPage := Fin 1;
                     Prisma.lastPage := Fin 2; Prisma.perPage := Fin 2 |};
                Prisma.employees :=
                  map (Prisma.include_projects client)
                    [ employee_row "e1" "Jane" "Doe" true;
                      employee_row "e2" "John" "Smith" true ] |})).
Proof.
  split.
  - apply (EmployeesListing.getEmployees_pagination Number_decimal
             (listing None (Some "2") (Some "2")) client "2" "2" 2 2
             all_employees (Prisma.employee client));
      try reflexivity; lia.
  - apply (EmployeesListing.getEmployees_pagination Number_decimal
             (listing None (Some "2") (Some "3")) client "3" "2" 3 2
             all_employees (Prisma.employee client));
      try reflexivity; lia.
Defined.

(** With a page size of 0 and nobody matching, the offset of page 2 is 0 and
    so at the number of matches, yet [currentPage] is 2. *)
Lemma page_size_zero_keeps_currentPage :
  Number_decimal "2" = Fin 2
  /\ Number_decimal "0" = Fin 0
  /\ Prisma.employee_count (called "nobody") client = (client, inr 0)
  /\ Prisma.getEmployees Number_decimal
       (listing (Some "nobody") (Some "0") (Some "2")) client
     = (client,
        Responded
          (Prisma.Json_employees 200
             {| Prisma.pageInfo :=
                  {| Prisma.total := Fin 0; Prisma.currentPage := Fin 2;
                     Prisma.lastPage := NaN; Prisma.perPage := Fin 0 |};
                Prisma.employees := [] |})).
Proof. repeat split; by_computation. Qed.

(** A page size of 0 returns nobody and reports a total of 0 with four
    employees matching. *)
Lemma total_of_empty_page :
  Prisma.employee_count all_employees client = (client, inr 4)
  /\ Prisma.getEmployees Number_decimal (listing None (Some "0") None) client
     = (client,
        Responded
          (Prisma.Json_employees 200
             {| Prisma.pageInfo :=
                  {| Prisma.total := Fin 0; Prisma.currentPage := Fin 0;
                     Prisma.lastPage := NaN; Prisma.perPage := Fin 0 |};
                Prisma.employees := [] |}))
  /\ exists w,
       Prisma.where_of (listing None (Some "0") None) client = (client, inr w)
       /\ Fin 0
          = match @nil Prisma.EmployeeWithProjects with
            | [] => Fin 0
            | _ :: _ =>
                Fin (Z.of_nat
                       (length (List.filter (Prisma.eval_where w)
                                  (Prisma.employee client))))
            end.
Proof.
  split; [by_computation|]. split; [by_computation|].
  destruct (EmployeesListing.getEmployees_total Number_decimal
              (listing None (Some "0") None) client client 200
              {| Prisma.pageInfo :=
                   {| Prisma.total := Fin 0; Prisma.currentPage := Fin 0;
                      Prisma.lastPage := NaN; Prisma.perPage := Fin 0 |};
                 Prisma.employees := [] |} eq_refl)
    as (w & Hw & Htotal & _).
  exists w. split; [exact Hw|exact Htotal].
Defined.

(** "Jane Doe" finds Jane Doe and Mary Jane Doerr, Jane Doe is found for her
    two names, and "jAnE" finds her whatever the case of its letters. *)
Lemma jane_doe_is_found :
  existsb (fun cnd => Prisma.eval_condition cnd (employee_row "e1" "Jane" "Doe" true))
    (Prisma.where_OR (called "Jane Doe")) = true
  /\ existsb
       (fun cnd =>
          Prisma.eval_condition cnd
            (employee_row "e3" "Mary Jane Doerr" "Watson" false))
       (Prisma.where_OR (called "Jane Doe")) = true
  /\ SearchSpec.spec_search_match "Jane Doe" "Jane" "Doe"
  /\ existsb
       (fun cnd => Prisma.eval_condition cnd (employee_row "e1" "Jane" "Doe" true))
       (Prisma.where_OR (called "jAnE")) = true.
Proof.
  pose proof (EmployeesListing.search_term_semantics
                (listing (Some "Jane Doe") None None) client (called "Jane Doe")
                eq_refl) as [Hiff Hfound].
  assert (existsb
            (fun cnd =>
               Prisma.eval_condition cnd (employee_row "e1" "Jane" "Doe" true))
            (Prisma.where_OR (called "Jane Doe")) = true) as Hjane.
  { apply (Hfound eq_refl). left. by split. }
  split; [exact Hjane|]. split; [|split].
  - apply (Hfound eq_refl). right. by exists "Mary ", "rr".
  - apply (Hiff eq_refl (employee_row "e1" "Jane" "Doe" true)). exact Hjane.
  - apply (proj1 (EmployeesListing.search_term_semantics
                    (listing (Some "jAnE") None None) client (called "jAnE")
                    eq_refl) eq_refl (employee_row "e1" "Jane" "Doe" true)).
    left. by exists "", "".
Defined.

(** An underscore in the search term stands for any character: "J_n" is a
    substring of no name, yet it finds Jane Doe and Mary Jane Doerr. *)
Lemma underscore_finds_jane :
  Prisma.where_of (listing (Some "J_n") None None) client
  = (client, inr (called "J_n"))
  /\ existsb
       (fun cnd => Prisma.eval_condition cnd (employee_row "e1" "Jane" "Doe" true))
       (Prisma.where_OR (called "J_n")) = true
  /\ ~ SearchSpec.spec_search_match "J_n" "Jane" "Doe"
  /\ Prisma.getEmployees Number_decimal (listing (Some "J_n") None None) client
     = (client,
        Responded
          (Prisma.Json_employees 200
             {| Prisma.pageInfo :=
                  {| Prisma.total := Fin 2; Prisma.currentPage := Fin 1;
                     Prisma.lastPage := Fin 1; Prisma.perPage := Fin 2 |};
                Prisma.employees :=
                  map (Prisma.include_projects client)
                    [ employee_row "e1" "Jane" "Doe" true;
                      employee_row "e3" "Mary Jane Doerr" "Watson" false ] |})).
Proof.
  split; [by_computation|]. split; [by_computation|]. split; [|by_computation].
  intros [H|[H|(rest & H & _)]]; [| |discriminate H];
    apply EmployeesListing.substring_ci_spec in H; vm_compute in H;
    discriminate H.
Qed.

(** Employee e3 is not employed: setting [isEmployed] to true stamps the
    date with the time of the request. *)
Lemma employment_date_of_e3 :
  (Prisma.updateEmployee Number_decimal 2000
     (set_isEmployed "e3" (JBool true)) client).2
  = Responded (Prisma.Json_employee 200 e3_employed)
  /\ exists e,
       List.find (fun x => String.eqb (Prisma.employee_id x) "e3")
         (Prisma.employee client) = Some e
       /\ Prisma.employee_isEmployed e = false
       /\ Prisma.employee_isEmployedDate e = 1000
       /\ Prisma.isEmployedDate_of 2000 (JBool true) e = Some 2000
       /\ Prisma.employee_isEmployedDate e3_employed = 2000.
Proof.
  split; [by_computation|].
  destruct (EmployeeUpdate.updateEmployee_isEmployedDate Number_decimal 2000
              (set_isEmployed "e3" (JBool true)) client
              (Prisma.updateEmployee Number_decimal 2000
                 (set_isEmployed "e3" (JBool true)) client).1
              200 e3_employed eq_refl)
    as (e & Hfind & _ & Hdiffers & _).
  exists e. split; [exact Hfind|].
  injection Hfind as <-. split; [reflexivity|]. split; [reflexivity|].
  apply Hdiffers. exists true. split; [reflexivity|discriminate].
Defined.

(** Jane Doe is employed since time 1000: the update operation that sets
    [isEmployed] to true, the value it has, stamps the date with the time of
    the request. *)
Lemma set_operation_stamps_the_date :
  Prisma.employee_isEmployed (employee_row "e1" "Jane" "Doe" true) = true
  /\ Prisma.employee_isEmployedDate (employee_row "e1" "Jane" "Doe" true) = 1000
  /\ (Prisma.updateEmployee Number_decimal 2000
        (set_isEmployed "e1" (JObject [ ("set", JBool true) ])) client).2
     = Responded
         (Prisma.Json_employee 200
            {| Prisma.employee_id := "e1";
               Prisma.employee_firstName := "Jane";
               Prisma.employee_lastName := "Doe";
               Prisma.employee_image := None;
               Prisma.employee_department := "Development";
               Prisma.employee_salary := 3000;
               Prisma.employee_currency := "EUR";
               Prisma.employee_techStack := "FullStack";
               Prisma.employee_isEmployed := true;
               Prisma.employee_isEmployedDate := 2000 |}).
Proof. repeat split; by_computation. Qed.

(** The admin of the Prisma sample deletes the own account. *)
Lemma prisma_admin_deletes_own_account :
  Prisma.user_role <$> Prisma.user client !! "admin-1" = Some Prisma.Admin
  /\ (Prisma.deleteUser
        {| Prisma.du_user := Some the_admin; Prisma.du_userId := "admin-1" |}
        client).2
     = Responded (Prisma.SendStatus 204)
  /\ Prisma.user
       (Prisma.deleteUser
          {| Prisma.du_user := Some the_admin; Prisma.du_userId := "admin-1" |}
          client).1 !! "admin-1"
     = None.
Proof. repeat split; by_computation. Qed.

(** Nobody deletes the admin of the Mongoose sample, and the guest of the
    Prisma sample does not delete its admin. *)
Lemma admins_are_kept :
  Mongoose.deleteUser (deletion ada_id (Some bob_id)) store
  = (store, Next (HttpError 403 "Cannot delete an admin user."))
  /\ Prisma.deleteUser
       {| Prisma.du_user := Some the_guest; Prisma.du_userId := "admin-1" |}
       client
     = (client,
        Next (HttpError 403 "This user is not allowed to delete other users.")).
Proof.
  destruct UserDeletion.admin_deletion_refused as [Hmongoose Hprisma]. split.
  - apply (Hmongoose (deletion ada_id (Some bob_id)) store ada_id ada);
      reflexivity.
  - apply (Hprisma
             {| Prisma.du_user := Some the_guest; Prisma.du_userId := "admin-1" |}
             client admin_row); try reflexivity.
    intros (a & [= <-] & Hid). discriminate Hid.
Defined.

(** In the Mongoose sample the guest Cyd deletes the guest Bob. *)
Lemma mongoose_guest_deletes_another_user :
  Mongoose.user_role <$> Mongoose.users store !! cyd_id = Some Mongoose.Guest
  /\ cyd_id <> bob_id
  /\ (Mongoose.deleteUser (deletion bob_id (Some cyd_id)) store).2
     = Responded (Mongoose.Json_message 200 "User deleted successfully.")
  /\ Mongoose.users (Mongoose.deleteUser (deletion bob_id (Some cyd_id)) store).1
       !! bob_id
     = None.
Proof. repeat split; try by_computation. discriminate. Qed.

(** The guest of the Prisma sample deletes and updates nobody else; Bob of
    the Mongoose sample does not delete himself. *)
Lemma outsiders_and_selves :
  Prisma.deleteUser
    {| Prisma.du_user := Some the_guest; Prisma.du_userId := "admin-1" |} client
  = (client,
     Next (HttpError 403 "This user is not allowed to delete other users."))
  /\ Prisma.updateUser (fun _ => true) (fun password _ => password)
       (rename the_guest "admin-1" "Eve") client
     = (client,
        Next (HttpError 403 "This user is not allowed to update other users."))
  /\ Mongoose.deleteUser (deletion bob_id (Some bob_id)) store
     = (store, Next (HttpError 403 "You are not authorized to delete yourself.")).
Proof.
  destruct UserDeletion.delete_authorization as (Hdelete & Hupdate & Hmongoose).
  assert (~ Callers.caller_is_Admin (Some the_guest)) as Hguest
    by (intros (a & [= <-] & Hrole); discriminate Hrole).
  assert (~ Callers.caller_is "admin-1" (Some the_guest)) as Hother
    by (intros (a & [= <-] & Hid); discriminate Hid).
  split; [|split].
  - by apply (Hdelete
                {| Prisma.du_user := Some the_guest; Prisma.du_userId := "admin-1" |}
                client).
  - by apply (Hupdate (fun _ => true) (fun password _ => password)
                (rename the_guest "admin-1" "Eve") client).
  - apply (Hmongoose (deletion bob_id (Some bob_id)) store bob_id bob
             bob_employee_id); try reflexivity; [discriminate|].
    by exists (employee_of bob).
Defined.

(** *** The Mongoose sample *)

Lemma links_of_store : StoreInvariants.links_distinct store.
Proof.
  apply (bool_decide_unpack (NoDup (StoreInvariants.employee_links store))).
  vm_compute. exact I.
Defined.

Lemma tokens_of_store : StoreInvariants.tokens_distinct store.
Proof.
  apply (bool_decide_unpack (NoDup (StoreInvariants.token_pairs store))).
  vm_compute. exact I.
Defined.

(** Deleting Bob removes his employee record and his memberships. *)
Lemma bob_leaves_no_reference :
  exists id u eid,
    Mongoose.castObjectId bob_id = Some id
    /\ Mongoose.users store !! id = Some u
    /\ Mongoose.user_employee u = Some eid
    /\ is_Some (Mongoose.employees store !! eid)
    /\ Mongoose.users
         (Mongoose.deleteUser (deletion bob_id (Some cyd_id)) store).1 !! id
       = None
    /\ Mongoose.employees
         (Mongoose.deleteUser (deletion bob_id (Some cyd_id)) store).1 !! eid
       = None
    /\ (forall k p m,
          Mongoose.projects
            (Mongoose.deleteUser (deletion bob_id (Some cyd_id)) store).1 !! k
          = Some p ->
          In m (Mongoose.project_employees p) ->
          Mongoose.member_employee m <> eid)
    /\ (forall k v,
          Mongoose.users
            (Mongoose.deleteUser (deletion bob_id (Some cyd_id)) store).1 !! k
          = Some v ->
          Mongoose.user_employee v <> Some eid).
Proof.
  apply (UsersMongoose.deleteUser_cascade (deletion bob_id (Some cyd_id)) store
           (Mongoose.deleteUser (deletion bob_id (Some cyd_id)) store).1
           (Mongoose.Json_message 200 "User deleted successfully.")).
  - exact links_of_store.
  - by_computation.
Defined.

(** A registration with an email that the user schema refuses leaves no
    employee behind. *)
Lemma refused_registration_leaves_no_employee :
  Mongoose.registerUser collaborators 1700000000 fresh_ids (registration "dee.fire.example")
    store
  = (store, Next (Thrown "ValidationError"))
  /\ Mongoose.employees
       (Mongoose.set_employees
          (insert (Mongoose.fresh_employee fresh_ids)
             (Mongoose.new_employee (registration "dee.fire.example")))
          store)
       !! Mongoose.fresh_employee fresh_ids
     = Some (Mongoose.new_employee (registration "dee.fire.example"))
  /\ Mongoose.employees store !! Mongoose.fresh_employee fresh_ids = None
  /\ Mongoose.employees store = Mongoose.employees store
  /\ Mongoose.users store = Mongoose.users store.
Proof.
  apply (UsersMongoose.registerUser_no_orphan collaborators 1700000000 fresh_ids
           (registration "dee.fire.example") store store
           (Mongoose.set_employees
              (insert (Mongoose.fresh_employee fresh_ids)
                 (Mongoose.new_employee (registration "dee.fire.example")))
              store)
           (Mongoose.set_employees
              (insert (Mongoose.fresh_employee fresh_ids)
                 (Mongoose.new_employee (registration "dee.fire.example")))
              store)
           None
           (Mongoose.fresh_employee fresh_ids,
            Mongoose.new_employee (registration "dee.fire.example"))
           (Thrown "ValidationError"));
    by_computation.
Defined.

(** Bob's reset token works once. *)
Lemma reset_token_of_bob :
  (Mongoose.resetPassword collaborators (reset bob_id "reset.bob.1" "n3w") store).2
  = Responded
      (Mongoose.Json_message 200 "Your password has been reset successfully.")
  /\ Mongoose.resetPassword collaborators (reset bob_id "reset.bob.1" "0ther")
       (Mongoose.resetPassword collaborators
          (reset bob_id "reset.bob.1" "n3w") store).1
     = ((Mongoose.resetPassword collaborators
           (reset bob_id "reset.bob.1" "n3w") store).1,
        Next (HttpError 400 "Link is invalid or has expired.")).
Proof.
  split; [by_computation|].
  apply (UsersMongoose.reset_token_single_use collaborators
           (reset bob_id "reset.bob.1" "n3w")
           (reset bob_id "reset.bob.1" "0ther") store
           (Mongoose.resetPassword collaborators
              (reset bob_id "reset.bob.1" "n3w") store).1
           (Mongoose.Json_message 200
              "Your password has been reset successfully."));
    [exact tokens_of_store|by_computation|reflexivity|reflexivity].
Defined.

(** An unknown email and a wrong password for Bob get the same answer. *)
Lemma login_of_stranger_and_of_bob :
  Mongoose.loginUser collaborators 1700000060 (login "eve@fire.example" "secret-bob") store
  = (store, Next (HttpError 401 "Invalid email or password."))
  /\ Mongoose.loginUser collaborators 1700000060 (login "bob@fire.example" "secret-eve") store
     = (store, Next (HttpError 401 "Invalid email or password.")).
Proof.
  apply (UsersMongoose.login_failures_same_response collaborators 1700000060 store
           (login "eve@fire.example" "secret-bob")
           (login "bob@fire.example" "secret-eve"));
    try reflexivity.
  - apply (bool_decide_unpack
             (map_Forall (fun _ u => Mongoose.user_email u <> "eve@fire.example")
                (Mongoose.users store))).
    vm_compute. exact I.
  - exists bob_id, bob. split; reflexivity.
  - apply (bool_decide_unpack
             (map_Forall
                (fun _ u =>
                   Mongoose.user_email u = "bob@fire.example" ->
                   Mongoose.bcrypt_compare collaborators "secret-eve"
                     (Mongoose.user_password u) = false)
                (Mongoose.users store))).
    vm_compute. exact I.
Defined.

End Scenarios.

(** ** More on the users controller over Mongoose *)

Module UsersMongooseMore.
Import JS Mongoose StoreInvariants UsersMongoose.

(** *** Registration *)

Lemma findOne_insert_fresh {A} (p : A -> bool) (coll : gmap string A) id a :
  findOne p coll = None -> p a = true ->
  findOne p (<[id := a]> coll) = Some (id, a).
Proof.
  intros Hnone Hp.
  destruct (findOne p (<[id := a]> coll)) as [[k b]|] eqn:Hfind.
  - apply findOne_Some in Hfind as [Hk Hb].
    apply lookup_insert_Some in Hk as [[<- <-]|[_ Hk]]; [done|].
    rewrite findOne_None in Hnone. rewrite (Hnone _ _ Hk) in Hb. done.
  - rewrite findOne_None in Hfind.
    specialize (Hfind id a (lookup_insert_eq _ _ _)). congruence.
Qed.

(** What a registration that is answered went through. *)
Lemma registerUser_inv env iat fresh req s s' r :
  registerUser env iat fresh req s = (s', Responded r) ->
  exists s0 imageData,
    truthy_opt (reg_email req) = true
    /\ truthy_opt (reg_password req) = true
    /\ truthy_opt (reg_firstName req) = true
    /\ truthy_opt (reg_lastName req) = true
    /\ findOne (has_email (default "" (reg_email req))) (users s) = None
    /\ read_image (reg_file req) s = (s0, inr imageData)
    /\ employees s0 !! fresh_employee fresh = None
    /\ users s0 !! fresh_user fresh = None
    /\ s' = set_users
              (insert (fresh_user fresh)
                 (new_user env req
                    (bcrypt_hash env (default "" (reg_password req)) 10)
                    imageData (fresh_employee fresh)))
              (set_employees
                 (insert (fresh_employee fresh) (new_employee req)) s0)
    /\ r = Json_session 201
             {| view_id := fresh_user fresh;
                view_email := default "" (reg_email req);
                view_firstName := default "" (reg_firstName req);
                view_lastName := default "" (reg_lastName req);
                view_role := default (default_role env) (reg_role req);
                view_image := imageData;
                view_employee := Some (fresh_employee fresh, new_employee req) |}
             (jwt_sign env iat (fresh_user fresh) (1000 * 60 * 60 * 24))
             (1000 * 60 * 60 * 24).
Proof.
  unfold registerUser, registerUser_try, throw_if, lift, assign_employee,
    assign_user, bind, get, ret, throw, modify.
  destruct (truthy_opt (reg_email req)); [|done].
  destruct (truthy_opt (reg_password req)); [|done].
  destruct (truthy_opt (reg_firstName req)); [|done].
  destruct (truthy_opt (reg_lastName req)); [|done]. simpl.
  destruct (findOne _ (users s)) as [found|] eqn:Hfree.
  { rewrite bool_decide_eq_true_2 by done. done. }
  rewrite bool_decide_eq_false_2 by (by intros [? ?]). simpl.
  destruct (read_image (reg_file req) s) as [s0 [e|imageData]] eqn:Himage;
    simpl; [done|].
  destruct (create employees _ _ _ _ s0) as [s1 [e|employee]] eqn:Hemployee;
    [done|].
  apply create_inv in Hemployee as (_ & Hfresh_e & -> & ->). simpl.
  match goal with
  | |- context [create users set_users ?v ?i ?d ?st] =>
      destruct (create users set_users v i d st) as [s2 [e|user]] eqn:Huser
  end; [done|].
  apply create_inv in Huser as (_ & Hfresh_u & -> & ->). simpl.
  intros [= <- <-]. exists s0, imageData. by repeat split.
Qed.

(** X1: a registration that lacks one of email, password, first name and last
    name (or has it empty) is refused with 400, and one whose email a user
    already has with 409; either way the store is left as it was: no user and
    no employee is created and an uploaded file stays where it is. *)
Theorem registerUser_rejections (env : Collaborators) (iat : Z) (fresh : Fresh)
    (req : RegisterUserReq) (s : Store) :
  (truthy_opt (reg_email req) && truthy_opt (reg_password req)
   && truthy_opt (reg_firstName req) && truthy_opt (reg_lastName req) = false ->
   registerUser env iat fresh req s
   = (s, Next (HttpError 400 "Missing required fields.")))
  /\ (truthy_opt (reg_email req) && truthy_opt (reg_password req)
      && truthy_opt (reg_firstName req) && truthy_opt (reg_lastName req) = true ->
      (exists id u, users s !! id = Some u
                    /\ user_email u = default "" (reg_email req)) ->
      registerUser env iat fresh req s
      = (s, Next (HttpError 409 "Email already registered."))).
Proof.
  unfold registerUser, registerUser_try, throw_if, lift, bind, get, ret, throw.
  split.
  - intros Hmissing.
    destruct (truthy_opt (reg_email req)), (truthy_opt (reg_password req)),
      (truthy_opt (reg_firstName req)), (truthy_opt (reg_lastName req));
      done.
  - intros Hpresent (id & u & Hu & Hemail).
    destruct (truthy_opt (reg_email req)), (truthy_opt (reg_password req)),
      (truthy_opt (reg_firstName req)), (truthy_opt (reg_lastName req));
      try done.
    simpl. rewrite bool_decide_eq_true_2; [done|].
    eapply findOne_is_Some; [exact Hu|]. by apply String.eqb_eq.
Qed.

(** X2: a user who has just registered can log in: when bcrypt accepts the
    password against the hash it made of it, a login at any later time with
    the registered email and password (without rememberMe) is answered 200
    with the same user and the same expiry as the registration, and with a
    token signed at the time of the login for that user and that expiry; it
    changes nothing. *)
Theorem register_then_login (env : Collaborators) (iat later : Z) (fresh : Fresh)
    (req : RegisterUserReq) (s s' : Store) (status : Z) (view : UserView)
    (token : string) (expiresIn : Z) :
  registerUser env iat fresh req s
  = (s', Responded (Json_session status view token expiresIn)) ->
  bcrypt_compare env (default "" (reg_password req))
    (bcrypt_hash env (default "" (reg_password req)) 10) = true ->
  loginUser env later
    {| login_email := reg_email req;
       login_password := reg_password req;
       login_rememberMe := false |} s'
  = (s', Responded
           (Json_session 200 view (jwt_sign env later (view_id view) expiresIn)
              expiresIn)).
Proof.
  intros (s0 & imageData & He & Hp & _ & _ & Hfree & Himage & Hfe & Hfu & -> & [= -> -> -> ->])%registerUser_inv
    Hcompare.
  apply read_image_frame in Himage as (Husers & _).
  unfold loginUser, handler, loginUser_body, createHttpError, throw_if, bind,
    get, ret, throw. simpl.
  rewrite He, Hp. simpl.
  rewrite <- Husers in Hfree.
  rewrite (findOne_insert_fresh _ _ (fresh_user fresh)
             (new_user env req
                (bcrypt_hash env (default "" (reg_password req)) 10)
                imageData (fresh_employee fresh)) Hfree)
    by (by apply String.eqb_eq).
  simpl. rewrite Hcompare. simpl.
  unfold populate_employee. simpl. by rewrite lookup_insert_eq.
Qed.

(** X3: a user who has just registered can be fetched: when the id drawn for
    the user is a well-formed ObjectId, [getUserById] on the id of the
    registration response answers 200 with the user of that response. *)
Theorem register_then_getUserById (env : Collaborators) (iat : Z) (fresh : Fresh)
    (req : RegisterUserReq) (s s' : Store) (status : Z) (view : UserView)
    (token : string) (expiresIn : Z) :
  registerUser env iat fresh req s
  = (s', Responded (Json_session status view token expiresIn)) ->
  castObjectId (fresh_user fresh) = Some (fresh_user fresh) ->
  getUserById (view_id view) s' = (s', Responded (Json_user 200 view)).
Proof.
  intros (s0 & imageData & _ & _ & _ & _ & _ & _ & _ & _ & -> & [= -> -> -> ->])%registerUser_inv
    Hcast.
  unfold getUserById, handler, getUserById_body, bind. simpl.
  erewrite findById_Some; [|exact Hcast|simpl; apply lookup_insert_eq].
  unfold get, ret, view_of, populate_employee. simpl.
  by rewrite lookup_insert_eq.
Qed.

(** *** Login *)

(** X4: a login never changes the store; when it is answered, the status is
    200, the expiry is 7 days with rememberMe and 1 day without, the token is
    signed for the user of the response with that expiry, and that user is a
    stored user with the email of the request whose stored hash bcrypt
    accepts for the password of the request. *)
Theorem loginUser_answer (env : Collaborators) (iat : Z) (req : LoginUserReq) (s : Store) :
  (loginUser env iat req s).1 = s
  /\ forall status view token expiresIn,
       (loginUser env iat req s).2
       = Responded (Json_session status view token expiresIn) ->
       status = 200
       /\ expiresIn = (if login_rememberMe req then 604800000 else 86400000)
       /\ token = jwt_sign env iat (view_id view) expiresIn
       /\ exists u,
            users s !! view_id view = Some u
            /\ login_email req = Some (user_email u)
            /\ view_email view = user_email u
            /\ bcrypt_compare env (default "" (login_password req))
                 (user_password u) = true.
Proof.
  unfold loginUser, handler, loginUser_body, createHttpError, throw_if, bind,
    get, ret, throw.
  destruct (truthy_opt (login_email req)) eqn:He; [|done].
  destruct (truthy_opt (login_password req)) eqn:Hp; [|done]. simpl.
  destruct (findOne _ (users s)) as [[id u]|] eqn:Hfind; [|done].
  apply findOne_Some in Hfind as [Hu Hemail]. apply String.eqb_eq in Hemail.
  destruct (bcrypt_compare env _ (user_password u)) eqn:Hcompare; [|done].
  simpl. split; [done|].
  intros status view token expiresIn [= <- <- <- <-]. simpl.
  split; [done|]. split; [by destruct (login_rememberMe req)|].
  split; [done|].
  exists u. repeat split; try done.
  destruct (login_email req) as [email|]; [|done]. simpl in *. by rewrite Hemail.
Qed.

(** *** The reset of a password *)

Lemma token_of_None_matches id token coll :
  findOne (token_of id) coll = None ->
  findOne (token_matches id token) coll = None.
Proof.
  rewrite !findOne_None. intros Hnone tid t Ht.
  specialize (Hnone _ _ Ht). unfold token_of in Hnone. unfold token_matches.
  by rewrite Hnone.
Qed.

(** X5: a request for a reset email without an email is refused with 400 and
    one whose email no user has with 404; neither stores a token nor hands a
    message to the mail transport. *)
Theorem sendResetPasswordEmail_refusals (env : Collaborators) (iat : Z) (now : Z)
    (fresh : Fresh) (req : SendResetPasswordEmailReq) (s : Store) :
  (truthy_opt (send_email req) = false ->
   sendResetPasswordEmail env iat now fresh req s
   = (s, Next (HttpError 400 "Email not provided.")))
  /\ (truthy_opt (send_email req) = true ->
      (forall id u, users s !! id = Some u ->
         user_email u <> default "" (send_email req)) ->
      sendResetPasswordEmail env iat now fresh req s
      = (s, Next (HttpError 404 "User not found."))).
Proof.
  unfold sendResetPasswordEmail, handler, sendResetPasswordEmail_body,
    createHttpError, throw_if, bind, get, ret, throw.
  split; intros Hemail; rewrite Hemail; [done|]. simpl.
  intros Hunknown.
  assert (findOne (has_email (default "" (send_email req))) (users s) = None)
    as ->; [|done].
  apply findOne_None. intros id u Hu. apply String.eqb_neq. by eapply Hunknown.
Qed.

(** X6: what a request for a reset email that is answered did: it found the
    user of the email; it either found a token of that user and left the
    tokens alone, or found none and stored one for the user that is signed
    with an expiry of one hour and expires one hour after the request; it
    handed exactly one message to the mail transport, addressed to the email
    of the request and rendered from the link that carries the user id and
    that token; users, employees, projects and files are as before. *)
Theorem sendResetPasswordEmail_answered (env : Collaborators) (iat : Z) (now : Z)
    (fresh : Fresh) (req : SendResetPasswordEmailReq) (s s' : Store)
    (r : Response) :
  sendResetPasswordEmail env iat now fresh req s = (s', Responded r) ->
  exists id u t html,
    findOne (has_email (default "" (send_email req))) (users s) = Some (id, u)
    /\ ((exists tid, findOne (token_of id) (tokens s) = Some (tid, t)
                     /\ tokens s' = tokens s)
        \/ (findOne (token_of id) (tokens s) = None
            /\ t = {| token_user := id;
                      token_token := jwt_sign env iat id 3600000;
                      token_expirationTime := now + 3600000 |}
            /\ tokens s !! fresh_token fresh = None
            /\ tokens s' = <[fresh_token fresh := t]> (tokens s)))
    /\ resetpassword_hbs env
         (CLIENT_URL env +:+ "/" +:+ token_user t +:+ "/reset-password/"
          +:+ token_token t +:+ "/") = inr html
    /\ outbox s'
       = (outbox s
          ++ [ {| mail_from := EMAIL_ADDRESS env;
                  mail_to := default "" (send_email req);
                  mail_subject := "Password Reset Request";
                  mail_html := html |} ])%list
    /\ users s' = users s /\ employees s' = employees s
    /\ projects s' = projects s /\ files s' = files s
    /\ r = Json_message 200 "An email has been sent to reset your password.".
Proof.
  unfold sendResetPasswordEmail, handler, sendResetPasswordEmail_body,
    createHttpError, throw_if, sendMail, bind, get, ret, throw, modify.
  destruct (truthy_opt (send_email req)); [|done]. simpl.
  destruct (findOne (has_email _) (users s)) as [[id u]|]; [|done].
  destruct (findOne (token_of id) (tokens s)) as [[tid t]|] eqn:Htoken.
  - simpl. destruct (resetpassword_hbs env _) as [e|html] eqn:Hhtml; [done|].
    intros [= <- <-]. exists id, u, t, html. simpl.
    split; [done|]. split; [left; by exists tid|]. done.
  - match goal with
    | |- context [create tokens set_tokens ?v ?i ?d s] =>
        destruct (create tokens set_tokens v i d s) as [s1 [e|created]] eqn:Hc
    end; [done|].
    apply create_inv in Hc as (_ & Hfresh & -> & ->). simpl.
    destruct (resetpassword_hbs env _) as [e|html] eqn:Hhtml; [done|].
    intros [= <- <-]. eexists id, u, _, html. simpl.
    split; [done|]. split; [right; by repeat split|]. done.
Qed.

(** X7: the reset flow goes round: for a user who holds no token and whose id
    casts to itself, the request for a reset email is answered 200 and the
    reset with the user id and the token of the link and a new password is
    answered 200; afterwards the password of the stored user is the bcrypt
    hash of the new password while email, role and employee are as before,
    the tokens are those from before the request, and one message was handed
    to the mail transport. *)
Theorem reset_flow_round_trip (env : Collaborators) (iat : Z) (now : Z) (fresh : Fresh)
    (email password html : string) (s : Store) (id : ObjectId) (u : User) :
  truthy_str email = true ->
  truthy_str password = true ->
  findOne (has_email email) (users s) = Some (id, u) ->
  castObjectId id = Some id ->
  findOne (token_of id) (tokens s) = None ->
  validate_token env
    {| token_user := id;
       token_token := jwt_sign env iat id 3600000;
       token_expirationTime := now + 3600000 |} = None ->
  tokens s !! fresh_token fresh = None ->
  resetpassword_hbs env
    (CLIENT_URL env +:+ "/" +:+ id +:+ "/reset-password/"
     +:+ jwt_sign env iat id 3600000 +:+ "/") = inr html ->
  exists s1 s2,
    sendResetPasswordEmail env iat now fresh {| send_email := Some email |} s
    = (s1, Responded
             (Json_message 200 "An email has been sent to reset your password."))
    /\ resetPassword env
         {| reset_userId := id;
            reset_token := jwt_sign env iat id 3600000;
            reset_password := Some password |} s1
       = (s2, Responded
                (Json_message 200 "Your password has been reset successfully."))
    /\ users s2 = <[id := with_password (bcrypt_hash env password 10) u]> (users s)
    /\ (exists u',
          users s2 !! id = Some u'
          /\ user_password u' = bcrypt_hash env password 10
          /\ user_email u' = user_email u
          /\ user_role u' = user_role u
          /\ user_employee u' = user_employee u)
    /\ tokens s2 = tokens s
    /\ outbox s2
       = (outbox s
          ++ [ {| mail_from := EMAIL_ADDRESS env;
                  mail_to := email;
                  mail_subject := "Password Reset Request";
                  mail_html := html |} ])%list.
Proof.
  intros Hemail Hpassword Huser Hcast Hnone Hvalid Hfresh Hhtml.
  apply findOne_Some in Huser as Hu. destruct Hu as [Hu _].
  eexists _, _. split; [|split].
  - unfold sendResetPasswordEmail, handler, sendResetPasswordEmail_body,
      createHttpError, throw_if, sendMail, create, bind, get, ret, throw,
      modify.
    simpl. rewrite Hemail. simpl. rewrite Huser, Hnone.
    change (60 * 60 * 1000) with 3600000.
    rewrite Hvalid, Hfresh. simpl. rewrite Hhtml. reflexivity.
  - unfold resetPassword, handler, resetPassword_body, bind. simpl.
    erewrite findById_Some; [|exact Hcast|exact Hu].
    unfold createHttpError, throw_if, get, ret, throw, modify. simpl.
    rewrite (findOne_insert_fresh _ _ (fresh_token fresh)
               {| token_user := id;
                  token_token := jwt_sign env iat id 3600000;
                  token_expirationTime := now + 3600000 |}
               (token_of_None_matches _ _ _ Hnone))
      by (unfold token_matches; simpl; by rewrite !String.eqb_refl).
    rewrite Hpassword. reflexivity.
  - simpl. unfold deleteOne. rewrite delete_insert_eq, delete_id by done.
    split; [done|]. split; [|done].
    exists (with_password (bcrypt_hash env password 10) u).
    split; [apply lookup_insert_eq|done].
Qed.

Lemma resetPassword_password env req s s' r :
  resetPassword env req s = (s', Responded r) ->
  truthy_opt (reset_password req) = true.
Proof.
  unfold resetPassword, handler, resetPassword_body, bind.
  destruct (findById users (reset_userId req) s) as [s1 [e|[[id u]|]]];
    try done.
  unfold createHttpError, throw_if, get, ret, throw, modify. simpl.
  destruct (findOne _ (tokens s1)) as [[tid t]|]; [|done].
  by destruct (truthy_opt (reset_password req)).
Qed.

(** X8: a reset is answered exactly when the user id of the request casts to
    the ObjectId of a stored user (as 24 hexadecimal digits or as 12
    characters of one byte each), some stored token carries that user and
    the token string of the request, and a non-empty password is given; when
    the token expires plays no part.  A reset that is not answered leaves
    the store as it was, the token with it. *)
Theorem resetPassword_answered_iff (env : Collaborators)
    (req : ResetPasswordReq) (s : Store) :
  ((exists s' r, resetPassword env req s = (s', Responded r))
   <-> (exists id u tid t,
          castObjectId (reset_userId req) = Some id
          /\ users s !! id = Some u
          /\ tokens s !! tid = Some t
          /\ token_user t = id
          /\ token_token t = reset_token req)
       /\ truthy_opt (reset_password req) = true)
  /\ (forall e, (resetPassword env req s).2 = Next e ->
                (resetPassword env req s).1 = s).
Proof.
  split; [|apply resetPassword_state]. split.
  - intros (s' & r & Hreset).
    pose proof (resetPassword_password _ _ _ _ _ Hreset) as Hpassword.
    apply resetPassword_inv in Hreset
      as (id & u & tid & t & password & Hcast & Hu & Ht & Hmatch & Hpw & _).
    apply token_matches_spec in Hmatch as [Huser Htoken]. split.
    + by exists id, u, tid, t.
    + exact Hpassword.
  - intros [(id & u & tid & t & Hcast & Hu & Ht & Huser & Htoken) Hpw].
    unfold resetPassword, handler, resetPassword_body, bind.
    erewrite findById_Some; [|exact Hcast|exact Hu].
    unfold createHttpError, throw_if, get, ret, throw, modify. simpl.
    destruct (findOne _ (tokens s)) as [[tid' t']|] eqn:Hfind.
    + rewrite Hpw. simpl. by eexists _, _.
    + rewrite findOne_None in Hfind. specialize (Hfind _ _ Ht).
      unfold token_matches in Hfind.
      rewrite Huser, Htoken, !String.eqb_refl in Hfind. done.
Qed.

(** *** Invariants of the store *)

(** X9: that a user holds at most one reset token is kept by the request for
    a reset email and by the reset, whatever their outcome; it makes the
    (user, token) pairs of the store pairwise distinct. *)
Theorem reset_flow_keeps_one_token_per_user (env : Collaborators) (iat : Z) (now : Z)
    (fresh : Fresh) (send : SendResetPasswordEmailReq)
    (reset : ResetPasswordReq) (s : Store) :
  one_token_per_user s ->
  one_token_per_user (sendResetPasswordEmail env iat now fresh send s).1
  /\ one_token_per_user (resetPassword env reset s).1
  /\ tokens_distinct s.
Proof.
  intros Hinv. split; [|split].
  - by apply sendResetPasswordEmail_keeps_tokens.
  - by apply resetPassword_keeps_tokens.
  - by apply one_token_per_user_distinct.
Qed.

(** X10: that every employee is linked from at most one user and that every
    link of a user leads to a stored employee is kept by registration and by
    deletion, whatever their outcome. *)
Theorem links_are_kept (env : Collaborators) (iat : Z) (fresh : Fresh)
    (register : RegisterUserReq) (delete : DeleteUserReq) (s : Store) :
  links_distinct s -> links_resolve s ->
  (links_distinct (registerUser env iat fresh register s).1
   /\ links_resolve (registerUser env iat fresh register s).1)
  /\ (links_distinct (deleteUser delete s).1
      /\ links_resolve (deleteUser delete s).1).
Proof.
  intros Hdistinct Hresolve. split.
  - by apply registerUser_keeps_links.
  - by apply deleteUser_keeps_links.
Qed.

(** *** Deletion *)

Lemma without_member_id id p :
  has_member id p = false -> without_member id p = p.
Proof.
  destruct p as [name members]. unfold has_member, without_member. simpl.
  intros Hnone. f_equal.
  induction members as [|m members IH]; simpl in *; [done|].
  apply orb_false_iff in Hnone as [Hm Hrest]. rewrite Hm. simpl.
  by rewrite IH.
Qed.

Lemma fold_save_lookup id (coll : gmap string Project)
    (found : list (string * Project)) (m : gmap string Project) k :
  (forall k' q, In (k', q) found -> coll !! k' = Some q) ->
  fold_left (fun m p => <[fst p := without_member id (snd p)]> m) found m !! k
  = match List.find (fun p => String.eqb (fst p) k) found with
    | Some _ => without_member id <$> coll !! k
    | None => m !! k
    end.
Proof.
  revert m. induction found as [|[k' q'] found IH]; intros m Hfound; simpl;
    [done|].
  rewrite IH by (intros ? ? ?; apply Hfound; by right).
  destruct (String.eqb k' k) eqn:Hk.
  - apply String.eqb_eq in Hk as ->.
    destruct (List.find _ found); [done|].
    rewrite lookup_insert_eq, (Hfound k q') by (by left). done.
  - apply String.eqb_neq in Hk.
    destruct (List.find _ found); [done|]. by rewrite lookup_insert_ne.
Qed.

(** The loop over the projects found comes to filtering every project. *)
Lemma save_all_fmap id (coll : gmap string Project) :
  save_all id (find_all (has_member id) coll) coll = without_member id <$> coll.
Proof.
  apply map_eq. intros k. unfold save_all.
  rewrite (fold_save_lookup id coll)
    by (intros k' q Hin; by apply find_all_spec in Hin as [? _]).
  rewrite lookup_fmap.
  destruct (List.find _ _) as [p|] eqn:Hfind; [done|].
  destruct (coll !! k) as [q|] eqn:Hq; [|done]. simpl. f_equal.
  symmetry. apply without_member_id.
  destruct (has_member id q) eqn:Hmember; [|done].
  assert (In (k, q) (find_all (has_member id) coll)) as Hin
    by (by apply find_all_spec).
  apply (List.find_none _ _ Hfind) in Hin. simpl in Hin.
  by rewrite String.eqb_refl in Hin.
Qed.

(** X11: what a deletion that succeeds changes: the user and the employee it
    is linked to are removed from their collections; every project keeps its
    name and its members in their order, less the entries of that employee,
    and no project is added or removed; the tokens, a reset token of the
    deleted user among them, the files and the mail are not touched. *)
Theorem deleteUser_frame (req : DeleteUserReq) (s s' : Store) (r : Response) :
  deleteUser req s = (s', Responded r) ->
  exists id u eid,
    castObjectId (delete_userId req) = Some id
    /\ users s !! id = Some u
    /\ user_employee u = Some eid
    /\ users s' = delete id (users s)
    /\ employees s' = delete eid (employees s)
    /\ projects s' = without_member eid <$> projects s
    /\ tokens s' = tokens s
    /\ files s' = files s
    /\ outbox s' = outbox s.
Proof.
  intros (id & u & eid & Hcast & Hu & _ & _ & Hlink & _ & -> & _)%deleteUser_inv.
  exists id, u, eid. simpl. rewrite save_all_fmap. by repeat split.
Qed.

(** X12: a deletion that is not answered changes nothing; in particular a
    user who is no Admin and has no employee, or whose employee is not in the
    store, is not deleted: the answer is 404 "Employee not found.". *)
Theorem deleteUser_refusals (req : DeleteUserReq) (s : Store) :
  (forall e, (deleteUser req s).2 = Next e -> (deleteUser req s).1 = s)
  /\ (forall id u,
        castObjectId (delete_userId req) = Some id ->
        users s !! id = Some u ->
        user_role u <> Admin ->
        body_names (delete_body_userId req) (delete_userId req) = false ->
        (forall eid, user_employee u = Some eid -> employees s !! eid = None) ->
        deleteUser req s = (s, Next (HttpError 404 "Employee not found."))).
Proof.
  split; [apply deleteUser_state|].
  intros id u Hcast Hu Hrole Hbody Hlink.
  rewrite (deleteUser_found _ _ _ _ Hcast Hu), Hbody.
  destruct (UserRole_eqb (user_role u) Admin) eqn:Hadmin;
    [by apply UserRole_eqb_Admin in Hadmin|].
  destruct (user_employee u) as [eid|]; [|done].
  by rewrite (Hlink eid).
Qed.

(** *** Listing and lookup *)

(** X13: [getUsers] answers 200 with one entry for each stored user and no
    other, each with the employee populated, and changes nothing; when the
    ids of the store are well-formed ObjectIds, [getUserById] on the id of
    an entry answers 200 with that same entry. *)
Theorem getUsers_agrees_with_getUserById (s : Store) :
  (forall id, is_Some (users s !! id) -> castObjectId id = Some id) ->
  exists views,
    getUsers s = (s, Responded (Json_users 200 views))
    /\ length views = size (users s)
    /\ (forall view,
          In view views
          <-> exists id u, users s !! id = Some u /\ view = view_of s id u)
    /\ (forall view,
          In view views ->
          getUserById (view_id view) s = (s, Responded (Json_user 200 view))).
Proof.
  intros Hids. eexists. split; [reflexivity|].
  assert (forall view,
            In view (map (fun kv => view_of s kv.1 kv.2) (map_to_list (users s)))
            <-> exists id u, users s !! id = Some u /\ view = view_of s id u)
    as Hviews.
  { intros view. rewrite in_map_iff. split.
    - intros ([id u] & <- & Hin). exists id, u. split; [|done].
      by apply elem_of_map_to_list, list_elem_of_In.
    - intros (id & u & Hu & ->). exists (id, u). split; [done|].
      by apply list_elem_of_In, elem_of_map_to_list. }
  split; [|split].
  - rewrite length_map. apply length_map_to_list.
  - exact Hviews.
  - intros view (id & u & Hu & ->)%Hviews. simpl.
    unfold getUserById, handler, getUserById_body, bind.
    erewrite findById_Some; [done|by apply Hids|exact Hu].
Qed.

End UsersMongooseMore.

(** ** More on the users controller over Prisma *)

Module UsersPrismaMore.
Import JS Prisma Callers UserDeletion.

Lemma authorized_spec caller id :
  not_Admin caller && id_differs caller id = false <->
  caller_is_Admin caller \/ caller_is id caller.
Proof.
  rewrite andb_false_iff, not_Admin_spec, id_differs_spec. done.
Qed.

Lemma nonempty_spec s : nonempty s = true <-> s <> "".
Proof. unfold nonempty. by destruct s. Qed.

Lemma bad_string_false ok v :
  bad_string ok v = false ->
  v = JUndefined \/ exists s, v = JStr s /\ ok s = true.
Proof.
  destruct v as [| | | |s|fields]; simpl; try done; [by left|].
  intros H%negb_false_iff. right. by exists s.
Qed.

Lemma string_field_of ok v old new :
  bad_string ok v = false -> string_field v old = Some new ->
  (v = JUndefined /\ new = old) \/ (v = JStr new /\ ok new = true).
Proof.
  intros [->|(s & -> & Hok)]%bad_string_false; simpl; intros [= <-];
    [by left|by right].
Qed.

Lemma user_update_inv id d c c' u' :
  user_update id d c = (c', inr u') ->
  exists u,
    user c !! id = Some u
    /\ apply_user_update d u = Some u'
    /\ (forall id' v, user c !! id' = Some v ->
          user_email v = user_email u' -> id' = id)
    /\ c' = set_user (insert id u') c.
Proof.
  unfold user_update, validation_error, bind, get, ret, throw, modify.
  destruct (user c !! id) as [u|]; [|done].
  destruct (apply_user_update d u) as [u2|] eqn:Happly; [|done].
  destruct (existsb _ _) eqn:Hclash; [done|].
  intros [= <- <-]. exists u. repeat split; try done.
  intros id' v Hv Hemail.
  destruct (decide (id' = id)) as [|Hne]; [done|]. exfalso.
  apply not_true_iff_false in Hclash. apply Hclash.
  apply existsb_exists. exists (id', v). split.
  - by apply list_elem_of_In, elem_of_map_to_list.
  - simpl. apply andb_true_iff. split.
    + by apply negb_true_iff, String.eqb_neq.
    + by apply String.eqb_eq.
Qed.

(** X14: what an update of a user that is answered did.  The caller is the
    target or an Admin, and the target if the target is an Admin.  Each of
    email, first name and last name keeps its value when the body leaves it
    out and otherwise becomes the string of the body, which passes the email
    pattern or is not empty; the password keeps its hash or becomes the
    bcrypt hash of the non-empty password of the body; the role keeps its
    value or becomes the Admin or Guest of the body, for any caller that may
    update; no other user has the new email; no other user is changed; and
    [getUserById] then answers what the update answered. *)
Theorem updateUser_answered (pattern_test : string -> bool)
    (bcrypt_hash : string -> Z -> string) (req : UpdateUserReq)
    (c c' : Client) (r : Response) :
  updateUser pattern_test bcrypt_hash req c = (c', Responded r) ->
  exists u u',
    let b := uu_body req in
    user c !! uu_userId req = Some u
    /\ (caller_is_Admin (uu_user req) \/ caller_is (uu_userId req) (uu_user req))
    /\ (user_role u = Admin -> caller_is (uu_userId req) (uu_user req))
    /\ ((ub_email b = JUndefined /\ user_email u' = user_email u)
        \/ (ub_email b = JStr (user_email u')
            /\ pattern_test (user_email u') = true))
    /\ ((ub_firstName b = JUndefined /\ user_firstName u' = user_firstName u)
        \/ (ub_firstName b = JStr (user_firstName u')
            /\ user_firstName u' <> ""))
    /\ ((ub_lastName b = JUndefined /\ user_lastName u' = user_lastName u)
        \/ (ub_lastName b = JStr (user_lastName u') /\ user_lastName u' <> ""))
    /\ ((ub_password b = JUndefined /\ user_password u' = user_password u)
        \/ (exists password,
              ub_password b = JStr password /\ password <> ""
              /\ user_password u' = bcrypt_hash password 10))
    /\ ((ub_role b = JUndefined /\ user_role u' = user_role u)
        \/ (ub_role b = JStr "Admin" /\ user_role u' = Admin)
        \/ (ub_role b = JStr "Guest" /\ user_role u' = Guest))
    /\ user_image u' = (if uu_file req then Some image_url else user_image u)
    /\ (forall id v, user c !! id = Some v ->
          user_email v = user_email u' -> id = uu_userId req)
    /\ user c' = <[uu_userId req := u']> (user c)
    /\ employee c' = employee c
    /\ r = Json_user 200 (exclude_password (uu_userId req) u')
    /\ getUserById (uu_userId req) c' = (c', Responded r).
Proof.
  unfold updateUser, handler, updateUser_body, bind.
  unfold throw_if at 1.
  destruct (not_Admin (uu_user req) && id_differs (uu_user req) (uu_userId req))
    eqn:Hcaller; [done|].
  apply authorized_spec in Hcaller.
  unfold user_findUnique, createHttpError, bind, get, ret, throw. simpl.
  destruct (user c !! uu_userId req) as [u|] eqn:Hu; [|done].
  unfold throw_if at 1.
  destruct (Role_eqb (user_role u) Admin && id_differs (uu_user req) (uu_userId req))
    eqn:Hadmin; [done|].
  unfold throw_if at 1. simpl.
  destruct (bad_string pattern_test (ub_email (uu_body req))) eqn:Hemail;
    [done|].
  destruct (bad_string nonempty (ub_firstName (uu_body req))) eqn:Hfirst;
    [done|].
  destruct (bad_string nonempty (ub_lastName (uu_body req))) eqn:Hlast;
    [done|].
  destruct (bad_string nonempty (ub_password (uu_body req))) eqn:Hpassword;
    [done|].
  simpl.
  destruct (negb (strict_eq (ub_role (uu_body req)) JUndefined) && _ && _)
    eqn:Hrole; [done|].
  simpl.
  match goal with
  | |- (let (_, _) := (let (_, _) := ?check in _) in _) = _ -> _ =>
      destruct check as [c1 [e|[]]] eqn:Hcheck
  end.
  { intros [=]. }
  assert (c1 = c) as ->.
  { revert Hcheck. unfold user_findUnique_email, throw_if, bind, get, ret, throw.
    destruct (ub_email (uu_body req)) as [| | | |email|fields]; try by intros [= <-].
    destruct (truthy_str email); [|by intros [= <-]].
    destruct (List.find _ _) as [[id v]|]; [|by intros [= <-]].
    destruct (negb (String.eqb id _)); by intros [= <-]. }
  destruct (user_update _ _ c) as [c2 [e|u']] eqn:Hupdate; [done|].
  apply user_update_inv in Hupdate as (u0 & Hu0 & Happly & Hunique & ->).
  rewrite Hu in Hu0. injection Hu0 as <-.
  intros [= <- <-]. exists u, u'. simpl.
  unfold apply_user_update in Happly.
  apply bind_Some in Happly as (email & Hem & Happly).
  apply bind_Some in Happly as (firstName & Hfn & Happly).
  apply bind_Some in Happly as (lastName & Hln & Happly).
  apply bind_Some in Happly as (role & Hrl & Happly).
  injection Happly as <-. simpl in *.
  split; [done|]. split; [done|]. split.
  { intros Hrole_u. rewrite Hrole_u in Hadmin. simpl in Hadmin.
    by apply id_differs_spec. }
  split; [by apply (string_field_of pattern_test)|].
  split.
  { destruct (string_field_of nonempty _ _ _ Hfirst Hfn) as [|[? ?%nonempty_spec]];
      [by left|by right]. }
  split.
  { destruct (string_field_of nonempty _ _ _ Hlast Hln) as [|[? ?%nonempty_spec]];
      [by left|by right]. }
  split.
  { apply bad_string_false in Hpassword as [->|(password & -> & Hok)].
    - by left.
    - right. exists password. apply nonempty_spec in Hok as Hne.
      assert (truthy_str password = true) as ->.
      { unfold truthy_str. apply negb_true_iff. by apply String.eqb_neq. }
      done. }
  split.
  { destruct (ub_role (uu_body req)) as [| | | |name|fields]; simpl in *; try done.
    - injection Hrl as <-. by left.
    - right.
      destruct (String.eqb name "Admin") eqn:HA.
      + apply String.eqb_eq in HA as ->. simpl in Hrl. injection Hrl as <-.
        by left.
      + destruct (String.eqb name "Guest") eqn:HG; [|done].
        apply String.eqb_eq in HG as ->. simpl in Hrl. injection Hrl as <-.
        by right. }
  split; [by destruct (uu_file req)|].
  split; [done|]. split; [done|]. split; [done|]. split; [done|].
  unfold getUserById, handler, getUserById_body, user_findUnique,
    createHttpError, bind, get, ret. simpl.
  by rewrite lookup_insert_eq.
Qed.

Import Updates.

Lemma no_other_holder (c : Client) id email :
  (forall id' v, user c !! id' = Some v -> user_email v = email -> id' = id) ->
  existsb
    (fun kv => negb (String.eqb kv.1 id) && String.eqb (user_email kv.2) email)
    (map_to_list (user c)) = false.
Proof.
  intros Hunique. apply not_true_iff_false.
  intros ([id' v] & Hin & Hclash)%existsb_exists. simpl in Hclash.
  apply andb_true_iff in Hclash as [Hne%negb_true_iff%String.eqb_neq Heq%String.eqb_eq].
  apply list_elem_of_In, elem_of_map_to_list in Hin. by apply Hne, (Hunique _ v).
Qed.

(** X15: a Guest can make itself Admin: for a stored user of role Guest
    whose email no other user has, the update of the own record by that user
    with a body that carries only the role Admin is answered 200 and stores
    the role Admin. *)
Theorem guest_makes_itself_Admin (pattern_test : string -> bool)
    (bcrypt_hash : string -> Z -> string) (c : Client) (id : string) (u : User) :
  user c !! id = Some u ->
  user_role u = Guest ->
  (forall id' v, user c !! id' = Some v ->
     user_email v = user_email u -> id' = id) ->
  updateUser pattern_test bcrypt_hash
    {| uu_user := Some {| auth_id := id; auth_role := Guest |};
       uu_userId := id;
       uu_body := only_role "Admin";
       uu_file := false |} c
  = (set_user (insert id (with_role Admin u)) c,
     Responded (Json_user 200 (exclude_password id (with_role Admin u)))).
Proof.
  intros Hu Hrole Hunique.
  unfold updateUser, handler, updateUser_body, user_findUnique, user_update,
    createHttpError, throw_if, bind, get, ret, throw, modify.
  simpl. rewrite String.eqb_refl. simpl. rewrite Hu, Hrole. simpl.
  rewrite Hu. unfold apply_user_update. simpl.
  rewrite (no_other_holder c id (user_email u) Hunique). done.
Qed.

Lemma text_or_absent_ok v : text_or_absent v -> bad_string nonempty v = false.
Proof.
  intros [->|(s & -> & Hs)]; [done|]. simpl.
  by apply negb_false_iff, nonempty_spec.
Qed.

(** X16: an update that would give a user the email of another is refused:
    when the caller may update the target, the body is well formed, its email
    passes the pattern, is not the email of the target and is the email of a
    stored user, the answer is 409 and nothing is written. *)
Theorem updateUser_email_conflict (pattern_test : string -> bool)
    (bcrypt_hash : string -> Z -> string) (req : UpdateUserReq) (c : Client)
    (u : User) (email : string) (other : string) (v : User) :
  caller_is_Admin (uu_user req) \/ caller_is (uu_userId req) (uu_user req) ->
  user c !! uu_userId req = Some u ->
  (user_role u = Admin -> caller_is (uu_userId req) (uu_user req)) ->
  ub_email (uu_body req) = JStr email ->
  email <> "" ->
  pattern_test email = true ->
  text_or_absent (ub_firstName (uu_body req)) ->
  text_or_absent (ub_lastName (uu_body req)) ->
  text_or_absent (ub_password (uu_body req)) ->
  role_or_absent (ub_role (uu_body req)) ->
  user_email u <> email ->
  user c !! other = Some v ->
  user_email v = email ->
  updateUser pattern_test bcrypt_hash req c
  = (c, Next (HttpError 409 "User already exists.")).
Proof.
  intros Hcaller Hu Hadmin Hemail Hne Hpattern Hfirst Hlast Hpassword Hrole
    Hown Hv Hheld.
  unfold updateUser, handler, updateUser_body, user_findUnique,
    user_findUnique_email, createHttpError, bind, get, ret, throw.
  unfold throw_if at 1.
  apply authorized_spec in Hcaller. rewrite Hcaller. simpl. rewrite Hu.
  unfold throw_if at 1.
  assert (Role_eqb (user_role u) Admin
          && id_differs (uu_user req) (uu_userId req) = false) as ->.
  { destruct (user_role u) eqn:Hr; [|done]. simpl.
    by apply id_differs_spec, Hadmin. }
  unfold throw_if at 1. simpl.
  rewrite Hemail. simpl. rewrite Hpattern. simpl.
  rewrite (text_or_absent_ok _ Hfirst), (text_or_absent_ok _ Hlast),
    (text_or_absent_ok _ Hpassword). simpl.
  assert (negb (strict_eq (ub_role (uu_body req)) JUndefined)
          && negb (strict_eq (ub_role (uu_body req)) (JStr "Admin"))
          && negb (strict_eq (ub_role (uu_body req)) (JStr "Guest")) = false)
    as -> by (by destruct Hrole as [->|[->| ->]]).
  simpl.
  assert (truthy_str email = true) as ->.
  { unfold truthy_str. by apply negb_true_iff, String.eqb_neq. }
  destruct (List.find _ (map_to_list (user c))) as [[id w]|] eqn:Hfind.
  - apply List.find_some in Hfind as [Hin Hw]. simpl in Hw.
    apply String.eqb_eq in Hw.
    apply list_elem_of_In, elem_of_map_to_list in Hin.
    unfold throw_if.
    assert (negb (String.eqb id (uu_userId req)) = true) as ->; [|done].
    apply negb_true_iff, String.eqb_neq. intros ->. congruence.
  - exfalso.
    assert (In (other, v) (map_to_list (user c))) as Hin
      by (by apply list_elem_of_In, elem_of_map_to_list).
    apply (List.find_none _ _ Hfind) in Hin. simpl in Hin.
    rewrite Hheld, String.eqb_refl in Hin. done.
Qed.

(** X17: a deletion of a user that is answered answers 204, removes the
    target from the user table and nothing else, after which [getUserById]
    answers 404 for the target and what it answered before for every other
    id. *)
Theorem prisma_deleteUser_then_getUserById (req : DeleteUserReq)
    (c c' : Client) (r : Response) :
  deleteUser req c = (c', Responded r) ->
  r = SendStatus 204
  /\ is_Some (user c !! du_userId req)
  /\ user c' = delete (du_userId req) (user c)
  /\ employee c' = employee c
  /\ getUserById (du_userId req) c'
     = (c', Next (HttpError 404 "User not found."))
  /\ (forall id, id <> du_userId req ->
        (getUserById id c').2 = (getUserById id c).2).
Proof.
  intros Hdelete.
  destruct (not_Admin (du_user req) && id_differs (du_user req) (du_userId req))
    eqn:Hguard.
  { by rewrite prisma_deleteUser_outsider in Hdelete. }
  destruct (user c !! du_userId req) as [u|] eqn:Hu.
  - rewrite (prisma_deleteUser_found _ _ u Hguard Hu) in Hdelete.
    destruct (Role_eqb _ _ && _); [done|].
    injection Hdelete as <- <-. simpl.
    unfold getUserById, handler, getUserById_body, user_findUnique,
      createHttpError, bind, get, ret, throw. simpl.
    repeat split; try done.
    + by rewrite lookup_delete_eq.
    + intros id Hne. rewrite lookup_delete_ne by done.
      by destruct (user c !! id).
  - revert Hdelete.
    unfold deleteUser, handler, deleteUser_body, user_findUnique,
      createHttpError, throw_if, bind, get, ret, throw.
    by rewrite Hguard, Hu.
Qed.

(** X18: [getUsers] answers 200 with one entry, without the password, for
    each row of the user table and no other, and changes nothing;
    [getUserById] on the id of an entry answers 200 with that same entry. *)
Theorem prisma_getUsers_agrees_with_getUserById (c : Client) :
  exists views,
    getUsers c = (c, Responded (Json_users 200 views))
    /\ length views = size (user c)
    /\ (forall view,
          In view views
          <-> exists id u, user c !! id = Some u
                           /\ view = exclude_password id u)
    /\ (forall view,
          In view views ->
          getUserById (view_id view) c = (c, Responded (Json_user 200 view))).
Proof.
  eexists. split; [reflexivity|].
  assert (forall view,
            In view (map (fun kv => exclude_password kv.1 kv.2)
                       (map_to_list (user c)))
            <-> exists id u, user c !! id = Some u
                             /\ view = exclude_password id u) as Hviews.
  { intros view. rewrite in_map_iff. split.
    - intros ([id u] & <- & Hin). exists id, u. split; [|done].
      by apply elem_of_map_to_list, list_elem_of_In.
    - intros (id & u & Hu & ->). exists (id, u). split; [done|].
      by apply list_elem_of_In, elem_of_map_to_list. }
  split; [|split].
  - rewrite length_map. apply length_map_to_list.
  - exact Hviews.
  - intros view (id & u & Hu & ->)%Hviews. simpl.
    unfold getUserById, handler, getUserById_body, user_findUnique,
      createHttpError, bind, get, ret.
    by rewrite Hu.
Qed.

End UsersPrismaMore.

(** ** More on the employees controller *)

Module EmployeesMore.
Import JS Prisma Callers UserDeletion EmployeesListing EmployeeUpdate.

(** *** Who may change employees *)

(** X19: creating, updating and deleting an employee is refused with 403 for
    every caller who is no Admin, before the store is read or written,
    whatever the create and delete operations of the store would do. *)
Theorem employee_mutations_need_Admin (Number : string -> number) (now : Z)
    (employee_create : EmployeeCreateData -> M Client Employee)
    (employee_delete : string -> M Client unit)
    (caller : option AuthUser) (c : Client) :
  ~ caller_is_Admin caller ->
  (forall body file,
     createEmployee Number now employee_create
       {| ce_user := caller; ce_body := body; ce_file := file |} c
     = (c, Next (HttpError 403 "This user is not allowed to create employees.")))
  /\ (forall employeeId body,
        updateEmployee Number now
          {| ue_user := caller; ue_employeeId := employeeId; ue_body := body |} c
        = (c, Next (HttpError 403
                      "This user is not allowed to update employees.")))
  /\ (forall employeeId,
        deleteEmployee employee_delete
          {| de_user := caller; de_employeeId := employeeId |} c
        = (c, Next (HttpError 403
                      "This user is not allowed to delete employees."))).
Proof.
  intros Hcaller. rewrite <- not_Admin_spec in Hcaller.
  apply not_false_is_true in Hcaller.
  unfold createEmployee, createEmployee_body, updateEmployee,
    updateEmployee_body, deleteEmployee, deleteEmployee_body, handler,
    throw_if, bind, throw.
  simpl. rewrite Hcaller. done.
Qed.

(** *** What an update leaves alone *)

Lemma string_field_idem v old new :
  string_field v old = Some new -> string_field v new = Some new.
Proof.
  destruct v as [| | | |s|[|[name [| | | |s|fields]] [|? ?]]]; simpl;
    congruence.
Qed.

Lemma enum_field_idem names v old new :
  enum_field names v old = Some new -> enum_field names v new = Some new.
Proof.
  destruct v as [| | | |s|[|[name [| | | |s|fields]] [|? ?]]]; simpl;
    congruence.
Qed.

Lemma number_field_idem v old new :
  number_field v old = Some new -> number_field v new = Some new.
Proof. destruct v as [| | |[| | |z]| |]; simpl; congruence. Qed.

Lemma boolean_field_idem v old new :
  boolean_field v old = Some new -> boolean_field v new = Some new.
Proof.
  destruct v as [| | | |s|[|[name [| | | |s|fields]] [|? ?]]]; simpl;
    congruence.
Qed.

(** A boolean that was written is not a change the second time. *)
Lemma boolean_field_no_date v old new :
  v = JUndefined \/ (exists b, v = JBool b) ->
  boolean_field v old = Some new ->
  negb (strict_eq v JUndefined) && negb (strict_eq v (JBool new)) = false.
Proof.
  intros [->|[b ->]]; simpl; [done|].
  intros [= <-]. by destruct b.
Qed.

Lemma replace_employee_Permutation e' rows :
  replace_employee e' rows
  ≡ₚ e' :: List.filter
             (fun x => negb (String.eqb (employee_id x) (employee_id e'))) rows.
Proof.
  unfold replace_employee. by rewrite Permutation_app_comm.
Qed.

Lemma replace_employee_twice e' rows :
  replace_employee e' (replace_employee e' rows) = replace_employee e' rows.
Proof.
  unfold replace_employee. rewrite List.filter_app. simpl.
  rewrite String.eqb_refl. simpl. rewrite app_nil_r. f_equal.
  induction rows as [|x rows IH]; simpl; [done|].
  destruct (negb (String.eqb (employee_id x) (employee_id e'))) eqn:Hx; simpl;
    [|done].
  by rewrite Hx, IH.
Qed.

Lemma filter_other_ids_length id (rows : list Employee) e :
  NoDup (map employee_id rows) ->
  In e rows -> employee_id e = id ->
  S (length (List.filter (fun x => negb (String.eqb (employee_id x) id)) rows))
  = length rows.
Proof.
  intros Hids He Hid. induction rows as [|x rows IH]; simpl in *; [done|].
  apply NoDup_cons in Hids as [Hx Hids].
  destruct He as [->|He].
  - rewrite Hid, String.eqb_refl. simpl. f_equal.
    clear IH. induction rows as [|y rows IH]; simpl in *; [done|].
    apply NoDup_cons in Hids as [_ Hids].
    assert (String.eqb (employee_id y) id = false) as ->.
    { apply String.eqb_neq. intros Hy. apply Hx. rewrite Hid, <- Hy. by left. }
    simpl. f_equal. apply IH; [|done].
    intros Hin. apply Hx. by right.
  - assert (String.eqb (employee_id x) id = false) as ->.
    { apply String.eqb_neq. intros Hy. apply Hx. rewrite Hy, <- Hid.
      apply list_elem_of_In, in_map. done. }
    simpl. f_equal. by apply IH.
Qed.

(** What an update that is answered went through, column by column. *)
Lemma updateEmployee_columns Number now req c c' r :
  updateEmployee Number now req c = (c', Responded r) ->
  exists e e',
    let b := ue_body req in
    not_Admin (ue_user req) = false
    /\ List.find (fun x => String.eqb (employee_id x) (ue_employeeId req))
         (employee c) = Some e
    /\ toNumber_throws (body_salary b) && truthy (body_salary b) = false
    /\ c' = set_employee (replace_employee e') c
    /\ r = Json_employee 200 e'
    /\ employee_id e' = employee_id e
    /\ employee_image e' = employee_image e
    /\ string_field (body_firstName b) (employee_firstName e)
       = Some (employee_firstName e')
    /\ string_field (body_lastName b) (employee_lastName e)
       = Some (employee_lastName e')
    /\ enum_field (enum_Department c) (body_department b) (employee_department e)
       = Some (employee_department e')
    /\ number_field
         (if truthy (body_salary b)
          then JNum (toNumber Number (body_salary b)) else JUndefined)
         (employee_salary e)
       = Some (employee_salary e')
    /\ enum_field (enum_Currency c) (body_currency b) (employee_currency e)
       = Some (employee_currency e')
    /\ enum_field (enum_TechStack c) (body_techStack b) (employee_techStack e)
       = Some (employee_techStack e')
    /\ boolean_field (body_isEmployed b) (employee_isEmployed e)
       = Some (employee_isEmployed e')
    /\ employee_isEmployedDate e'
       = default (employee_isEmployedDate e)
           (isEmployedDate_of now (body_isEmployed b) e).
Proof.
  unfold updateEmployee, handler, updateEmployee_body, employee_findUnique,
    employee_update, validation_error, createHttpError, throw_if, bind, get,
    ret, throw, modify.
  destruct (not_Admin (ue_user req)); [done|].
  destruct (List.find _ (employee c)) as [e|] eqn:Hfind; [|done].
  destruct (salary_data Number _ c) as [c1 [error|salary]] eqn:Hsalary; [done|].
  assert (toNumber_throws (body_salary (ue_body req))
          && truthy (body_salary (ue_body req)) = false) as Hthrows.
  { revert Hsalary. unfold salary_data, Number_of, bind, ret, throw.
    destruct (truthy _); [|by rewrite andb_false_r].
    by destruct (toNumber_throws _). }
  apply salary_data_inv in Hsalary as [-> Hsalary].
  specialize (Hsalary _ eq_refl). subst salary.
  rewrite Hfind.
  match goal with
  | |- context [apply_update c ?d e] =>
      destruct (apply_update c d e) as [e'|] eqn:Happly; [|done]
  end.
  intros [= <- <-]. exists e, e'.
  unfold apply_update in Happly. simpl in Happly.
  apply bind_Some in Happly as (firstName & Hfn & Happly).
  apply bind_Some in Happly as (lastName & Hln & Happly).
  apply bind_Some in Happly as (department & Hdp & Happly).
  apply bind_Some in Happly as (salary & Hsl & Happly).
  apply bind_Some in Happly as (currency & Hcr & Happly).
  apply bind_Some in Happly as (techStack & Hts & Happly).
  apply bind_Some in Happly as (isEmployed & Hie & Happly).
  injection Happly as <-. simpl. by repeat split.
Qed.

(** X20: what an update of an employee that is answered leaves alone: the
    rows of the table after it are the employee of the answer and the rows
    that had another id, each as often as before, in whatever order; so a
    row with another id is in the table after the update exactly when it was
    before, and when the ids of the table are pairwise distinct they stay so
    and the table keeps its length.  The employee of the answer keeps its id
    and its image, keeps each of first name, last name, department, currency
    and tech stack that the body leaves out, and keeps its salary when the
    salary of the body is falsy, the number 0 included; users, projects and
    memberships are not touched. *)
Theorem updateEmployee_frame (Number : string -> number) (now : Z)
    (req : UpdateEmployeeReq) (c c' : Client) (status : Z) (e' : Employee) :
  updateEmployee Number now req c = (c', Responded (Json_employee status e')) ->
  exists e,
    let b := ue_body req in
    List.find (fun x => String.eqb (employee_id x) (ue_employeeId req))
      (employee c) = Some e
    /\ employee c'
       ≡ₚ e' :: List.filter
                  (fun x => negb (String.eqb (employee_id x) (ue_employeeId req)))
                  (employee c)
    /\ (forall x, employee_id x <> ue_employeeId req ->
          In x (employee c') <-> In x (employee c))
    /\ (forall x, In x (employee c') -> employee_id x = ue_employeeId req ->
          x = e')
    /\ (NoDup (map employee_id (employee c)) ->
        NoDup (map employee_id (employee c'))
        /\ length (employee c') = length (employee c))
    /\ employee_id e' = ue_employeeId req
    /\ employee_image e' = employee_image e
    /\ (body_firstName b = JUndefined ->
        employee_firstName e' = employee_firstName e)
    /\ (body_lastName b = JUndefined ->
        employee_lastName e' = employee_lastName e)
    /\ (body_department b = JUndefined ->
        employee_department e' = employee_department e)
    /\ (body_currency b = JUndefined ->
        employee_currency e' = employee_currency e)
    /\ (body_techStack b = JUndefined ->
        employee_techStack e' = employee_techStack e)
    /\ (truthy (body_salary b) = false ->
        employee_salary e' = employee_salary e)
    /\ user c' = user c /\ project c' = project c
    /\ employeesOnProjects c' = employeesOnProjects c.
Proof.
  intros (e & e2 & _ & Hfind & _ & -> & [= -> <-] & Hid & Himage & Hfn & Hln
          & Hdp & Hsl & Hcr & Hts & _)%updateEmployee_columns.
  assert (employee_id e = ue_employeeId req) as Hrequested.
  { apply List.find_some in Hfind as [_ H]. by apply String.eqb_eq in H. }
  assert (employee_id e' = ue_employeeId req) as Hid' by congruence.
  pose proof (replace_employee_Permutation e' (employee c)) as Hrows.
  rewrite Hid' in Hrows.
  exists e. simpl. split; [done|]. split; [done|]. split.
  { intros x Hx. rewrite <- !list_elem_of_In, Hrows, !list_elem_of_In. simpl.
    rewrite List.filter_In. split.
    - intros [<-|[Hin _]]; [done|done].
    - intros Hin. right. split; [done|].
      by apply negb_true_iff, String.eqb_neq. }
  split.
  { intros x Hx Hxid. rewrite <- list_elem_of_In, Hrows, list_elem_of_In in Hx.
    destruct Hx as [<-|[_ Hne]%List.filter_In]; [done|].
    apply negb_true_iff, String.eqb_neq in Hne. done. }
  split.
  { intros Hids. split.
    - rewrite Hrows. simpl. apply NoDup_cons. split.
      + rewrite Hid'. intros (x & Hxid & Hx)%list_elem_of_In%in_map_iff.
        apply List.filter_In in Hx as [_ Hne].
        apply negb_true_iff, String.eqb_neq in Hne. done.
      + clear Hfind Hrows. induction (employee c) as [|x rows IH]; simpl;
          [apply NoDup_nil_2|].
        apply NoDup_cons in Hids as [Hx Hids].
        destruct (negb (String.eqb (employee_id x) (ue_employeeId req)));
          simpl; [|by apply IH].
        apply NoDup_cons. split; [|by apply IH].
        intros (y & Hy & Hin)%list_elem_of_In%in_map_iff.
        apply List.filter_In in Hin as [Hin _].
        apply Hx. rewrite <- Hy. by apply list_elem_of_In, in_map.
    - rewrite Hrows. simpl.
      apply List.find_some in Hfind as [Hin _].
      by apply filter_other_ids_length with (e := e). }
  split; [done|]. split; [done|].
  repeat split;
    try (intros Habsent; rewrite Habsent in *; simpl in *; congruence).
Qed.

(** X21: an update of an employee that was answered and whose [isEmployed] is
    a boolean or absent can be repeated without effect: the same request on
    the store it left, at any later time, is answered 200 with the same
    employee and leaves the rows of every table as they are; the employment
    date is not stamped again. *)
Theorem updateEmployee_idempotent (Number : string -> number) (now later : Z)
    (req : UpdateEmployeeReq) (c c' : Client) (status : Z) (e' : Employee) :
  updateEmployee Number now req c = (c', Responded (Json_employee status e')) ->
  body_isEmployed (ue_body req) = JUndefined
  \/ (exists b, body_isEmployed (ue_body req) = JBool b) ->
  exists c'',
    updateEmployee Number later req c' = (c'', Responded (Json_employee 200 e'))
    /\ employee c'' ≡ₚ employee c'
    /\ user c'' = user c'
    /\ project c'' = project c'
    /\ employeesOnProjects c'' = employeesOnProjects c'.
Proof.
  intros Hfirst Hboolean. exists c'.
  split; [|done].
  pose proof (updateEmployee_columns _ _ _ _ _ _ Hfirst)
    as (e & e2 & Hadmin & Hfind & Hthrows & -> & [= -> <-] & Hid & Himage & Hfn
        & Hln & Hdp & Hsl & Hcr & Hts & Hie & Hdate).
  assert (employee_id e = ue_employeeId req) as Hrequested.
  { apply List.find_some in Hfind as [_ H]. by apply String.eqb_eq in H. }
  assert (List.find (fun x => String.eqb (employee_id x) (ue_employeeId req))
            (replace_employee e' (employee c)) = Some e') as Hfind'.
  { apply (find_replace_employee _ _ _ e); [congruence|done]. }
  unfold updateEmployee, handler, updateEmployee_body, employee_findUnique,
    employee_update, validation_error, createHttpError, throw_if, bind, get,
    ret, throw, modify.
  rewrite Hadmin. simpl. rewrite Hfind'.
  unfold salary_data, Number_of, bind, ret, throw.
  destruct (truthy (body_salary (ue_body req))) eqn:Htruthy; rewrite ?Htruthy in Hsl.
  - rewrite andb_true_r in Hthrows. rewrite Hthrows. simpl. rewrite Hfind'.
    unfold isEmployedDate_of. rewrite (boolean_field_no_date _ _ _ Hboolean Hie).
    unfold apply_update. simpl.
    rewrite (string_field_idem _ _ _ Hfn), (string_field_idem _ _ _ Hln). simpl.
    rewrite (enum_field_idem _ _ _ _ Hdp). simpl.
    pose proof (number_field_idem _ _ _ Hsl) as Hsl'. simpl in Hsl'.
    rewrite ?Hsl'. simpl.
    rewrite (enum_field_idem _ _ _ _ Hcr). simpl.
    rewrite (enum_field_idem _ _ _ _ Hts). simpl.
    rewrite (boolean_field_idem _ _ _ Hie). simpl.
    assert ({| employee_id := employee_id e';
               employee_firstName := employee_firstName e';
               employee_lastName := employee_lastName e';
               employee_image := employee_image e';
               employee_department := employee_department e';
               employee_salary := employee_salary e';
               employee_currency := employee_currency e';
               employee_techStack := employee_techStack e';
               employee_isEmployed := employee_isEmployed e';
               employee_isEmployedDate := employee_isEmployedDate e' |} = e')
      as -> by (by destruct e').
    unfold set_employee. simpl. by rewrite replace_employee_twice.
  - simpl. rewrite Hfind'.
    unfold isEmployedDate_of. rewrite (boolean_field_no_date _ _ _ Hboolean Hie).
    unfold apply_update. simpl.
    rewrite (string_field_idem _ _ _ Hfn), (string_field_idem _ _ _ Hln). simpl.
    rewrite (enum_field_idem _ _ _ _ Hdp). simpl.
    pose proof (number_field_idem _ _ _ Hsl) as Hsl'. simpl in Hsl'.
    rewrite ?Hsl'. simpl.
    rewrite (enum_field_idem _ _ _ _ Hcr). simpl.
    rewrite (enum_field_idem _ _ _ _ Hts). simpl.
    rewrite (boolean_field_idem _ _ _ Hie). simpl.
    assert ({| employee_id := employee_id e';
               employee_firstName := employee_firstName e';
               employee_lastName := employee_lastName e';
               employee_image := employee_image e';
               employee_department := employee_department e';
               employee_salary := employee_salary e';
               employee_currency := employee_currency e';
               employee_techStack := employee_techStack e';
               employee_isEmployed := employee_isEmployed e';
               employee_isEmployedDate := employee_isEmployedDate e' |} = e')
      as -> by (by destruct e').
    unfold set_employee. simpl. by rewrite replace_employee_twice.
Qed.

(** *** What a listing returns *)

Lemma insert_by_In {A} (leb : A -> A -> bool) x l y :
  In y (insert_by leb x l) -> y = x \/ In y l.
Proof.
  induction l as [|z l IH]; simpl; [intros [<-|[]]; by left|].
  destruct (leb x z); simpl.
  - intros [<-|[<-|H]]; [by left|right; by left|right; by right].
  - intros [<-|H]; [right; by left|].
    destruct (IH H) as [->|?]; [by left|right; by right].
Qed.

Lemma sort_by_In {A} (leb : A -> A -> bool) l y :
  In y (sort_by leb l) -> In y l.
Proof.
  induction l as [|x l IH]; simpl; [done|].
  intros [->|H]%insert_by_In; [by left|right; by apply IH].
Qed.

Lemma order_rows_In c o rows rows' y :
  order_rows c o rows = Some rows' -> In y rows' -> In y rows.
Proof.
  unfold order_rows. destruct o as [[field direction]|]; [|by intros [= <-]].
  destruct (sort_key c field); [|done].
  destruct (String.eqb direction "asc"); [intros [= <-]; apply sort_by_In|].
  destruct (String.eqb direction "desc"); [intros [= <-]; apply sort_by_In|done].
Qed.

Lemma In_take {A} n (l : list A) y : In y (firstn n l) -> In y l.
Proof.
  revert l. induction n as [|n IH]; intros [|x l]; simpl; try done.
  intros [->|H]; [by left|right; by apply IH].
Qed.

Lemma In_drop {A} n (l : list A) y : In y (drop n l) -> In y l.
Proof.
  revert l. induction n as [|n IH]; intros [|x l]; simpl; try done.
  intros H. right. by apply IH.
Qed.

Lemma window_In skip take rows rows' y :
  window skip take rows = Some rows' -> In y rows' -> In y rows.
Proof.
  unfold window.
  destruct skip as [[| | |s]|], take as [[| | |t]|]; try done;
    repeat case_match; try done; intros [= <-];
    rewrite <- ?in_rev; intros Hin;
    repeat (first [apply In_take in Hin | apply In_drop in Hin]);
    rewrite <- ?in_rev in Hin; done.
Qed.

Lemma window_length skip t rows rows' :
  window skip (Some (Fin t)) rows = Some rows' ->
  Z.of_nat (length rows') <= Z.abs t.
Proof.
  unfold window.
  destruct skip as [[| | |s]|]; try done;
    repeat case_match; try done; intros [= <-];
    rewrite ?length_rev, length_firstn; lia.
Qed.

(** The rows of an answered [findMany]. *)
Lemma employee_findMany_rows a c c' found :
  employee_findMany a c = (c', inr found) ->
  exists rows,
    found = map (include_projects c) rows
    /\ (forall e, In e rows ->
          In e (employee c) /\ eval_where (arg_where a) e = true)
    /\ (forall t, arg_take a = Some (Fin t) ->
          Z.of_nat (length rows) <= Z.abs t).
Proof.
  unfold employee_findMany, validation_error, bind, get, ret, throw.
  destruct (valid_where c (arg_where a)); [|done].
  destruct (order_rows _ _ _) as [ordered|] eqn:Horder; [|done].
  destruct (window _ _ ordered) as [rows|] eqn:Hwindow; [|done].
  intros [= <- <-]. exists rows. split; [done|]. split.
  - intros e He. apply (window_In _ _ _ _ _ Hwindow) in He.
    apply (order_rows_In _ _ _ _ _ Horder) in He.
    by apply List.filter_In in He.
  - intros t Ht. rewrite Ht in Hwindow. by eapply window_length.
Qed.





Lemma find_by_unique_id (rows : list Employee) e :
  NoDup (map employee_id rows) -> In e rows ->
  List.find (fun x => String.eqb (employee_id x) (employee_id e)) rows = Some e.
Proof.
  induction rows as [|x rows IH]; simpl; [done|].
  intros [Hx Hrows]%NoDup_cons [->|He].
  - by rewrite String.eqb_refl.
  - destruct (String.eqb (employee_id x) (employee_id e)) eqn:Hid.
    + exfalso. apply Hx. apply String.eqb_eq in Hid. rewrite Hid.
      apply list_elem_of_In, in_map. done.
    + by apply IH.
Qed.

(** X24: the listing and the lookup agree: when the ids of the employee
    table are pairwise distinct, [getEmployeeById] on the id of an employee
    that a listing returned answers 200 with that same employee and the same
    memberships; and for an id that is not in the table it answers 404. *)
Theorem getEmployeeById_agrees_with_listing (Number : string -> number)
    (q : EmployeesQuery) (c : Client) :
  NoDup (map employee_id (employee c)) ->
  (forall status body item,
     (getEmployees Number q c).2 = Responded (Json_employees status body) ->
     In item (employees body) ->
     getEmployeeById (employee_id (the_employee item)) c
     = (c, Responded (Json_employee_projects 200 item)))
  /\ (forall id,
        ~ In id (map employee_id (employee c)) ->
        getEmployeeById id c = (c, Next (HttpError 404 "Employee not found."))).
Proof.
  intros Hids. split.
  - intros status body item Hget Hitem.
    destruct (getEmployees Number q c) as [c' o] eqn:Hlisting. simpl in Hget.
    subst o.
    apply getEmployees_inv in Hlisting as (w & found & -> & _ & _ & Hf & [= _ ->]).
    apply employee_findMany_rows in Hf as (rows & -> & Hrows & _).
    simpl in Hitem. apply in_map_iff in Hitem as (e & <- & He).
    destruct (Hrows _ He) as [Hin _]. simpl.
    unfold getEmployeeById, handler, getEmployeeById_body,
      employee_findUnique_projects, createHttpError, bind, get, ret.
    by rewrite (find_by_unique_id _ _ Hids Hin).
  - intros id Hid.
    unfold getEmployeeById, handler, getEmployeeById_body,
      employee_findUnique_projects, createHttpError, bind, get, ret, throw.
    destruct (List.find _ (employee c)) as [e|] eqn:Hfind; [|done].
    exfalso. apply Hid. apply List.find_some in Hfind as [Hin Heq].
    apply String.eqb_eq in Heq as <-. by apply in_map.
Qed.

(** X26: for an Admin, an employee id that is not in the table is answered
    404 by the update and by the deletion, which leave the store as it is;
    the delete operation of the store is not reached. *)
Theorem missing_employee_is_404 (Number : string -> number) (now : Z)
    (employee_delete : string -> M Client unit)
    (caller : option AuthUser) (c : Client) (id : string) :
  caller_is_Admin caller ->
  ~ In id (map employee_id (employee c)) ->
  (forall body,
     updateEmployee Number now
       {| ue_user := caller; ue_employeeId := id; ue_body := body |} c
     = (c, Next (HttpError 404 "Employee not found.")))
  /\ deleteEmployee employee_delete {| de_user := caller; de_employeeId := id |} c
     = (c, Next (HttpError 404 "Employee not found.")).
Proof.
  intros Hadmin%not_Admin_spec Hid.
  assert (List.find (fun x => String.eqb (employee_id x) id) (employee c) = None)
    as Hfind.
  { destruct (List.find _ (employee c)) as [e|] eqn:Hfind; [|done].
    exfalso. apply Hid. apply List.find_some in Hfind as [Hin Heq].
    apply String.eqb_eq in Heq as <-. by apply in_map. }
  unfold updateEmployee, updateEmployee_body, deleteEmployee,
    deleteEmployee_body, handler, employee_findUnique, createHttpError,
    throw_if, bind, get, ret, throw.
  simpl. rewrite Hadmin, Hfind. done.
Qed.

End EmployeesMore.

(** ** The expenses router *)

Module ExpensesRouting.
Import JS ExpensesRouter.

(** X25: the route [/info] of the expenses router is shadowed by the route
    [/:expenseId] registered before it: a GET or HEAD request whose path
    matches [/info] is dispatched to [getExpenseById], and no request at all
    is dispatched to [getExpensesInfo]; every stack that is dispatched
    starts with the authentication middleware. *)
Theorem info_route_is_shadowed (m : Method) (path : string) :
  (forall stack, dispatch m path = Some stack ->
     ~ In getExpensesInfo stack /\ head stack = Some authenticateToken)
  /\ (matches (compile "/info") path = true ->
      m = GET \/ m = HEAD ->
      dispatch m path = Some [authenticateToken; getExpenseById]).
Proof.
  split.
  - intros stack. unfold dispatch. simpl.
    destruct (segment_of path) as [seg|]; simpl;
      destruct (String.eqb path "" || String.eqb path "/");
      destruct m; simpl; intros [= <-]; (split; [|done]);
      simpl; intuition discriminate.
  - intros Hinfo Hm. unfold dispatch. simpl in *.
    destruct (segment_of path) as [seg|] eqn:Hseg; [|done].
    assert (String.eqb path "" || String.eqb path "/" = false) as Hroot.
    { apply orb_false_iff. split; apply String.eqb_neq; intros ->; done. }
    destruct Hm as [-> | ->]; simpl; by rewrite Hroot.
Qed.

End ExpensesRouting.

(** ** More scenarios on the sample data *)

Module MoreScenarios.
Import JS Samples MoreSamples.

Ltac by_evaluation := vm_compute; reflexivity.

Lemma one_token_each_in_store : StoreInvariants.one_token_per_user store.
Proof.
  apply (bool_decide_unpack (NoDup (StoreInvariants.token_users store))).
  vm_compute. exact I.
Defined.

Lemma links_resolve_in_store : StoreInvariants.links_resolve store.
Proof.
  intros id u eid Hu Hlink.
  assert (map_Forall
            (fun _ v =>
               default true
                 ((fun e => bool_decide (is_Some (Mongoose.employees store !! e)))
                    <$> Mongoose.user_employee v) = true)
            (Mongoose.users store)) as Hall.
  { apply (bool_decide_unpack _). vm_compute. exact I. }
  specialize (Hall id u Hu). cbv beta in Hall. rewrite Hlink in Hall.
  simpl in Hall.
  by apply bool_decide_eq_true in Hall.
Defined.

Lemma ids_of_store_are_ObjectIds id :
  is_Some (Mongoose.users store !! id) -> Mongoose.castObjectId id = Some id.
Proof.
  intros [u Hu].
  assert (map_Forall (fun k _ => Mongoose.castObjectId k = Some k)
            (Mongoose.users store)) as Hall.
  { apply (bool_decide_unpack _). vm_compute. exact I. }
  exact (Hall id u Hu).
Defined.

Lemma guest_is_no_Admin : ~ Callers.caller_is_Admin (Some the_guest).
Proof. intros (a & [= <-] & Hrole). discriminate Hrole. Defined.

Lemma ids_of_client_are_distinct :
  NoDup (map Prisma.employee_id (Prisma.employee client)).
Proof.
  apply (bool_decide_unpack _). vm_compute. exact I.
Defined.

Lemma zz_is_no_employee : ~ In "zz" (map Prisma.employee_id (Prisma.employee client)).
Proof. simpl. intros [H|[H|[H|[H|[]]]]]; discriminate H. Defined.

(** *** Users over Mongoose *)

(** A registration without an email gets 400, one with Bob's email 409. *)
Lemma registrations_that_are_refused :
  Mongoose.registerUser collaborators registered_at fresh_ids (registration "") store
  = (store, Next (HttpError 400 "Missing required fields."))
  /\ Mongoose.registerUser collaborators registered_at fresh_ids
       (registration "bob@fire.example") store
     = (store, Next (HttpError 409 "Email already registered.")).
Proof.
  split.
  - apply (proj1 (UsersMongooseMore.registerUser_rejections collaborators registered_at
                    fresh_ids (registration "") store)).
    reflexivity.
  - apply (proj2 (UsersMongooseMore.registerUser_rejections collaborators registered_at
                    fresh_ids (registration "bob@fire.example") store));
      [reflexivity|].
    exists bob_id, bob. split; reflexivity.
Defined.

(** Dee registers and logs in a minute later: the user and the expiry are
    those of the registration, the token is signed at the login. *)
Lemma dee_registers_and_logs_in :
  Mongoose.loginUser collaborators logged_in_at (login "dee@fire.example" "hunter2")
    store_with_dee
  = (store_with_dee,
     Responded
       (Mongoose.Json_session 200 dee_view
          (Mongoose.jwt_sign collaborators logged_in_at
             (Mongoose.view_id dee_view) 86400000)
          86400000)).
Proof.
  apply (UsersMongooseMore.register_then_login collaborators registered_at
           logged_in_at fresh_ids
           (registration "dee@fire.example") store store_with_dee 201
           dee_view dee_token 86400000);
    by_evaluation.
Defined.

(** Dee registers and is found under the id of the answer. *)
Lemma dee_registers_and_is_found :
  Mongoose.getUserById (Mongoose.view_id dee_view) store_with_dee
  = (store_with_dee, Responded (Mongoose.Json_user 200 dee_view)).
Proof.
  apply (UsersMongooseMore.register_then_getUserById collaborators registered_at fresh_ids
           (registration "dee@fire.example") store store_with_dee 201
           dee_view dee_token 86400000);
    by_evaluation.
Defined.

(** Bob logs in for a day. *)
Lemma bob_logs_in :
  exists u,
    Mongoose.users store !! bob_id = Some u
    /\ Mongoose.bcrypt_compare collaborators "secret-bob" (Mongoose.user_password u)
       = true.
Proof.
  destruct (proj2 (UsersMongooseMore.loginUser_answer collaborators logged_in_at
                     (login "bob@fire.example" "secret-bob") store)
              200
              {| Mongoose.view_id := bob_id;
                 Mongoose.view_email := "bob@fire.example";
                 Mongoose.view_firstName := "Bob";
                 Mongoose.view_lastName := "Builder";
                 Mongoose.view_role := Mongoose.Guest;
                 Mongoose.view_image := None;
                 Mongoose.view_employee := Some (bob_employee_id, employee_of bob) |}
              (Mongoose.jwt_sign collaborators logged_in_at bob_id 86400000) 86400000)
    as (_ & _ & _ & u & Hu & _ & _ & Hcompare); [by_evaluation|].
  exists u. split; [exact Hu|exact Hcompare].
Defined.

(** No email gets 400 and the email of a stranger 404. *)
Lemma reset_emails_that_are_refused :
  Mongoose.sendResetPasswordEmail collaborators asked_at 5000 fresh_ids (ask_reset None) store
  = (store, Next (HttpError 400 "Email not provided."))
  /\ Mongoose.sendResetPasswordEmail collaborators asked_at 5000 fresh_ids
       (ask_reset (Some "eve@fire.example")) store
     = (store, Next (HttpError 404 "User not found.")).
Proof.
  split.
  - apply (proj1 (UsersMongooseMore.sendResetPasswordEmail_refusals collaborators asked_at
                    5000 fresh_ids (ask_reset None) store)).
    reflexivity.
  - apply (proj2 (UsersMongooseMore.sendResetPasswordEmail_refusals collaborators asked_at
                    5000 fresh_ids (ask_reset (Some "eve@fire.example")) store));
      [reflexivity|].
    apply (bool_decide_unpack
             (map_Forall (fun _ u => Mongoose.user_email u <> "eve@fire.example")
                (Mongoose.users store))).
    vm_compute. exact I.
Defined.

(** Cyd, who holds no token, asks for a reset email: one message goes out and
    the users are as before. *)
Lemma cyd_asks_for_a_reset :
  exists html,
    Mongoose.outbox
      (Mongoose.sendResetPasswordEmail collaborators asked_at 5000 fresh_ids
         (ask_reset (Some "cyd@fire.example")) store).1
    = [ {| Mongoose.mail_from := "noreply@fire.example";
           Mongoose.mail_to := "cyd@fire.example";
           Mongoose.mail_subject := "Password Reset Request";
           Mongoose.mail_html := html |} ]
    /\ Mongoose.users
         (Mongoose.sendResetPasswordEmail collaborators asked_at 5000 fresh_ids
            (ask_reset (Some "cyd@fire.example")) store).1
       = Mongoose.users store.
Proof.
  destruct (UsersMongooseMore.sendResetPasswordEmail_answered collaborators asked_at 5000
              fresh_ids (ask_reset (Some "cyd@fire.example")) store
              (Mongoose.sendResetPasswordEmail collaborators asked_at 5000 fresh_ids
                 (ask_reset (Some "cyd@fire.example")) store).1
              (Mongoose.Json_message 200
                 "An email has been sent to reset your password."))
    as (id & u & t & html & _ & _ & _ & Houtbox & Husers & _); [by_evaluation|].
  exists html. split; [exact Houtbox|exact Husers].
Defined.

(** Cyd asks for a reset email and resets the password with the link. *)
Lemma cyd_resets_the_password :
  exists s1 s2,
    Mongoose.sendResetPasswordEmail collaborators asked_at 5000 fresh_ids
      (ask_reset (Some "cyd@fire.example")) store
    = (s1, Responded
             (Mongoose.Json_message 200
                "An email has been sent to reset your password."))
    /\ Mongoose.resetPassword collaborators
         (reset cyd_id (Mongoose.jwt_sign collaborators asked_at cyd_id 3600000) "n3w") s1
       = (s2, Responded
                (Mongoose.Json_message 200
                   "Your password has been reset successfully."))
    /\ Mongoose.tokens s2 = Mongoose.tokens store.
Proof.
  destruct (UsersMongooseMore.reset_flow_round_trip collaborators asked_at 5000 fresh_ids
              "cyd@fire.example" "n3w" cyd_html store cyd_id cyd)
    as (s1 & s2 & Hsend & Hreset & _ & _ & Htokens & _); try by_evaluation.
  exists s1, s2. split; [exact Hsend|]. split; [exact Hreset|exact Htokens].
Defined.

(** The twelve characters "abcdefghijkl" name Lena, and her token, expired
    as it is, resets her password. *)
Lemma twelve_characters_name_lena :
  Mongoose.castObjectId "abcdefghijkl" = Some lena_id
  /\ exists s' r,
       Mongoose.resetPassword collaborators
         (reset "abcdefghijkl" "reset.lena.1" "n3w") store_with_lena
       = (s', Responded r).
Proof.
  split; [by_evaluation|].
  apply (proj1 (UsersMongooseMore.resetPassword_answered_iff collaborators
                  (reset "abcdefghijkl" "reset.lena.1" "n3w") store_with_lena)).
  split; [|reflexivity].
  exists lena_id, lena, lena_token_id, lena_token.
  repeat split; by_evaluation.
Defined.

(** The sample store keeps one token for each user through a request and a
    reset. *)
Lemma tokens_of_store_stay_one_each :
  StoreInvariants.one_token_per_user
    (Mongoose.sendResetPasswordEmail collaborators asked_at 5000 fresh_ids
       (ask_reset (Some "cyd@fire.example")) store).1
  /\ StoreInvariants.one_token_per_user
       (Mongoose.resetPassword collaborators (reset bob_id "reset.bob.1" "n3w")
          store).1
  /\ StoreInvariants.tokens_distinct store.
Proof.
  apply (UsersMongooseMore.reset_flow_keeps_one_token_per_user collaborators asked_at 5000
           fresh_ids (ask_reset (Some "cyd@fire.example"))
           (reset bob_id "reset.bob.1" "n3w") store).
  exact one_token_each_in_store.
Defined.

(** The links of the sample store survive a registration and a deletion. *)
Lemma links_of_store_are_kept :
  (StoreInvariants.links_distinct store_with_dee
   /\ StoreInvariants.links_resolve store_with_dee)
  /\ (StoreInvariants.links_distinct
        (Mongoose.deleteUser (deletion bob_id (Some cyd_id)) store).1
      /\ StoreInvariants.links_resolve
           (Mongoose.deleteUser (deletion bob_id (Some cyd_id)) store).1).
Proof.
  apply (UsersMongooseMore.links_are_kept collaborators registered_at fresh_ids
           (registration "dee@fire.example") (deletion bob_id (Some cyd_id))
           store).
  - exact Scenarios.links_of_store.
  - exact links_resolve_in_store.
Defined.

(** Deleting Bob leaves his reset token in the store. *)
Lemma bob_leaves_his_token :
  Mongoose.tokens (Mongoose.deleteUser (deletion bob_id (Some cyd_id)) store).1
  = Mongoose.tokens store
  /\ is_Some (Mongoose.tokens store !! token_id).
Proof.
  destruct (UsersMongooseMore.deleteUser_frame (deletion bob_id (Some cyd_id))
              store
              (Mongoose.deleteUser (deletion bob_id (Some cyd_id)) store).1
              (Mongoose.Json_message 200 "User deleted successfully."))
    as (id & u & eid & _ & _ & _ & _ & _ & _ & Htokens & _); [by_evaluation|].
  split; [exact Htokens|]. by eexists.
Defined.

(** Without his employee record Bob is not deleted. *)
Lemma bob_without_employee_stays :
  Mongoose.deleteUser (deletion bob_id (Some cyd_id)) store_without_employees
  = (store_without_employees, Next (HttpError 404 "Employee not found.")).
Proof.
  apply (proj2 (UsersMongooseMore.deleteUser_refusals
                  (deletion bob_id (Some cyd_id)) store_without_employees)
           bob_id bob); try reflexivity.
  discriminate.
Defined.

(** The three users of the sample store are listed. *)
Lemma users_of_store_are_listed :
  exists views,
    Mongoose.getUsers store = (store, Responded (Mongoose.Json_users 200 views))
    /\ length views = 3%nat.
Proof.
  destruct (UsersMongooseMore.getUsers_agrees_with_getUserById store
              ids_of_store_are_ObjectIds)
    as (views & Hget & Hlength & _).
  exists views. split; [exact Hget|exact Hlength].
Defined.

(** *** Users over Prisma *)

(** The guest takes another first name and is then found under it. *)
Lemma guest_is_renamed :
  Prisma.getUserById "guest-1"
    (Prisma.updateUser (fun _ => true) (fun password _ => password)
       (rename the_guest "guest-1" "Gil") client).1
  = ((Prisma.updateUser (fun _ => true) (fun password _ => password)
        (rename the_guest "guest-1" "Gil") client).1,
     Responded (Prisma.Json_user 200 (Prisma.exclude_password "guest-1" gil_row))).
Proof.
  destruct (UsersPrismaMore.updateUser_answered (fun _ => true)
              (fun password _ => password) (rename the_guest "guest-1" "Gil")
              client
              (Prisma.updateUser (fun _ => true) (fun password _ => password)
                 (rename the_guest "guest-1" "Gil") client).1
              (Prisma.Json_user 200 (Prisma.exclude_password "guest-1" gil_row)))
    as (u & u' & H); [by_evaluation|].
  apply H.
Defined.

Lemma guest_email_is_its_own id' v :
  Prisma.user client !! id' = Some v ->
  Prisma.user_email v = Prisma.user_email guest_row -> id' = "guest-1".
Proof.
  assert (map_Forall
            (fun k w =>
               Prisma.user_email w = Prisma.user_email guest_row -> k = "guest-1")
            (Prisma.user client)) as Hall.
  { apply (bool_decide_unpack _). vm_compute. exact I. }
  exact (Hall id' v).
Defined.

(** The guest of the sample makes itself Admin. *)
Lemma guest_of_sample_becomes_Admin :
  Prisma.updateUser (fun _ => true) (fun password _ => password)
    {| Prisma.uu_user := Some the_guest;
       Prisma.uu_userId := "guest-1";
       Prisma.uu_body := Updates.only_role "Admin";
       Prisma.uu_file := false |} client
  = (Prisma.set_user (insert "guest-1" (Updates.with_role Prisma.Admin guest_row))
       client,
     Responded
       (Prisma.Json_user 200
          (Prisma.exclude_password "guest-1"
             (Updates.with_role Prisma.Admin guest_row)))).
Proof.
  apply (UsersPrismaMore.guest_makes_itself_Admin (fun _ => true)
           (fun password _ => password) client "guest-1" guest_row);
    [reflexivity|reflexivity|exact guest_email_is_its_own].
Defined.

(** The guest does not get the email of the admin. *)
Lemma guest_does_not_get_the_email_of_the_admin :
  Prisma.updateUser (fun _ => true) (fun password _ => password)
    (take_email "root@fire.example") client
  = (client, Next (HttpError 409 "User already exists.")).
Proof.
  apply (UsersPrismaMore.updateUser_email_conflict (fun _ => true)
           (fun password _ => password) (take_email "root@fire.example") client
           guest_row "root@fire.example" "admin-1" admin_row);
    try reflexivity; try discriminate; try (by left).
  right. by exists the_guest.
Defined.

(** The guest deletes its account and is no longer found; the admin is. *)
Lemma guest_leaves_and_is_gone :
  Prisma.getUserById "guest-1" (Prisma.deleteUser guest_leaves client).1
  = ((Prisma.deleteUser guest_leaves client).1,
     Next (HttpError 404 "User not found."))
  /\ (Prisma.getUserById "admin-1" (Prisma.deleteUser guest_leaves client).1).2
     = (Prisma.getUserById "admin-1" client).2.
Proof.
  destruct (UsersPrismaMore.prisma_deleteUser_then_getUserById guest_leaves client
              (Prisma.deleteUser guest_leaves client).1 (Prisma.SendStatus 204))
    as (_ & _ & _ & _ & Hgone & Hothers); [by_evaluation|].
  split; [exact Hgone|]. apply Hothers. discriminate.
Defined.

(** The two users of the Prisma sample are listed. *)
Lemma users_of_client_are_listed :
  exists views,
    Prisma.getUsers client = (client, Responded (Prisma.Json_users 200 views))
    /\ length views = 2%nat.
Proof.
  destruct (UsersPrismaMore.prisma_getUsers_agrees_with_getUserById client)
    as (views & Hget & Hlength & _).
  exists views. split; [exact Hget|exact Hlength].
Defined.

(** *** Employees *)

(** The guest changes no employee, whatever the store would do. *)
Lemma guest_changes_no_employee :
  Prisma.deleteEmployee refusing
    {| Prisma.de_user := Some the_guest; Prisma.de_employeeId := "e1" |} client
  = (client, Next (HttpError 403 "This user is not allowed to delete employees."))
  /\ Prisma.updateEmployee Number_decimal 2000
       {| Prisma.ue_user := Some the_guest;
          Prisma.ue_employeeId := "e3";
          Prisma.ue_body := Prisma.ue_body (set_isEmployed "e3" (JBool true)) |}
       client
     = (client, Next (HttpError 403 "This user is not allowed to update employees.")).
Proof.
  destruct (EmployeesMore.employee_mutations_need_Admin Number_decimal 2000
              refusing refusing (Some the_guest) client guest_is_no_Admin)
    as (_ & Hupdate & Hdelete).
  split; [apply Hdelete|apply Hupdate].
Defined.

(** Employing e3 touches neither the other rows nor the users. *)
Lemma e3_is_employed_alone :
  exists e,
    List.find (fun x => String.eqb (Prisma.employee_id x) "e3")
      (Prisma.employee client) = Some e
    /\ length (Prisma.employee client_e3_employed) = 4%nat
    /\ (In jane (Prisma.employee client_e3_employed)
        <-> In jane (Prisma.employee client))
    /\ Prisma.employee_firstName e3_employed = Prisma.employee_firstName e
    /\ Prisma.user client_e3_employed = Prisma.user client.
Proof.
  destruct (EmployeesMore.updateEmployee_frame Number_decimal 2000
              (set_isEmployed "e3" (JBool true)) client client_e3_employed 200
              e3_employed)
    as (e & Hfind & _ & Hothers & _ & Hdistinct & _ & _ & Hfirst & _ & _ & _ & _
        & _ & Husers & _);
    [by_evaluation|].
  exists e. split; [exact Hfind|].
  split; [apply (Hdistinct ids_of_client_are_distinct)|].
  split; [apply Hothers; discriminate|].
  split; [apply Hfirst; reflexivity|exact Husers].
Defined.

(** Employing e3 a second time, later, changes nothing. *)
Lemma e3_is_employed_once :
  exists c'',
    Prisma.updateEmployee Number_decimal 9000 (set_isEmployed "e3" (JBool true))
      client_e3_employed
    = (c'', Responded (Prisma.Json_employee 200 e3_employed))
    /\ Prisma.employee c'' ≡ₚ Prisma.employee client_e3_employed.
Proof.
  destruct (EmployeesMore.updateEmployee_idempotent Number_decimal 2000 9000
              (set_isEmployed "e3" (JBool true)) client client_e3_employed 200
              e3_employed)
    as (c'' & Hagain & Hrows & _); [by_evaluation|right; by exists true|].
  exists c''. split; [exact Hagain|exact Hrows].
Defined.



(** Jane Doe of the listing is the employee that the lookup of e1 answers,
    and there is no employee zz. *)
Lemma jane_is_looked_up :
  Prisma.getEmployeeById "e1" client
  = (client,
     Responded
       (Prisma.Json_employee_projects 200 (Prisma.include_projects client jane)))
  /\ Prisma.getEmployeeById "zz" client
     = (client, Next (HttpError 404 "Employee not found.")).
Proof.
  destruct (EmployeesMore.getEmployeeById_agrees_with_listing Number_decimal
              (listing (Some "Jane") (Some "1") None) client
              ids_of_client_are_distinct)
    as [Hlisted Hmissing].
  split.
  - apply (Hlisted 200
             {| Prisma.pageInfo :=
                  {| Prisma.total := Fin 2; Prisma.currentPage := Fin 1;
                     Prisma.lastPage := Fin 2; Prisma.perPage := Fin 1 |};
                Prisma.employees := [ Prisma.include_projects client jane ] |}
             (Prisma.include_projects client jane));
      [by_evaluation|by left].
  - apply Hmissing. exact zz_is_no_employee.
Defined.

(** The admin finds no employee zz to update or to delete. *)
Lemma admin_finds_no_zz :
  Prisma.updateEmployee Number_decimal 2000 (set_isEmployed "zz" (JBool true))
    client
  = (client, Next (HttpError 404 "Employee not found."))
  /\ Prisma.deleteEmployee refusing
       {| Prisma.de_user := Some the_admin; Prisma.de_employeeId := "zz" |} client
     = (client, Next (HttpError 404 "Employee not found.")).
Proof.
  destruct (EmployeesMore.missing_employee_is_404 Number_decimal 2000 refusing
              (Some the_admin) client "zz")
    as [Hupdate Hdelete].
  - by exists the_admin.
  - exact zz_is_no_employee.
  - split; [apply Hupdate|exact Hdelete].
Defined.

(** *** Expenses *)

(** A request for the expenses info is taken for an expense called info. *)
Lemma info_is_taken_for_an_id :
  ExpensesRouter.dispatch ExpensesRouter.GET "/info"
  = Some [ ExpensesRouter.authenticateToken; ExpensesRouter.getExpenseById ]
  /\ ExpensesRouter.dispatch ExpensesRouter.HEAD "/Info/"
     = Some [ ExpensesRouter.authenticateToken; ExpensesRouter.getExpenseById ].
Proof.
  split.
  - apply (proj2 (ExpensesRouting.info_route_is_shadowed ExpensesRouter.GET
                    "/info")); [reflexivity|by left].
  - apply (proj2 (ExpensesRouting.info_route_is_shadowed ExpensesRouter.HEAD
                    "/Info/")); [reflexivity|by right].
Defined.

End MoreScenarios.
